(** * The XBee packet engine of the Make Controller firmware (xbee.c)

    A shallow embedding of [firmware/trunk/controller/makingthings/xbee.c]:
    the receiver state machine [XBee_GetPacket], the sender
    [XBee_SendPacket], the packet constructors, the typed readers
    [XBee_Read*Packet] with their nullable output pointers, and the
    command-mode helper [XBeeConfig_SetPacketApiMode].

    The serial port, the scheduler and the caller's memory are explicit
    state: a [World] carries the receive queue and the trace of transport
    writes and sleeps, a [gmap] from addresses to values is the memory the
    output pointers point into. *)

From Stdlib Require Import ZArith Lia Bool Ascii.
From stdpp Require Import base option list gmap strings.

Local Open Scope Z_scope.

(** ** Constants of xbee.h

    [xbee.h] is not among the sources.  Its constants are the fields of a
    class, so that every definition below is the code of xbee.c over an
    arbitrary header; [header_ok] states what the C compiler and the wire
    format demand of them. *)

Class XBeeHeader := {
  XBEE_PACKET_STARTBYTE : Z;
  XBEE_MAX_PACKET_SIZE : Z;
  XBEE_INPUTS : Z;
  XBEE_TX64 : Z;
  XBEE_TX16 : Z;
  XBEE_TXSTATUS : Z;
  XBEE_RX64 : Z;
  XBEE_RX16 : Z;
  XBEE_ATCOMMAND : Z;
  XBEE_ATCOMMANDQ : Z;
  XBEE_ATCOMMANDRESPONSE : Z;
  XBEE_IO64 : Z;
  XBEE_IO16 : Z;
  CONTROLLER_OK : Z;
  CONTROLLER_ERROR_SUBSYSTEM_INACTIVE : Z
}.

(** The states of the receiver, [packet->rxState]. *)
Inductive RxState :=
  | XBEE_PACKET_RX_START
  | XBEE_PACKET_RX_LENGTH_1
  | XBEE_PACKET_RX_LENGTH_2
  | XBEE_PACKET_RX_PAYLOAD
  | XBEE_PACKET_RX_CRC.

Definition RxState_eqb (a b : RxState) : bool :=
  match a, b with
  | XBEE_PACKET_RX_START, XBEE_PACKET_RX_START
  | XBEE_PACKET_RX_LENGTH_1, XBEE_PACKET_RX_LENGTH_1
  | XBEE_PACKET_RX_LENGTH_2, XBEE_PACKET_RX_LENGTH_2
  | XBEE_PACKET_RX_PAYLOAD, XBEE_PACKET_RX_PAYLOAD
  | XBEE_PACKET_RX_CRC, XBEE_PACKET_RX_CRC => true
  | _, _ => false
  end.

(** ** Machine integers *)

(** The value of an [int] expression: two's complement on 32 bits. *)
Definition int32 (z : Z) : Z := (z + 2 ^ 31) mod 2 ^ 32 - 2 ^ 31.

Definition uint8 (z : Z) : Z := z mod 2 ^ 8.
Definition uint16 (z : Z) : Z := z mod 2 ^ 16.
Definition uint64 (z : Z) : Z := z mod 2 ^ 64.

(** ** The packet

    [XBeePacket] of xbee.h: the byte [apiId] followed by the union of the
    per-kind payload structs, then the receiver's bookkeeping.  [bytes] is
    the memory of [apiId] and the union, in address order, since both
    [XBee_GetPacket] and [XBee_SendPacket] walk it through a [uint8*] that
    starts at the packet's first byte; its length is the room the header
    gives them.  [crc] is a [uint8] (the receiver compares it with 0xFF
    and the sender sends [0xFF - crc] as one byte), [rxState], [length]
    and [index] are [int]s.  [dataPtr] is kept as an offset from the
    packet's first byte.  [plength] is the field [length] of the source. *)
Record XBeePacket := mkPacket {
  bytes : list Z;
  crc : Z;
  dataPtr : Z;
  rxState : RxState;
  plength : Z;
  index : Z
}.

Definition capacity (p : XBeePacket) : Z := Z.of_nat (length (bytes p)).

(** [((uint8* )packet)[off]], for an offset inside [bytes]. *)
Definition byte_at (p : XBeePacket) (off : Z) : Z :=
  nth (Z.to_nat off) (bytes p) 0.

Definition apiId (p : XBeePacket) : Z := byte_at p 0.

Definition set_bytes (bs : list Z) (p : XBeePacket) : XBeePacket :=
  mkPacket bs (crc p) (dataPtr p) (rxState p) (plength p) (index p).
Definition set_crc (c : Z) (p : XBeePacket) : XBeePacket :=
  mkPacket (bytes p) c (dataPtr p) (rxState p) (plength p) (index p).
Definition set_dataPtr (d : Z) (p : XBeePacket) : XBeePacket :=
  mkPacket (bytes p) (crc p) d (rxState p) (plength p) (index p).
Definition set_rxState (s : RxState) (p : XBeePacket) : XBeePacket :=
  mkPacket (bytes p) (crc p) (dataPtr p) s (plength p) (index p).
Definition set_plength (l : Z) (p : XBeePacket) : XBeePacket :=
  mkPacket (bytes p) (crc p) (dataPtr p) (rxState p) l (index p).
Definition set_index (i : Z) (p : XBeePacket) : XBeePacket :=
  mkPacket (bytes p) (crc p) (dataPtr p) (rxState p) (plength p) i.

#[global] Arguments set_bytes _ _ /.
#[global] Arguments set_crc _ _ /.
#[global] Arguments set_dataPtr _ _ /.
#[global] Arguments set_rxState _ _ /.
#[global] Arguments set_plength _ _ /.
#[global] Arguments set_index _ _ /.

(** [((uint8* )packet)[off] = v]: [None] when the offset is outside the
    memory of [apiId] and the union. *)
Definition poke (off v : Z) (p : XBeePacket) : option XBeePacket :=
  if (0 <=? off) && (off <? capacity p)
  then Some (set_bytes (<[Z.to_nat off := uint8 v]> (bytes p)) p)
  else None.

Definition set_apiId (v : Z) (p : XBeePacket) : XBeePacket :=
  set_bytes (<[0%nat := uint8 v]> (bytes p)) p.

(** xbee.c, XBee_ResetPacket. *)
Definition XBee_ResetPacket (packet : XBeePacket) : XBeePacket :=
  set_apiId 0
    (set_index 0
      (set_plength 0
        (set_rxState XBEE_PACKET_RX_START
          (set_crc 0
            (set_dataPtr 0 packet))))).

(** ** The serial port and the scheduler

    [rxq] holds what [Serial_GetChar] will return, call after call (a byte,
    or -1); [trace] records, oldest first, every [Serial_SetChar],
    [Serial_Write] and [Sleep] the code performs.  [xbee] is [XBee != NULL];
    [serial_ok] says whether [Serial_SetActive( 1 )] returns
    [CONTROLLER_OK]. *)
Inductive Event :=
  | SetChar (c : Z)
  | Write (buf : list Z)
  | Slept (ms : Z).

Record World := mkWorld {
  xbee : bool;
  serial_ok : bool;
  rxq : list Z;
  trace : list Event
}.

Definition emit (e : Event) (w : World) : World :=
  mkWorld (xbee w) (serial_ok w) (rxq w) (trace w ++ [e]).
Definition set_rxq (q : list Z) (w : World) : World :=
  mkWorld (xbee w) (serial_ok w) q (trace w).
Definition set_xbee (b : bool) (w : World) : World :=
  mkWorld b (serial_ok w) (rxq w) (trace w).

#[global] Arguments emit _ _ /.
#[global] Arguments set_rxq _ _ /.
#[global] Arguments set_xbee _ _ /.

Section Engine.
Context `{hdr : XBeeHeader}.

(** xbee.c, XBee_SetActive.  Creating the task only records the subsystem
    as active: the task's body runs on its own.  Turning an inactive
    subsystem off reads through the null [XBee]: [None]. *)
Definition XBee_SetActive (state : Z) (w : World) : option (Z * World) :=
  if negb (state =? 0) then
    if negb (xbee w) then
      if negb (serial_ok w)
      then Some (CONTROLLER_ERROR_SUBSYSTEM_INACTIVE, w)
      else Some (CONTROLLER_OK, set_xbee true w)
    else Some (CONTROLLER_OK, w)
  else
    if xbee w then Some (CONTROLLER_OK, set_xbee false w) else None.

(** ** Receiving *)

(** What one turn of the [while] loop of [XBee_GetPacket] does with the
    next character: go round again, or return. *)
Inductive Flow :=
  | Next (p : XBeePacket)
  | Return (r : Z) (p : XBeePacket).

(** The body of the loop of [XBee_GetPacket], for a character that is
    not -1. *)
Definition rx_char (packet : XBeePacket) (newChar : Z) : option Flow :=
  let packet :=
    if (newChar =? XBEE_PACKET_STARTBYTE)
       && negb (RxState_eqb (rxState packet) XBEE_PACKET_RX_START)
    then XBee_ResetPacket packet
    else packet in
  match rxState packet with
  | XBEE_PACKET_RX_START =>
      if newChar =? XBEE_PACKET_STARTBYTE
      then Some (Next (set_rxState XBEE_PACKET_RX_LENGTH_1 packet))
      else Some (Next packet)
  | XBEE_PACKET_RX_LENGTH_1 =>
      Some (Next (set_rxState XBEE_PACKET_RX_LENGTH_2
                    (set_plength (int32 (Z.shiftl newChar 8)) packet)))
  | XBEE_PACKET_RX_LENGTH_2 =>
      let l := int32 (plength packet + newChar) in
      let l := if l >? XBEE_MAX_PACKET_SIZE then XBEE_MAX_PACKET_SIZE else l in
      Some (Next (set_rxState XBEE_PACKET_RX_PAYLOAD (set_plength l packet)))
  | XBEE_PACKET_RX_PAYLOAD =>
      packet ← poke (dataPtr packet) newChar packet;
      let packet := set_dataPtr (dataPtr packet + 1) packet in
      let packet := set_index (int32 (index packet + 1)) packet in
      let packet :=
        if index packet >=? plength packet
        then set_rxState XBEE_PACKET_RX_CRC packet
        else packet in
      Some (Next (set_crc (uint8 (crc packet + newChar)) packet))
  | XBEE_PACKET_RX_CRC =>
      let packet := set_crc (uint8 (crc packet + newChar)) packet in
      let packet := set_rxState XBEE_PACKET_RX_START packet in
      if crc packet =? 255
      then Some (Return 1 packet)
      else Some (Return 0 (XBee_ResetPacket packet))
  end.

(** The [while( Serial_GetReadable( ) )] loop over the characters the port
    holds: the result, the packet, and the characters left unread. *)
Fixpoint rx_loop (packet : XBeePacket) (q : list Z)
  : option (Z * XBeePacket * list Z) :=
  match q with
  | [] => Some (0, packet, [])
  | newChar :: q' =>
      if newChar =? -1 then Some (0, packet, q')
      else
        match rx_char packet newChar with
        | None => None
        | Some (Return r packet') => Some (r, packet', q')
        | Some (Next packet') => rx_loop packet' q'
        end
  end.

(** xbee.c, XBee_GetPacket. *)
Definition XBee_GetPacket (w : World) (packet : XBeePacket)
  : option (Z * World * XBeePacket) :=
  '(st, w) ← XBee_SetActive 1 w;
  if negb (CONTROLLER_OK =? st)
  then Some (CONTROLLER_ERROR_SUBSYSTEM_INACTIVE, w, packet)
  else
    '(r, packet', q') ← rx_loop packet (rxq w);
    Some (r, set_rxq q' w, packet').

(** ** Sending *)

(** The [switch( packet->apiId )] of [XBee_SendPacket]. *)
Definition send_size (packet : XBeePacket) (datalength : Z) : Z :=
  let a := apiId packet in
  if (a =? XBEE_RX64) || (a =? XBEE_TX64) then int32 (datalength + 11)
  else if (a =? XBEE_RX16) || (a =? XBEE_TX16) || (a =? XBEE_ATCOMMANDRESPONSE)
  then int32 (datalength + 5)
  else if a =? XBEE_TXSTATUS then 3
  else if (a =? XBEE_ATCOMMAND) || (a =? XBEE_ATCOMMANDQ)
  then int32 (datalength + 4)
  else 0.

(** [while( size-- ) { Serial_SetChar( *p ); packet->crc += *p++; }] over
    the memory [mem] that [p] still has before it: [None] when [p] leaves
    it. *)
Fixpoint send_loop (size : nat) (mem : list Z) (c : Z) (w : World)
  : option (Z * World) :=
  match size with
  | O => Some (c, w)
  | S size' =>
      match mem with
      | [] => None
      | b :: mem' => send_loop size' mem' (uint8 (c + b)) (emit (SetChar b) w)
      end
  end.

(** xbee.c, XBee_SendPacket.  A negative [size] never makes [size--] zero
    before [p] has left the packet. *)
Definition XBee_SendPacket (w : World) (packet : XBeePacket) (datalength : Z)
  : option (Z * World * XBeePacket) :=
  '(st, w) ← XBee_SetActive 1 w;
  if negb (CONTROLLER_OK =? st)
  then Some (CONTROLLER_ERROR_SUBSYSTEM_INACTIVE, w, packet)
  else
    let w := emit (SetChar XBEE_PACKET_STARTBYTE) w in
    let size := send_size packet datalength in
    let w := emit (SetChar (Z.land (Z.shiftr size 8) 255)) w in
    let w := emit (SetChar (Z.land size 255)) w in
    let packet := set_crc 0 packet in
    if size <? 0 then None
    else
      '(c, w) ← send_loop (Z.to_nat size) (bytes packet) (crc packet) w;
      let packet := set_crc c packet in
      let w := emit (SetChar (255 - crc packet)) w in
      Some (CONTROLLER_OK, w, packet).

(** ** The caller's memory

    An output parameter is a pointer into the caller's memory: an address,
    0 for [NULL].  Each address holds one object (a [uint8], a [uint16], a
    [uint64], an [int] or a [uint8*]); an array of [int]s starting at [a]
    has its element [i] at [a + i].  A [uint8*] into the packet is held as
    its offset from the packet's first byte.  Reading or writing through
    [NULL] is [None]; an address nothing was written to reads as 0. *)
Definition store (a : N) (v : Z) (m : gmap N Z) : option (gmap N Z) :=
  if (a =? 0)%N then None else Some (<[a := v]> m).

Definition load (a : N) (m : gmap N Z) : option Z :=
  if (a =? 0)%N then None else Some (default 0 (m !! a)).

(** [if( ptr ) ...]. *)
Definition if_ptr (a : N) (body : gmap N Z → option (gmap N Z))
    (m : gmap N Z) : option (gmap N Z) :=
  if negb (a =? 0)%N then body m else Some m.

(** [for( i = from; ...; i++ ) body], for the [n] turns it makes. *)
Fixpoint for_loop {S : Type} (n : nat) (i : Z) (body : Z → S → option S)
    (s : S) : option S :=
  match n with
  | O => Some s
  | Datatypes.S n' => s' ← body i s; for_loop n' (i + 1) body s'
  end.

(** ** The payload structs

    Modelled from the spec: the packed structs of xbee.h behind the union
    of [XBeePacket] are missing; their fields are placed as the table of
    packet kinds gives them (section 3), which is the wire order that
    [XBee_SendPacket] streams and the sizes its [switch] accounts for.
    Each constant is the offset of a field from the packet's first byte,
    where [apiId] is. *)
Definition tx64_frameID : Z := 1.
Definition tx64_destination : Z := 2.
Definition tx64_options : Z := 10.
Definition tx64_data : Z := 11.
Definition tx16_frameID : Z := 1.
Definition tx16_destination : Z := 2.
Definition tx16_options : Z := 4.
Definition tx16_data : Z := 5.
Definition txStatus_frameID : Z := 1.
Definition txStatus_status : Z := 2.
Definition rx64_source : Z := 1.
Definition rx64_rssi : Z := 9.
Definition rx64_options : Z := 10.
Definition rx64_data : Z := 11.
Definition rx16_source : Z := 1.
Definition rx16_rssi : Z := 3.
Definition rx16_options : Z := 4.
Definition rx16_data : Z := 5.
Definition io64_source : Z := 1.
Definition io64_rssi : Z := 9.
Definition io64_options : Z := 10.
Definition io64_samples : Z := 11.
Definition io64_channelIndicators : Z := 12.
Definition io64_data : Z := 14.
Definition io16_source : Z := 1.
Definition io16_rssi : Z := 3.
Definition io16_options : Z := 4.
Definition io16_samples : Z := 5.
Definition io16_channelIndicators : Z := 6.
Definition io16_data : Z := 8.
Definition atCommand_frameID : Z := 1.
Definition atCommand_command : Z := 2.
Definition atCommand_parameters : Z := 4.
Definition atResponse_frameID : Z := 1.
Definition atResponse_command : Z := 2.
Definition atResponse_status : Z := 4.
Definition atResponse_value : Z := 5.

(** ** Building packets *)

(** [while( datalength-- ) *p++ = *data++;] with [p] at offset [off] of the
    packet and [src] the bytes the caller's pointer has before it. *)
Fixpoint copy_in (n : nat) (off : Z) (src : list Z) (xbp : XBeePacket)
  : option XBeePacket :=
  match n with
  | O => Some xbp
  | S n' =>
      match src with
      | [] => None
      | b :: src' => xbp ← poke off b xbp; copy_in n' (off + 1) src' xbp
      end
  end.

(** xbee.c, XBee_CreateATCommandPacket; [cmd] and [params] are the bytes
    behind the two pointers. *)
Definition XBee_CreateATCommandPacket (packet : XBeePacket) (frameID : Z)
    (cmd : list Z) (params : list Z) (datalength : Z) : option XBeePacket :=
  packet ← poke 0 XBEE_ATCOMMAND packet;
  packet ← poke atCommand_frameID frameID packet;
  packet ← copy_in 2 atCommand_command cmd packet;
  copy_in (Z.to_nat (uint8 datalength)) atCommand_parameters params packet.

(** xbee.c, XBee_CreateTX16Packet. *)
Definition XBee_CreateTX16Packet (xbp : XBeePacket) (frameID destination
    options : Z) (data : list Z) (datalength : Z)
  : option (bool * XBeePacket) :=
  xbp ← poke 0 XBEE_TX16 xbp;
  xbp ← poke tx16_frameID frameID xbp;
  xbp ← poke tx16_destination (Z.shiftr (uint16 destination) 8) xbp;
  xbp ← poke (tx16_destination + 1) (Z.land (uint16 destination) 255) xbp;
  xbp ← poke tx16_options options xbp;
  let xbp := set_plength (uint8 datalength + 5) xbp in
  xbp ← copy_in (Z.to_nat (uint8 datalength)) tx16_data data xbp;
  Some (true, xbp).

(** xbee.c, XBee_CreateTX64Packet, with the mask [0xFF * i] of the
    source. *)
Definition XBee_CreateTX64Packet (xbp : XBeePacket) (frameID destination
    options : Z) (data : list Z) (datalength : Z)
  : option (bool * XBeePacket) :=
  xbp ← poke 0 XBEE_TX64 xbp;
  xbp ← poke tx64_frameID frameID xbp;
  xbp ← for_loop 8 0
          (λ i xbp,
             poke (tx64_destination + i)
               (Z.land (Z.shiftr (uint64 destination) (8 * i)) (255 * i)) xbp)
          xbp;
  xbp ← poke tx64_options options xbp;
  let xbp := set_plength (uint8 datalength + 5) xbp in
  xbp ← copy_in (Z.to_nat (uint8 datalength)) tx64_data data xbp;
  Some (true, xbp).

(** ** Reading packets *)

(** The three statements that fill a [uint16] address from two bytes. *)
Definition read_address16 (xbp : XBeePacket) (source : Z) (srcAddress : N)
    (m : gmap N Z) : option (gmap N Z) :=
  m ← store srcAddress (uint16 (byte_at xbp source)) m;
  v ← load srcAddress m;
  m ← store srcAddress (uint16 (Z.shiftl v 8)) m;
  v ← load srcAddress m;
  store srcAddress (uint16 (v + byte_at xbp (source + 1))) m.

(** The loop that fills a [uint64] address: turn [i] shifts what the
    caller's variable holds by [i*8] and adds byte [i]. *)
Definition read_address64 (xbp : XBeePacket) (source : Z) (srcAddress : N)
    (m : gmap N Z) : option (gmap N Z) :=
  for_loop 8 0
    (λ i m,
       v ← load srcAddress m;
       m ← store srcAddress (uint64 (Z.shiftl v (i * 8))) m;
       v ← load srcAddress m;
       store srcAddress (uint64 (v + byte_at xbp (source + i))) m)
    m.

(** xbee.c, XBee_ReadRX16Packet. *)
Definition XBee_ReadRX16Packet (xbp : XBeePacket)
    (srcAddress sigstrength options data datalength : N) (m : gmap N Z)
  : option (bool * gmap N Z) :=
  if negb (apiId xbp =? XBEE_RX16) then Some (false, m)
  else
    m ← if_ptr srcAddress (read_address16 xbp rx16_source srcAddress) m;
    m ← if_ptr sigstrength (store sigstrength (byte_at xbp rx16_rssi)) m;
    m ← if_ptr options (store options (byte_at xbp rx16_options)) m;
    m ← if_ptr data (store data rx16_data) m;
    m ← if_ptr datalength (store datalength (uint8 (plength xbp - 5))) m;
    Some (true, m).

(** xbee.c, XBee_ReadRX64Packet. *)
Definition XBee_ReadRX64Packet (xbp : XBeePacket)
    (srcAddress sigstrength options data datalength : N) (m : gmap N Z)
  : option (bool * gmap N Z) :=
  if negb (apiId xbp =? XBEE_RX64) then Some (false, m)
  else
    m ← if_ptr srcAddress (read_address64 xbp rx64_source srcAddress) m;
    m ← if_ptr sigstrength (store sigstrength (byte_at xbp rx64_rssi)) m;
    m ← if_ptr options (store options (byte_at xbp rx64_options)) m;
    m ← if_ptr data (store data rx64_data) m;
    m ← if_ptr datalength (store datalength (uint8 (plength xbp - 11))) m;
    Some (true, m).

(** The locals of [XBee_GetIOValues] that live across the turns of its
    loop, with the caller's memory. *)
Record IOLocals := mkIO {
  channelIndicators : Z;
  digitalins : Z;
  io_p : Z;
  io_mem : gmap N Z
}.

(** One turn of the loop of [XBee_GetIOValues]. *)
Definition io_turn (packet : XBeePacket) (inputs : N) (i : Z) (s : IOLocals)
  : option IOLocals :=
  let enabled := negb (Z.land (channelIndicators s) 1 =? 0) in
  let ci := Z.shiftr (channelIndicators s) 1 in
  if i <? 9 then
    if enabled then
      let '(dig, p) :=
        if digitalins s =? 0
        then (Z.lor (Z.shiftl (byte_at packet (io_p s)) 8)
                    (byte_at packet (io_p s + 1)),
              io_p s + 2)
        else (digitalins s, io_p s) in
      m ← store (inputs + Z.to_N i)
            (Z.land (Z.shiftr dig i) 1 * 1023) (io_mem s);
      Some (mkIO ci dig p m)
    else
      m ← store (inputs + Z.to_N i) 0 (io_mem s);
      Some (mkIO ci (digitalins s) (io_p s) m)
  else
    if enabled then
      let ain_msb := Z.shiftl (byte_at packet (io_p s)) 8 in
      m ← store (inputs + Z.to_N (i - 9))
            (Z.lor ain_msb (byte_at packet (io_p s + 1))) (io_mem s);
      Some (mkIO ci (digitalins s) (io_p s + 2) m)
    else
      m ← store (inputs + Z.to_N (i - 9)) 0 (io_mem s);
      Some (mkIO ci (digitalins s) (io_p s) m).

(** xbee.c, XBee_GetIOValues. *)
Definition XBee_GetIOValues (packet : XBeePacket) (inputs : N)
    (m : gmap N Z) : option (bool * gmap N Z) :=
  if (apiId packet =? XBEE_IO16) || (apiId packet =? XBEE_IO64) then
    let '(p, ci) :=
      if apiId packet =? XBEE_IO16
      then (io16_data,
            Z.lor (Z.shiftl (byte_at packet io16_channelIndicators) 8)
                  (byte_at packet (io16_channelIndicators + 1)))
      else (io64_data,
            Z.lor (Z.shiftl (byte_at packet io64_channelIndicators) 8)
                  (byte_at packet (io64_channelIndicators + 1))) in
    s ← for_loop (Z.to_nat XBEE_INPUTS) 0 (io_turn packet inputs)
          (mkIO ci 0 p m);
    Some (true, io_mem s)
  else Some (false, m).

(** [if( samples ) { if( !XBee_GetIOValues( xbp, samples ) ) return false; }]
    followed by [return true]. *)
Definition read_samples (xbp : XBeePacket) (samples : N) (m : gmap N Z)
  : option (bool * gmap N Z) :=
  if negb (samples =? 0)%N then
    '(ok, m) ← XBee_GetIOValues xbp samples m;
    if negb ok then Some (false, m) else Some (true, m)
  else Some (true, m).

(** xbee.c, XBee_ReadIO16Packet. *)
Definition XBee_ReadIO16Packet (xbp : XBeePacket)
    (srcAddress sigstrength options samples : N) (m : gmap N Z)
  : option (bool * gmap N Z) :=
  if negb (apiId xbp =? XBEE_IO16) then Some (false, m)
  else
    m ← if_ptr srcAddress (read_address16 xbp io16_source srcAddress) m;
    m ← if_ptr sigstrength (store sigstrength (byte_at xbp io16_rssi)) m;
    m ← if_ptr options (store options (byte_at xbp io16_options)) m;
    read_samples xbp samples m.

(** xbee.c, XBee_ReadIO64Packet: the kind it tests is [XBEE_RX64], as in
    the source. *)
Definition XBee_ReadIO64Packet (xbp : XBeePacket)
    (srcAddress sigstrength options samples : N) (m : gmap N Z)
  : option (bool * gmap N Z) :=
  if negb (apiId xbp =? XBEE_RX64) then Some (false, m)
  else
    m ← if_ptr srcAddress (read_address64 xbp io64_source srcAddress) m;
    m ← if_ptr sigstrength (store sigstrength (byte_at xbp io64_rssi)) m;
    m ← if_ptr options (store options (byte_at xbp io64_options)) m;
    read_samples xbp samples m.

(** xbee.c, XBee_ReadAtResponsePacket.  [command = ...] assigns to the
    parameter, a local of the function: the memory is not touched. *)
Definition XBee_ReadAtResponsePacket (xbp : XBeePacket)
    (frameID command status data : N) (m : gmap N Z)
  : option (bool * gmap N Z) :=
  if negb (apiId xbp =? XBEE_ATCOMMANDRESPONSE) then Some (false, m)
  else
    m ← if_ptr frameID (store frameID (byte_at xbp atResponse_frameID)) m;
    let command :=
      if negb (command =? 0)%N then Z.to_N atResponse_command else command in
    m ← if_ptr status (store status (byte_at xbp atResponse_status)) m;
    m ← if_ptr data (store data atResponse_value) m;
    Some (true, m).

(** xbee.c, XBee_ReadTXStatusPacket. *)
Definition XBee_ReadTXStatusPacket (xbp : XBeePacket) (frameID status : N)
    (m : gmap N Z) : option (bool * gmap N Z) :=
  if negb (apiId xbp =? XBEE_TXSTATUS) then Some (false, m)
  else
    m ← if_ptr frameID (store frameID (byte_at xbp txStatus_frameID)) m;
    m ← if_ptr status (store status (byte_at xbp txStatus_status)) m;
    Some (true, m).

(** ** Entering packet mode *)

(** A digit of [%x]. *)
Definition hex_digit (d : Z) : ascii :=
  nth (Z.to_nat d)
    ["0"; "1"; "2"; "3"; "4"; "5"; "6"; "7"; "8"; "9";
     "a"; "b"; "c"; "d"; "e"; "f"]%char "0"%char.

Fixpoint hex_digits (fuel : nat) (z : Z) : string :=
  match fuel with
  | O => EmptyString
  | S fuel' =>
      if z <? 16 then String (hex_digit z) EmptyString
      else hex_digits fuel' (z / 16) +:+ String (hex_digit (z mod 16)) EmptyString
  end.

(** What [%x] prints for an [int] argument: its 32 bits as an unsigned
    number, in lower-case hexadecimal without leading zeros. *)
Definition fmt_x (z : Z) : string := hex_digits 8 (z mod 2 ^ 32).

(** [snprintf( buf, size, ... )] leaves in [buf] the first [size - 1]
    characters of the formatted text; [text] is that text. *)
Definition snprintf (size : nat) (text : string) : string :=
  String.substring 0 (size - 1) text.

Definition carriage_return : string := String (ascii_of_nat 13) EmptyString.

(** The characters of a buffer as the bytes [Serial_Write] is handed. *)
Definition chars (buf : string) : list Z :=
  map (λ a, Z.of_nat (nat_of_ascii a)) (String.list_ascii_of_string buf).

Definition strlen (buf : string) : nat := String.length buf.

(** xbee.c, XBeeConfig_SetPacketApiMode. *)
Definition XBeeConfig_SetPacketApiMode (w : World) : option World :=
  '(st, w) ← XBee_SetActive 1 w;
  if negb (CONTROLLER_OK =? st) then Some w
  else
    let buf := snprintf 50 "+++" in
    let w := emit (Write (take (strlen buf) (chars buf))) w in
    let w := emit (Slept 1025) w in
    let buf := snprintf 50 ("ATAP " +:+ fmt_x 1 +:+ ",CN" +:+ carriage_return) in
    let w := emit (Write (take (strlen buf) (chars buf))) w in
    Some w.

(** ** The configuration helpers

    Each helper builds an AT command in a local [XBeePacket] that it does
    not initialise and sends it; [xbp] is what that local holds when the
    function is entered.  The result of [XBee_SendPacket] is dropped, as
    in the source. *)

(** The bytes behind a string literal: its characters and the closing
    zero. *)
Definition literal (text : string) : list Z := chars text ++ [0].

(** xbee.c, XBeeConfig_WriteStateToMemory: the parameter pointer is
    [NULL], with nothing behind it. *)
Definition XBeeConfig_WriteStateToMemory (w : World) (xbp : XBeePacket)
  : option World :=
  xbp ← XBee_CreateATCommandPacket xbp 0 (literal "WR") [] 0;
  r ← XBee_SendPacket w xbp 0;
  Some r.1.2.

(** xbee.c, XBeeConfig_SetAddress, for an [int] address; each element of
    [params] is a [uint8]. *)
Definition XBeeConfig_SetAddress (w : World) (xbp : XBeePacket) (address : Z)
  : option World :=
  let params :=
    [uint8 (Z.land address 255);
     uint8 (Z.land (Z.shiftr address 8) 16777215);
     uint8 (Z.land (Z.shiftr address 16) 65535);
     uint8 (Z.land (Z.shiftr address 24) 255)] in
  xbp ← XBee_CreateATCommandPacket xbp 0 (literal "IR") params 4;
  r ← XBee_SendPacket w xbp 4;
  Some r.1.2.

(** xbee.c, XBeeConfig_SetPanID, for a [uint16] id. *)
Definition XBeeConfig_SetPanID (w : World) (xbp : XBeePacket) (id : Z)
  : option World :=
  let id := uint16 id in
  let params :=
    [uint8 (Z.land (Z.shiftr id 8) 255); uint8 (Z.land id 255)] in
  xbp ← XBee_CreateATCommandPacket xbp 0 (literal "ID") params 2;
  r ← XBee_SendPacket w xbp 2;
  Some r.1.2.

(** xbee.c, XBeeConfig_SetChannel, for a [uint8] channel. *)
Definition XBeeConfig_SetChannel (w : World) (xbp : XBeePacket) (channel : Z)
  : option World :=
  let params := [uint8 channel] in
  xbp ← XBee_CreateATCommandPacket xbp 0 (literal "CH") params 1;
  r ← XBee_SendPacket w xbp 1;
  Some r.1.2.

(** xbee.c, XBeeConfig_SetSampleRate, for a [uint16] rate. *)
Definition XBeeConfig_SetSampleRate (w : World) (xbp : XBeePacket) (rate : Z)
  : option World :=
  let rate := uint16 rate in
  let params :=
    [uint8 (Z.land (Z.shiftr rate 8) 255); uint8 (Z.land rate 255)] in
  xbp ← XBee_CreateATCommandPacket xbp 0 (literal "IR") params 2;
  r ← XBee_SendPacket w xbp 2;
  Some r.1.2.

(** ** The two ends of the serial line and the callers' loops *)

(** The bytes a list of events puts on the line. *)
Definition wire_of (e : Event) : list Z :=
  match e with
  | SetChar c => [uint8 c]
  | Write buf => map uint8 buf
  | Slept _ => []
  end.

Definition wire (es : list Event) : list Z := concat (map wire_of es).

(** The port receives [chunk]. *)
Definition offer (chunk : list Z) (w : World) : World :=
  set_rxq (rxq w ++ chunk) w.

(** Calls of [XBee_GetPacket] on the same packet, never reset in between,
    one after each chunk the port receives; the result is that of the last
    call ([last] when there is none). *)
Fixpoint pump (chunks : list (list Z)) (last : Z) (w : World)
    (packet : XBeePacket) : option (Z * World * XBeePacket) :=
  match chunks with
  | [] => Some (last, w, packet)
  | chunk :: chunks' =>
      '(r, w, packet) ← XBee_GetPacket (offer chunk w) packet;
      pump chunks' r w packet
  end.

(** The loop of the example in the documentation of [XBee_GetPacket] and
    of [XBeeTask]: call, and when the call answers with a packet, reset it
    before the next call.  One turn after each chunk the port receives. *)
Fixpoint poll (chunks : list (list Z)) (w : World) (packet : XBeePacket)
  : option (World * XBeePacket) :=
  match chunks with
  | [] => Some (w, packet)
  | chunk :: chunks' =>
      '(r, w, packet) ← XBee_GetPacket (offer chunk w) packet;
      poll chunks' w
        (if negb (r =? 0) then XBee_ResetPacket packet else packet)
  end.

(** xbee.c, XBeeTask, before its loop: [myPacket] is what the local
    holds when the task is entered. *)
Definition XBeeTask_enter (w : World) (myPacket : XBeePacket)
  : option (World * XBeePacket) :=
  let myPacket := XBee_ResetPacket myPacket in
  w ← XBeeConfig_SetPacketApiMode w;
  Some (w, myPacket).

(** One turn of the [while( 1 )] of XBeeTask; [in_] is the address of the
    local array [in]. *)
Definition XBeeTask_turn (in_ : N) (w : World) (myPacket : XBeePacket)
    (m : gmap N Z) : option (World * XBeePacket * gmap N Z) :=
  '(r, w, myPacket) ← XBee_GetPacket w myPacket;
  '(myPacket, m) ←
    (if negb (r =? 0) then
       '(_, m) ← XBee_ReadIO16Packet myPacket 0 0 0 in_ m;
       Some (XBee_ResetPacket myPacket, m)
     else Some (myPacket, m));
  Some (emit (Slept 5) w, myPacket, m).

(** The turns of the loop, one after each chunk the port receives. *)
Fixpoint XBeeTask_turns (in_ : N) (chunks : list (list Z)) (w : World)
    (myPacket : XBeePacket) (m : gmap N Z)
  : option (World * XBeePacket * gmap N Z) :=
  match chunks with
  | [] => Some (w, myPacket, m)
  | chunk :: chunks' =>
      '(w, myPacket, m) ← XBeeTask_turn in_ (offer chunk w) myPacket m;
      XBeeTask_turns in_ chunks' w myPacket m
  end.

(** ** Frames

    The envelope of section 4.1 of the specification: start byte, payload
    length on two bytes, most significant first, payload, checksum
    [0xFF - (sum of the payload bytes mod 256)]. *)

Definition sum_bytes (bs : list Z) : Z := foldr Z.add 0 bs.

(** The checksum byte that closes a frame with this payload. *)
Definition checksum (payload : list Z) : Z := 255 - uint8 (sum_bytes payload).

(** What follows the start byte in the frame of a payload: two length
    bytes, the payload, the checksum. *)
Definition frame_tail (payload : list Z) : list Z :=
  let size := Z.of_nat (length payload) in
  Z.land (Z.shiftr size 8) 255 :: Z.land size 255 :: payload ++ [checksum payload].

Definition frame (payload : list Z) : list Z :=
  XBEE_PACKET_STARTBYTE :: frame_tail payload.

(** A byte of the line that is not the start byte. *)
Definition plain (b : Z) : bool :=
  (0 <=? b) && (b <? 256) && negb (b =? XBEE_PACKET_STARTBYTE).

Definition is_byte (b : Z) : bool := (0 <=? b) && (b <? 256).

(** ** What xbee.c needs of xbee.h *)

Fixpoint distinct (l : list Z) : bool :=
  match l with
  | [] => true
  | x :: l' => negb (existsb (Z.eqb x) l') && distinct l'
  end.

(** The ten kinds are ten different bytes (eight of them label the cases
    of one [switch]), the start byte is a byte, the largest packet has at
    least one byte and a length that fits the two length bytes, and the
    error code is not [CONTROLLER_OK]. *)
Definition header_ok : bool :=
  let kinds :=
    [XBEE_TX64; XBEE_TX16; XBEE_TXSTATUS; XBEE_RX64; XBEE_RX16;
     XBEE_ATCOMMAND; XBEE_ATCOMMANDQ; XBEE_ATCOMMANDRESPONSE;
     XBEE_IO64; XBEE_IO16] in
  distinct kinds && forallb is_byte kinds
  && is_byte XBEE_PACKET_STARTBYTE
  && (1 <=? XBEE_MAX_PACKET_SIZE) && (XBEE_MAX_PACKET_SIZE <? 65536)
  && negb (CONTROLLER_OK =? CONTROLLER_ERROR_SUBSYSTEM_INACTIVE).

(** The payload length of the specification's table of packet kinds:
    the data length plus the fixed fields of the kind, 3 for a
    transmit-status, 0 for a kind that is not in the table. *)
Definition spec_payload_length (kind dataLength : Z) : Z :=
  if decide (kind = XBEE_TX64 ∨ kind = XBEE_RX64) then dataLength + 11
  else if decide (kind = XBEE_TX16 ∨ kind = XBEE_RX16) then dataLength + 5
  else if decide (kind = XBEE_ATCOMMANDRESPONSE) then dataLength + 5
  else if decide (kind = XBEE_ATCOMMAND ∨ kind = XBEE_ATCOMMANDQ)
  then dataLength + 4
  else if decide (kind = XBEE_TXSTATUS) then 3
  else 0.

(** Whether [XBee_SetActive( 1 )] answers [CONTROLLER_OK]. *)
Definition can_activate (w : World) : bool := xbee w || serial_ok w.

(** The world after a successful [XBee_SetActive( 1 )]. *)
Definition activated (w : World) : World :=
  if xbee w then w else set_xbee true w.

(** The bytes [bs] after [src] has been written over them from offset
    [off] on, one byte after the other. *)
Fixpoint blit (off : nat) (src bs : list Z) : list Z :=
  match src with
  | [] => bs
  | b :: src' => blit (S off) src' (<[off := b]> bs)
  end.

(** A payload whose frame the receiver can take into a packet with room
    for [room] bytes: no byte after the start byte is the start byte, and
    the payload is not empty and fits. *)
Definition decodable (payload : list Z) (room : Z) : bool :=
  forallb plain (frame_tail payload)
  && (1 <=? Z.of_nat (length payload))
  && (Z.of_nat (length payload) <=? XBEE_MAX_PACKET_SIZE)
  && (Z.of_nat (length payload) <=? room).

(** A packet ready for a frame: nothing taken in yet. *)
Definition clean (p : XBeePacket) : Prop :=
  crc p = 0 ∧ dataPtr p = 0 ∧ index p = 0.

(** What holds of the packet between two characters when its caller
    follows the documentation (a reset before the first call and after
    every packet received): the write cursor is [index] bytes into a
    buffer with room for the largest packet, and no more than that many
    bytes have been taken in. *)
Definition bounded (p : XBeePacket) : Prop :=
  XBEE_MAX_PACKET_SIZE <= capacity p
  ∧ dataPtr p = index p
  ∧ 0 <= index p <= XBEE_MAX_PACKET_SIZE.

Definition receiving (p : XBeePacket) : Prop :=
  bounded p
  ∧ match rxState p with
    | XBEE_PACKET_RX_PAYLOAD =>
        plength p <= XBEE_MAX_PACKET_SIZE
        ∧ (index p = 0 ∨ index p < plength p)
    | XBEE_PACKET_RX_CRC => True
    | _ => index p = 0
    end.

(** What one character leaves of the invariant. *)
Definition stays_receiving (f : Flow) : Prop :=
  match f with
  | Next p' => receiving p'
  | Return r p' =>
      bounded p' ∧ (r = 0 ∨ r = 1) ∧ (r = 0 → receiving p')
  end.

(** The value the three statements of [read_address16] leave. *)
Definition address16 (xbp : XBeePacket) (source : Z) : Z :=
  uint16 (uint16 (Z.shiftl (uint16 (byte_at xbp source)) 8)
          + byte_at xbp (source + 1)).

(** The value turn [i] of the loop of [read_address64] leaves, and the
    value the eight turns leave, from what the caller's variable held. *)
Definition shift_add64 (xbp : XBeePacket) (source : Z) (v i : Z) : Z :=
  uint64 (uint64 (Z.shiftl v (i * 8)) + byte_at xbp (source + i)).

Definition address64 (xbp : XBeePacket) (source : Z) (v0 : Z) : Z :=
  foldl (shift_add64 xbp source) v0 [0; 1; 2; 3; 4; 5; 6; 7].

(** The pointer a caller passes for an output it wants or does not
    want. *)
Definition keep (wanted : bool) (a : N) : N := if wanted then a else 0%N.

(** The memory [m_sub] a call leaves when it is passed only the wanted
    pointers, against the memory [m_all] the call with all of them leaves
    and the memory [m] before: a wanted output holds what the full call
    gives it, an unwanted one is as before. *)
Definition agree (outputs : list (bool * N)) (m m_all m_sub : gmap N Z) : Prop :=
  Forall (λ o : bool * N,
            m_sub !! o.2 = if o.1 then m_all !! o.2 else m !! o.2) outputs.

(** The memory after [*a = v] guarded by [if( a )]. *)
Definition put (a : N) (v : Z) (m : gmap N Z) : gmap N Z :=
  if (a =? 0)%N then m else <[a := v]> m.

(** ** What the builders leave at the head of a packet *)

(** The bytes of an AT command: kind, frame id, the two characters of the
    command, [n] parameter bytes. *)
Definition at_command_bytes (frameID : Z) (cmd params : list Z) (n : nat)
  : list Z :=
  [XBEE_ATCOMMAND; uint8 frameID] ++ map uint8 (take 2 cmd)
  ++ map uint8 (take n params).

(** The bytes of a transmit request to a 16 bit address: kind, frame id,
    the destination with its high byte first, the options, [n] bytes of
    data. *)
Definition tx16_bytes (frameID destination options : Z) (data : list Z)
    (n : nat) : list Z :=
  [XBEE_TX16; uint8 frameID; uint8 (Z.shiftr (uint16 destination) 8);
   uint8 (Z.land (uint16 destination) 255); uint8 options]
  ++ map uint8 (take n data).

(** The bytes of a transmit request to a 64 bit address: kind, frame id,
    the eight destination bytes as the loop of [XBee_CreateTX64Packet]
    computes them, the options, [n] bytes of data. *)
Definition tx64_bytes (frameID destination options : Z) (data : list Z)
    (n : nat) : list Z :=
  [XBEE_TX64; uint8 frameID]
  ++ map (λ i, uint8 (Z.land (Z.shiftr (uint64 destination) (8 * i))
                        (255 * i)))
       [0; 1; 2; 3; 4; 5; 6; 7]
  ++ [uint8 options] ++ map uint8 (take n data).

(** The element of the caller's array that turn [i] of the loop of
    [XBee_GetIOValues] stores through: [inputs[i]] for a digital pin,
    [inputs[i-9]] for an analog channel. *)
Definition io_slot (i : Z) : Z := if i <? 9 then i else i - 9.

End Engine.

(** ** The header of the XBee 802.15.4 modules

    The values the API frames of these modules use: start delimiter 0x7E,
    the API identifiers of the ten frame kinds, nine digital and six
    analog input channels, and room for 100 bytes of payload; -1 stands
    for the error code, of which only its difference from
    [CONTROLLER_OK] matters.  The examples are run over it. *)
Definition xbee_h : XBeeHeader := {|
  XBEE_PACKET_STARTBYTE := 0x7E;
  XBEE_MAX_PACKET_SIZE := 100;
  XBEE_INPUTS := 15;
  XBEE_TX64 := 0x00;
  XBEE_TX16 := 0x01;
  XBEE_TXSTATUS := 0x89;
  XBEE_RX64 := 0x80;
  XBEE_RX16 := 0x81;
  XBEE_ATCOMMAND := 0x08;
  XBEE_ATCOMMANDQ := 0x09;
  XBEE_ATCOMMANDRESPONSE := 0x88;
  XBEE_IO64 := 0x82;
  XBEE_IO16 := 0x83;
  CONTROLLER_OK := 0;
  CONTROLLER_ERROR_SUBSYSTEM_INACTIVE := -1
|}.

(** A packet with room for [n] bytes, all zero, as a zeroed [XBeePacket]. *)
Definition blank_packet (n : nat) : XBeePacket :=
  mkPacket (replicate n 0) 0 0 XBEE_PACKET_RX_START 0 0.

(** A packet of 111 bytes that starts with [bs]. *)
Definition packet_of (bs : list Z) : XBeePacket :=
  mkPacket (bs ++ replicate (111 - length bs) 0) 0 0 XBEE_PACKET_RX_START 0 0.

(** A port that is up, with nothing received and nothing sent. *)
Definition idle_world : World := mkWorld true true [] [].

(** A 16-bit receive packet from 0x1234 with the data ABC, and one whose
    only data byte is the start byte. *)
Definition rx16_ABC : XBeePacket :=
  packet_of [0x81; 0x12; 0x34; 40; 0; 65; 66; 67].
Definition rx16_tilde : XBeePacket :=
  packet_of [0x81; 0x12; 0x34; 40; 0; 0x7E].

(** A 16-bit receive packet from 0x1234 whose six data bytes hold a
    whole frame of one payload byte, 7E 00 01 41 BE, and the byte 42. *)
Definition rx16_frame_in_data : XBeePacket :=
  packet_of [0x81; 0x12; 0x34; 40; 0; 0x7E; 0; 1; 0x41; 0xBE; 0x42].

(** A 64-bit receive packet from 0x0102030405060708 with the data A. *)
Definition rx64_A : XBeePacket :=
  packet_of [0x80; 1; 2; 3; 4; 5; 6; 7; 8; 40; 0; 65].

(** I/O sample packets, 16-bit and 64-bit: one sample, channel indicators
    0x0005 (digital pins 0 and 2), sample data 0x0005 (both high). *)
Definition io16_pins_0_2 : XBeePacket :=
  packet_of [0x83; 0x12; 0x34; 40; 0; 1; 0x00; 0x05; 0x00; 0x05].
Definition io64_pins_0_2 : XBeePacket :=
  packet_of [0x82; 1; 2; 3; 4; 5; 6; 7; 8; 40; 0; 1; 0x00; 0x05; 0x00; 0x05].

(** The response to the AT command IR of frame 7: status 0, value 0x64. *)
Definition at_response_IR : XBeePacket :=
  packet_of [0x88; 7; 73; 82; 0; 0x64].

(** A packet caught in the middle of a payload. *)
Definition mid_payload : XBeePacket :=
  mkPacket (replicate 111 0xAA) 0x55 17 XBEE_PACKET_RX_PAYLOAD 40 17.

(** A packet waiting for the checksum of the payload AB. *)
Definition at_checksum : XBeePacket :=
  mkPacket (65 :: 66 :: replicate 109 0) 131 2 XBEE_PACKET_RX_CRC 2 2.

Example SetPacketApiMode_trace :
  @XBeeConfig_SetPacketApiMode xbee_h idle_world
  = Some (mkWorld true true []
            [Write [43; 43; 43]; Slept 1025;
             Write [65; 84; 65; 80; 32; 49; 44; 67; 78; 13]]).
Proof. reflexivity. Qed.

Example send_tx16_ABC :
  (p ← @XBee_CreateTX16Packet xbee_h (blank_packet 111) 0 0xFFFF 0 [65; 66; 67] 3;
   r ← @XBee_SendPacket xbee_h idle_world p.2 3;
   Some (wire (trace r.1.2)))
  = Some [0x7E; 0; 8; 1; 0; 0xFF; 0xFF; 0; 65; 66; 67; 0x3A].
Proof. reflexivity. Qed.

(** * Properties *)

(** ** Arithmetic and bookkeeping *)

Lemma int32_id z : -2 ^ 31 <= z < 2 ^ 31 → int32 z = z.
Proof.
  intros Hz. unfold int32.
  rewrite Z.mod_small by lia. lia.
Qed.

Lemma uint8_id z : 0 <= z < 256 → uint8 z = z.
Proof. intros Hz. unfold uint8. apply Z.mod_small. lia. Qed.

Lemma uint8_range z : 0 <= uint8 z < 256.
Proof. unfold uint8. apply Z.mod_pos_bound. lia. Qed.

Lemma uint8_add_l a b : uint8 (uint8 a + b) = uint8 (a + b).
Proof. unfold uint8. apply Zplus_mod_idemp_l. Qed.

Lemma land_255 z : Z.land z 255 = z mod 256.
Proof. change 255 with (Z.ones 8). rewrite Z.land_ones by lia. reflexivity. Qed.

Lemma shiftr_8 z : Z.shiftr z 8 = z / 256.
Proof. rewrite Z.shiftr_div_pow2 by lia. reflexivity. Qed.

Lemma shiftl_8 z : Z.shiftl z 8 = z * 256.
Proof. rewrite Z.shiftl_mul_pow2 by lia. reflexivity. Qed.

(** Boolean tests of the code, read as propositions. *)
Ltac bool_facts :=
  repeat match goal with
  | H : _ && _ = true |- _ => apply andb_prop in H as [? ?]
  | H : _ || _ = false |- _ => apply orb_false_elim in H as [? ?]
  | H : negb _ = true |- _ => apply negb_true_iff in H
  | H : negb _ = false |- _ => apply negb_false_iff in H
  | H : is_byte _ = true |- _ => unfold is_byte in H
  | H : (_ =? _) = false |- _ => apply Z.eqb_neq in H
  | H : (_ =? _) = true |- _ => apply Z.eqb_eq in H
  | H : (_ <=? _) = true |- _ => apply Z.leb_le in H
  | H : (_ <? _) = true |- _ => apply Z.ltb_lt in H
  | H : (_ <=? _) = false |- _ => apply Z.leb_gt in H
  | H : (_ <? _) = false |- _ => apply Z.ltb_ge in H
  end.

(** The facts of [header_ok], each as a hypothesis. *)
Ltac header_facts H :=
  let F := fresh "F" in
  pose proof H as F; unfold header_ok in F; simpl in F; bool_facts.

(** The numeric facts of [header_ok]; the ten kinds are kept apart from
    them, for the arithmetic of the proofs does not need them. *)
Lemma header_bounds `{hdr : XBeeHeader} :
  header_ok = true →
  0 <= XBEE_PACKET_STARTBYTE < 256
  ∧ 1 <= XBEE_MAX_PACKET_SIZE < 65536
  ∧ CONTROLLER_OK ≠ CONTROLLER_ERROR_SUBSYSTEM_INACTIVE.
Proof.
  intros H. header_facts H. repeat split; assumption.
Qed.

Section Sending.
Context `{hdr : XBeeHeader}.
Hypothesis ok : header_ok = true.

Lemma SetActive_on w :
  can_activate w = true →
  XBee_SetActive 1 w = Some (CONTROLLER_OK, activated w).
Proof using Type.
  unfold can_activate, XBee_SetActive, activated.
  destruct (xbee w), (serial_ok w); simpl; intros; congruence.
Qed.

Lemma SetActive_off w :
  can_activate w = false →
  XBee_SetActive 1 w = Some (CONTROLLER_ERROR_SUBSYSTEM_INACTIVE, w).
Proof using Type.
  unfold can_activate, XBee_SetActive.
  destruct (xbee w), (serial_ok w); simpl; intros; congruence.
Qed.

Lemma activated_fields w :
  xbee (activated w) = true ∧ serial_ok (activated w) = serial_ok w
  ∧ rxq (activated w) = rxq w ∧ trace (activated w) = trace w.
Proof using Type.
  unfold activated. destruct (xbee w) eqn:E; simpl; auto.
Qed.

(** The switch of the code computes the table of the specification. *)
Lemma send_size_spec packet datalength :
  -2 ^ 31 <= spec_payload_length (apiId packet) datalength < 2 ^ 31 →
  send_size packet datalength = spec_payload_length (apiId packet) datalength.
Proof using ok.
  header_facts ok.
  unfold send_size, spec_payload_length.
  set (a := apiId packet). intros Hrange.
  destruct (Z.eqb_spec a XBEE_RX64) as [E|N1]; simpl.
  { rewrite decide_True in * by auto. apply int32_id. exact Hrange. }
  destruct (Z.eqb_spec a XBEE_TX64) as [E|N2]; simpl.
  { rewrite decide_True in * by auto. apply int32_id. exact Hrange. }
  rewrite decide_False in * by (intros [?|?]; congruence).
  destruct (Z.eqb_spec a XBEE_RX16) as [E|N3]; simpl.
  { rewrite decide_True in * by auto. apply int32_id. exact Hrange. }
  destruct (Z.eqb_spec a XBEE_TX16) as [E|N4]; simpl.
  { rewrite decide_True in * by auto. apply int32_id. exact Hrange. }
  rewrite decide_False in * by (intros [?|?]; congruence).
  destruct (Z.eqb_spec a XBEE_ATCOMMANDRESPONSE) as [E|N5]; simpl.
  { rewrite decide_True in * by auto. apply int32_id. exact Hrange. }
  rewrite decide_False in * by congruence.
  destruct (Z.eqb_spec a XBEE_TXSTATUS) as [E|N6]; simpl.
  { rewrite decide_False by (intros [?|?]; congruence).
    rewrite decide_True by assumption. reflexivity. }
  destruct (Z.eqb_spec a XBEE_ATCOMMAND) as [E|N7]; simpl.
  { rewrite decide_True in * by auto. apply int32_id. exact Hrange. }
  destruct (Z.eqb_spec a XBEE_ATCOMMANDQ) as [E|N8]; simpl.
  { rewrite decide_True in * by auto. apply int32_id. exact Hrange. }
  rewrite decide_False by (intros [?|?]; congruence).
  rewrite decide_False by congruence. reflexivity.
Qed.

Lemma send_loop_spec n : ∀ mem c w,
  (n ≤ length mem)%nat → 0 <= c < 256 →
  send_loop n mem c w
  = Some (uint8 (c + sum_bytes (take n mem)),
          mkWorld (xbee w) (serial_ok w) (rxq w)
            (trace w ++ map SetChar (take n mem))).
Proof using Type.
  induction n as [|n IH]; intros mem c w Hn Hc; simpl.
  - rewrite Z.add_0_r, app_nil_r, uint8_id by lia.
    destruct w; reflexivity.
  - destruct mem as [|b mem]; simpl in Hn; [lia|].
    rewrite IH by (try apply uint8_range; lia). simpl.
    rewrite uint8_add_l, Z.add_assoc, <- app_assoc. reflexivity.
Qed.

(** The whole effect of a send whose bytes lie inside the packet. *)
Lemma SendPacket_spec w packet datalength :
  can_activate w = true →
  let size := spec_payload_length (apiId packet) datalength in
  0 <= size <= capacity packet → size < 65536 →
  XBee_SendPacket w packet datalength
  = Some (CONTROLLER_OK,
          mkWorld true (serial_ok w) (rxq w)
            (trace w ++
             SetChar XBEE_PACKET_STARTBYTE
             :: SetChar (Z.land (Z.shiftr size 8) 255)
             :: SetChar (Z.land size 255)
             :: map SetChar (take (Z.to_nat size) (bytes packet))
             ++ [SetChar (checksum (take (Z.to_nat size) (bytes packet)))]),
          set_crc (uint8 (sum_bytes (take (Z.to_nat size) (bytes packet))))
            packet).
Proof using ok.
  intros Hact size Hsize Hfit. unfold capacity in Hsize.
  unfold XBee_SendPacket. rewrite SetActive_on by done. simpl.
  rewrite Z.eqb_refl. simpl.
  rewrite send_size_spec by (fold size; lia). fold size.
  destruct (Z.ltb_spec size 0) as [?|_]; [lia|].
  rewrite send_loop_spec by (simpl; lia). simpl.
  unfold checksum, emit. simpl.
  destruct (activated_fields w) as (-> & -> & -> & ->).
  rewrite Z.add_0_l, <- !app_assoc. reflexivity.
Qed.

(** C2: when the bytes to send lie inside the packet, [XBee_SendPacket]
    emits the start byte and then two bytes [hi], [lo] that are the
    big-endian form of the payload length of the specification's table:
    the data length plus 11 for the 64-bit transmit and receive kinds,
    plus 5 for the 16-bit ones and the AT command response, plus 4 for the
    two AT commands, 3 for a transmit-status whatever the data length, 0
    for any other kind; a 64-bit transmit with no data declares 11. *)
Theorem SendPacket_declared_length w packet datalength :
  can_activate w = true →
  let size := spec_payload_length (apiId packet) datalength in
  0 <= size <= capacity packet → size < 65536 →
  ∃ w' packet' hi lo rest,
    XBee_SendPacket w packet datalength = Some (CONTROLLER_OK, w', packet')
    ∧ trace w'
      = trace w ++ SetChar XBEE_PACKET_STARTBYTE :: SetChar hi :: SetChar lo :: rest
    ∧ 0 <= hi < 256 ∧ 0 <= lo < 256
    ∧ hi * 256 + lo = size
    ∧ (apiId packet = XBEE_TX64 → datalength = 0 → hi * 256 + lo = 11).
Proof using ok.
  intros Hact size Hsize Hfit.
  eexists _, _, (Z.land (Z.shiftr size 8) 255), (Z.land size 255), _.
  split; [apply SendPacket_spec; assumption|].
  split; [reflexivity|].
  rewrite !land_255, shiftr_8.
  assert (Hdiv : 0 <= size / 256 < 256)
    by (split; [apply Z.div_pos | apply Z.div_lt_upper_bound]; lia).
  assert (Hsum : size / 256 mod 256 * 256 + size mod 256 = size)
    by (rewrite (Z.mod_small (size / 256)) by lia;
        pose proof (Z.div_mod size 256); lia).
  repeat split; try (apply Z.mod_pos_bound; lia); try assumption.
  intros Hkind Hdata. rewrite Hsum. unfold size, spec_payload_length.
  rewrite decide_True by (left; assumption). lia.
Qed.

End Sending.

Section Configuring.
Context `{hdr : XBeeHeader}.

(** C8: with the subsystem up, [XBeeConfig_SetPacketApiMode] adds to the
    trace exactly a write of the three characters +++, then a sleep of
    1025 milliseconds (at least 1000), then a write of the command
    ATAP 1,CN closed by a carriage return: nothing is written between the
    escape sequence and the end of the sleep. *)
Theorem SetPacketApiMode_guard_delay w :
  can_activate w = true →
  ∃ w' ms command,
    XBeeConfig_SetPacketApiMode w = Some w'
    ∧ trace w' = trace w ++ [Write (chars "+++"); Slept ms; Write command]
    ∧ 1000 <= ms ∧ ms = 1025
    ∧ command = chars ("ATAP 1,CN" +:+ carriage_return)
    ∧ last command = Some 13.
Proof.
  intros Hact.
  exists (mkWorld true (serial_ok w) (rxq w)
            (trace w ++ [Write (chars "+++"); Slept 1025;
                         Write (chars ("ATAP 1,CN" +:+ carriage_return))])),
    1025, (chars ("ATAP 1,CN" +:+ carriage_return)).
  split.
  { unfold XBeeConfig_SetPacketApiMode.
    rewrite SetActive_on by assumption. simpl. rewrite Z.eqb_refl. simpl.
    unfold emit. simpl.
    destruct (activated_fields w) as (-> & -> & -> & ->).
    rewrite <- !app_assoc. reflexivity. }
  split; [reflexivity|]. split; [lia|]. repeat split; reflexivity.
Qed.

End Configuring.

Section Inactive.
Context `{hdr : XBeeHeader}.
Hypothesis ok : header_ok = true.

(** With the subsystem down (no [XBee] yet and a serial port that does
    not come up) the three entry points return at once: the two that
    answer give the error code, nothing is read, written or slept. *)
Lemma inactive_subsystem_does_nothing w packet datalength :
  can_activate w = false →
  XBee_GetPacket w packet = Some (CONTROLLER_ERROR_SUBSYSTEM_INACTIVE, w, packet)
  ∧ XBee_SendPacket w packet datalength
    = Some (CONTROLLER_ERROR_SUBSYSTEM_INACTIVE, w, packet)
  ∧ XBeeConfig_SetPacketApiMode w = Some w.
Proof using ok.
  intros Hact. destruct (header_bounds ok) as (_ & _ & Herr).
  apply Z.eqb_neq in Herr.
  unfold XBee_GetPacket, XBee_SendPacket, XBeeConfig_SetPacketApiMode.
  rewrite SetActive_off by assumption. cbn [mbind option_bind].
  rewrite Herr. auto.
Qed.

End Inactive.

Lemma SendPacket_declared_length_witness :
  ∃ w' packet' hi lo rest,
    @XBee_SendPacket xbee_h idle_world (packet_of [0x00; 7]) 0
    = Some (0, w', packet')
    ∧ trace w' = SetChar 0x7E :: SetChar hi :: SetChar lo :: rest
    ∧ 0 <= hi < 256 ∧ 0 <= lo < 256
    ∧ hi * 256 + lo = 11
    ∧ (0 = 0 → 0 = 0 → hi * 256 + lo = 11).
Proof.
  apply (@SendPacket_declared_length xbee_h eq_refl idle_world
           (packet_of [0x00; 7]) 0); vm_compute; intuition congruence.
Defined.

Lemma SetPacketApiMode_guard_delay_witness :
  ∃ w' ms command,
    @XBeeConfig_SetPacketApiMode xbee_h idle_world = Some w'
    ∧ trace w' = [Write [43; 43; 43]; Slept ms; Write command]
    ∧ 1000 <= ms ∧ ms = 1025
    ∧ command = [65; 84; 65; 80; 32; 49; 44; 67; 78; 13]
    ∧ last command = Some 13.
Proof.
  apply (@SetPacketApiMode_guard_delay xbee_h idle_world). reflexivity.
Defined.

(** ** The receiver *)

Lemma blit_length src : ∀ off bs, length (blit off src bs) = length bs.
Proof.
  induction src as [|b src IH]; intros off bs; simpl; [reflexivity|].
  rewrite IH. apply length_insert.
Qed.

Lemma blit_spec src : ∀ off bs,
  (off + length src ≤ length bs)%nat →
  blit off src bs = take off bs ++ src ++ drop (off + length src) bs.
Proof.
  induction src as [|b src IH]; intros off bs Hlen; simpl in *.
  - rewrite Nat.add_0_r, take_drop. reflexivity.
  - rewrite IH by (rewrite length_insert; lia).
    rewrite drop_insert_lt by lia.
    rewrite (take_S_r _ _ b) by (apply list_lookup_insert_eq; lia).
    rewrite take_insert_ge by lia. 
    rewrite <- app_assoc. simpl. repeat f_equal. lia.
Qed.

Lemma blit_0 src bs :
  (length src ≤ length bs)%nat →
  blit 0 src bs = src ++ drop (length src) bs.
Proof. intros H. rewrite blit_spec by (simpl; lia). reflexivity. Qed.

Section Receiving.
Context `{hdr : XBeeHeader}.
Hypothesis ok : header_ok = true.

Lemma plain_spec b :
  plain b = true ↔ 0 <= b < 256 ∧ b ≠ XBEE_PACKET_STARTBYTE.
Proof using Type.
  unfold plain. split.
  - intros H. bool_facts. lia.
  - intros [H1 H2]. apply Z.eqb_neq in H2. rewrite H2.
    destruct (Z.leb_spec 0 b), (Z.ltb_spec b 256); simpl; lia || reflexivity.
Qed.

(** A character that is not the start byte resets nothing. *)
Lemma rx_char_no_reset packet c :
  c ≠ XBEE_PACKET_STARTBYTE →
  ((c =? XBEE_PACKET_STARTBYTE)
   && negb (RxState_eqb (rxState packet) XBEE_PACKET_RX_START)) = false.
Proof using Type. intros H. apply Z.eqb_neq in H. rewrite H. reflexivity. Qed.

(** One turn of the loop. *)
Lemma rx_loop_cons p c q :
  c ≠ -1 →
  rx_loop p (c :: q)
  = match rx_char p c with
    | None => None
    | Some (Return r p') => Some (r, p', q)
    | Some (Next p') => rx_loop p' q
    end.
Proof using Type.
  intros Hc. apply Z.eqb_neq in Hc. simpl. rewrite Hc. reflexivity.
Qed.

(** The body of the loop, state by state, for a character that is not the
    start byte. *)
Lemma rx_char_start bs cr d l i c :
  c ≠ XBEE_PACKET_STARTBYTE →
  rx_char (mkPacket bs cr d XBEE_PACKET_RX_START l i) c
  = Some (Next (mkPacket bs cr d XBEE_PACKET_RX_START l i)).
Proof using Type.
  intros Hc. unfold rx_char. rewrite rx_char_no_reset by assumption.
  apply Z.eqb_neq in Hc. simpl. rewrite Hc. reflexivity.
Qed.

Lemma rx_char_length1 bs cr d l i c :
  c ≠ XBEE_PACKET_STARTBYTE →
  rx_char (mkPacket bs cr d XBEE_PACKET_RX_LENGTH_1 l i) c
  = Some (Next (mkPacket bs cr d XBEE_PACKET_RX_LENGTH_2
                  (int32 (Z.shiftl c 8)) i)).
Proof using Type.
  intros Hc. unfold rx_char. rewrite rx_char_no_reset by assumption.
  reflexivity.
Qed.

Lemma rx_char_length2 bs cr d l i c :
  c ≠ XBEE_PACKET_STARTBYTE →
  rx_char (mkPacket bs cr d XBEE_PACKET_RX_LENGTH_2 l i) c
  = Some (Next (mkPacket bs cr d XBEE_PACKET_RX_PAYLOAD
                  (if int32 (l + c) >? XBEE_MAX_PACKET_SIZE
                   then XBEE_MAX_PACKET_SIZE else int32 (l + c)) i)).
Proof using Type.
  intros Hc. unfold rx_char. rewrite rx_char_no_reset by assumption.
  reflexivity.
Qed.

Lemma rx_char_payload bs cr d l i c :
  c ≠ XBEE_PACKET_STARTBYTE →
  0 <= d < Z.of_nat (length bs) →
  rx_char (mkPacket bs cr d XBEE_PACKET_RX_PAYLOAD l i) c
  = Some (Next (mkPacket (<[Z.to_nat d := uint8 c]> bs) (uint8 (cr + c))
                  (d + 1)
                  (if int32 (i + 1) >=? l
                   then XBEE_PACKET_RX_CRC else XBEE_PACKET_RX_PAYLOAD)
                  l (int32 (i + 1)))).
Proof using Type.
  intros Hc Hd. unfold rx_char. rewrite rx_char_no_reset by assumption.
  cbn [rxState]. unfold poke, capacity. cbn [bytes dataPtr].
  destruct (Z.leb_spec 0 d); [|lia].
  destruct (Z.ltb_spec d (Z.of_nat (length bs))); [|lia].
  cbn. destruct (int32 (i + 1) >=? l); reflexivity.
Qed.

Lemma rx_char_crc bs cr d l i c :
  c ≠ XBEE_PACKET_STARTBYTE →
  rx_char (mkPacket bs cr d XBEE_PACKET_RX_CRC l i) c
  = Some (if uint8 (cr + c) =? 255
          then Return 1 (mkPacket bs (uint8 (cr + c)) d XBEE_PACKET_RX_START l i)
          else Return 0 (mkPacket (<[0%nat := 0]> bs) 0 0
                           XBEE_PACKET_RX_START 0 0)).
Proof using Type.
  intros Hc. unfold rx_char. rewrite rx_char_no_reset by assumption.
  cbn. destruct (uint8 (cr + c) =? 255); reflexivity.
Qed.

(** The start byte: the frame starts here, over a packet that is reset
    unless it was waiting for this byte. *)
Lemma rx_char_startbyte p :
  rx_char p XBEE_PACKET_STARTBYTE
  = Some (Next (set_rxState XBEE_PACKET_RX_LENGTH_1
                  (if RxState_eqb (rxState p) XBEE_PACKET_RX_START
                   then p else XBee_ResetPacket p))).
Proof using Type.
  unfold rx_char. rewrite Z.eqb_refl.
  destruct p as [bs cr d [] l i]; cbn; rewrite ?Z.eqb_refl; reflexivity.
Qed.

(** The payload state takes the rest of a payload byte after byte and
    ends in the checksum state. *)
Lemma rx_payload rest : ∀ bs c d l i q,
  rest ≠ [] → forallb plain rest = true →
  0 <= d → d + Z.of_nat (length rest) <= Z.of_nat (length bs) →
  i + Z.of_nat (length rest) = l → -2 ^ 31 <= i → l < 2 ^ 31 →
  rx_loop (mkPacket bs c d XBEE_PACKET_RX_PAYLOAD l i) (rest ++ q)
  = rx_loop (mkPacket (blit (Z.to_nat d) rest bs) (uint8 (c + sum_bytes rest))
               (d + Z.of_nat (length rest)) XBEE_PACKET_RX_CRC l l) q.
Proof using Type.
  induction rest as [|b rest IH]; intros bs c d l i q Hne Hplain Hd Hroom Hl Hi Hl'.
  { congruence. }
  cbn [forallb] in Hplain. apply andb_prop in Hplain as [Hb Hrest].
  apply plain_spec in Hb as [Hb Hnot].
  rewrite length_cons, Nat2Z.inj_succ in *.
  rewrite <- app_comm_cons, rx_loop_cons by lia.
  rewrite rx_char_payload by (assumption || lia).
  rewrite int32_id by lia. rewrite (uint8_id b) by lia.
  destruct rest as [|b' rest].
  - cbn [length] in *. destruct (Z.geb_spec (i + 1) l); [|lia].
    cbn [app blit sum_bytes foldr]. rewrite Z.add_0_r.
    f_equal. f_equal; lia.
  - rewrite length_cons, Nat2Z.inj_succ in Hl.
    destruct (Z.geb_spec (i + 1) l); [lia|].
    rewrite (IH _ _ _ l (i + 1) q); try assumption; try congruence;
      rewrite ?length_insert, ?length_cons, ?Nat2Z.inj_succ in *; try lia.
    rewrite uint8_add_l. replace (Z.to_nat (d + 1)) with (S (Z.to_nat d)) by lia.
    cbn [blit sum_bytes foldr].
    f_equal. f_equal; [f_equal; lia | lia].
Qed.

Lemma decodable_spec payload room :
  decodable payload room = true →
  let n := Z.of_nat (length payload) in
  plain (Z.land (Z.shiftr n 8) 255) = true ∧ plain (Z.land n 255) = true
  ∧ forallb plain payload = true ∧ plain (checksum payload) = true
  ∧ 1 <= n <= XBEE_MAX_PACKET_SIZE ∧ n <= room.
Proof using Type.
  unfold decodable, frame_tail. simpl. rewrite forallb_app. simpl.
  intros H. bool_facts. repeat split; assumption.
Qed.

(** From the first length byte on, a clean packet takes the frame of a
    decodable payload and answers 1 at its checksum, leaving what follows
    unread. *)
Lemma rx_frame_tail bs l0 payload q :
  decodable payload (Z.of_nat (length bs)) = true →
  let n := Z.of_nat (length payload) in
  rx_loop (mkPacket bs 0 0 XBEE_PACKET_RX_LENGTH_1 l0 0) (frame_tail payload ++ q)
  = Some (1, mkPacket (blit 0 payload bs) 255 n XBEE_PACKET_RX_START n n, q).
Proof using ok.
  intros Hdec n. destruct (header_bounds ok) as (Hstart & Hmax & _).
  apply decodable_spec in Hdec as (Hhi & Hlo & Hpl & Hck & Hn & Hroom).
  fold n in Hhi, Hlo, Hn, Hroom.
  apply plain_spec in Hhi as [Hhi Hhi'], Hlo as [Hlo Hlo'], Hck as [Hck Hck'].
  assert (Hdiv : 0 <= n / 256 < 256)
    by (split; [apply Z.div_pos | apply Z.div_lt_upper_bound]; lia).
  unfold frame_tail. fold n. simpl app.
  set (hi := Z.land (Z.shiftr n 8) 255) in *.
  set (lo := Z.land n 255) in *.
  assert (Hsum : hi * 256 + lo = n).
  { unfold hi, lo. rewrite !land_255, shiftr_8.
    rewrite (Z.mod_small (n / 256)) by lia.
    pose proof (Z.div_mod n 256). lia. }
  rewrite rx_loop_cons, rx_char_length1 by (assumption || lia).
  rewrite rx_loop_cons, rx_char_length2 by (assumption || lia).
  rewrite shiftl_8. rewrite (int32_id (hi * 256)) by lia.
  rewrite int32_id by lia. rewrite Hsum.
  destruct (Z.gtb_spec n XBEE_MAX_PACKET_SIZE) as [?|_]; [lia|].
  rewrite <- app_assoc.
  rewrite (rx_payload payload bs 0 0 n 0); try assumption; try lia.
  2:{ intros ->. cbn in n. lia. }
  rewrite <- app_comm_cons, app_nil_l, rx_loop_cons, rx_char_crc
    by (assumption || lia).
  unfold checksum. rewrite uint8_add_l.
  replace (0 + sum_bytes payload + (255 - uint8 (sum_bytes payload)))
    with (255 + (sum_bytes payload - uint8 (sum_bytes payload))) by lia.
  assert (Hcrc : uint8 (255 + (sum_bytes payload - uint8 (sum_bytes payload))) = 255).
  { unfold uint8. change (2 ^ 8) with 256.
    pose proof (Z.div_mod (sum_bytes payload) 256).
    replace (255 + (sum_bytes payload - sum_bytes payload mod 256))
      with (255 + sum_bytes payload / 256 * 256) by lia.
    rewrite Z.mod_add by lia. reflexivity. }
  rewrite Hcrc, Z.eqb_refl, Z.add_0_l. reflexivity.
Qed.

Lemma uint8_0 : uint8 0 = 0.
Proof using Type. reflexivity. Qed.

(** A whole frame, from its start byte: taken by a packet that is clean,
    or that the start byte finds in the middle of another frame. *)
Lemma rx_frame p payload q :
  decodable payload (capacity p) = true →
  rxState p ≠ XBEE_PACKET_RX_START ∨ clean p →
  let n := Z.of_nat (length payload) in
  rx_loop p (frame payload ++ q)
  = Some (1, mkPacket (payload ++ drop (length payload) (bytes p)) 255 n
               XBEE_PACKET_RX_START n n, q).
Proof using ok.
  intros Hdec Hstate n. destruct (header_bounds ok) as (Hstart & _ & _).
  pose proof Hdec as Hdec'.
  apply decodable_spec in Hdec' as (_ & _ & _ & _ & Hn & Hroom).
  unfold capacity in *.
  destruct p as [bs c d st l i]. cbn [bytes] in *.
  unfold clean in Hstate. cbn [rxState crc dataPtr index] in Hstate.
  unfold frame. rewrite <- app_comm_cons, rx_loop_cons, rx_char_startbyte by lia.
  assert (Hblit : ∀ bs', length bs' = length bs →
            drop (length payload) bs' = drop (length payload) bs →
            blit 0 payload bs' = payload ++ drop (length payload) bs).
  { intros bs' Hlen Hdrop. rewrite blit_0 by lia. congruence. }
  destruct st; cbn [rxState RxState_eqb XBee_ResetPacket set_apiId set_index
    set_plength set_rxState set_crc set_dataPtr set_bytes bytes crc dataPtr
    plength index];
    [ destruct Hstate as [?|(Hc & Hd & Hi)]; [congruence|]; subst;
      rewrite rx_frame_tail by assumption; rewrite Hblit; reflexivity
    | rewrite uint8_0, rx_frame_tail by (rewrite length_insert; assumption);
      rewrite Hblit;
      [reflexivity | apply length_insert | apply drop_insert_lt; lia] .. ].
Qed.

(** A call with the subsystem up is the loop over what the port holds. *)
Lemma GetPacket_active w p :
  can_activate w = true →
  XBee_GetPacket w p
  = '(r, p', q') ← rx_loop p (rxq w);
    Some (r, mkWorld true (serial_ok w) q' (trace w), p').
Proof using Type.
  intros Hact. unfold XBee_GetPacket.
  rewrite SetActive_on by assumption. simpl. rewrite Z.eqb_refl. simpl.
  destruct (activated_fields w) as (-> & -> & -> & ->). reflexivity.
Qed.

Lemma GetPacket_frame w p payload :
  can_activate w = true → rxq w = [] →
  decodable payload (capacity p) = true →
  rxState p ≠ XBEE_PACKET_RX_START ∨ clean p →
  let n := Z.of_nat (length payload) in
  XBee_GetPacket (offer (frame payload) w) p
  = Some (1, mkWorld true (serial_ok w) [] (trace w),
          mkPacket (payload ++ drop (length payload) (bytes p)) 255 n
            XBEE_PACKET_RX_START n n).
Proof using ok.
  intros Hact Hq Hdec Hstate n.
  rewrite GetPacket_active by (destruct w; assumption).
  unfold offer. simpl. rewrite Hq. simpl app.
  rewrite <- (app_nil_r (frame payload)), rx_frame by assumption.
  reflexivity.
Qed.

Lemma reset_fields p :
  XBee_ResetPacket p
  = mkPacket (<[0%nat := 0]> (bytes p)) 0 0 XBEE_PACKET_RX_START 0 0.
Proof using Type. reflexivity. Qed.

Lemma reset_capacity p : capacity (XBee_ResetPacket p) = capacity p.
Proof using Type.
  unfold capacity. rewrite reset_fields. cbn [bytes].
  rewrite length_insert. reflexivity.
Qed.

Lemma reset_clean p : clean (XBee_ResetPacket p).
Proof using Type. repeat split. Qed.

(** C4: a checksum byte (not the start byte) that does not bring the sum
    to 0xFF makes the call answer 0 over a reset packet, waiting for a
    start byte again; the start byte met in any other state than that
    resets the packet and starts a frame at the first length byte; and
    the frame of a decodable payload that comes after either, or in the
    middle of a frame, is taken whole: the call answers 1 and the packet
    starts with the payload. *)
Theorem framing_corruption_recovered :
  (∀ packet c q,
     rxState packet = XBEE_PACKET_RX_CRC →
     is_byte c = true → c ≠ XBEE_PACKET_STARTBYTE →
     uint8 (crc packet + c) ≠ 255 →
     ∃ packet',
       rx_loop packet (c :: q) = Some (0, packet', q)
       ∧ rxState packet' = XBEE_PACKET_RX_START
       ∧ clean packet' ∧ plength packet' = 0
       ∧ capacity packet' = capacity packet)
  ∧ (∀ packet q,
       rxState packet ≠ XBEE_PACKET_RX_START →
       rx_loop packet (XBEE_PACKET_STARTBYTE :: q)
       = rx_loop (set_rxState XBEE_PACKET_RX_LENGTH_1 (XBee_ResetPacket packet)) q)
  ∧ (∀ w packet payload,
       can_activate w = true → rxq w = [] →
       rxState packet ≠ XBEE_PACKET_RX_START ∨ clean packet →
       decodable payload (capacity packet) = true →
       ∃ w' packet',
         XBee_GetPacket (offer (frame payload) w) packet = Some (1, w', packet')
         ∧ take (length payload) (bytes packet') = payload
         ∧ plength packet' = Z.of_nat (length payload)).
Proof using ok.
  destruct (header_bounds ok) as (Hstart & _ & _).
  split; [|split].
  - intros [bs cr d st l i] c q Hst Hc Hns Hsum. cbn in Hst, Hsum. subst st.
    unfold is_byte in Hc. bool_facts.
    rewrite rx_loop_cons, rx_char_crc by (assumption || lia).
    apply Z.eqb_neq in Hsum. rewrite Hsum.
    eexists. split; [reflexivity|].
    unfold clean, capacity. cbn. rewrite length_insert. auto.
  - intros packet q Hst.
    rewrite rx_loop_cons, rx_char_startbyte by lia.
    destruct packet as [bs cr d [] l i]; cbn in Hst |- *; congruence.
  - intros w packet payload Hact Hq Hstate Hdec.
    eexists _, _. split; [apply GetPacket_frame; assumption|].
    cbn [bytes plength]. split; [|reflexivity].
    apply take_app_length.
Qed.

(** Feeding a call character by character: with the characters of [bs]
    offered one per call, the calls leave what one call offered all of
    [bs] leaves, when that call reads them all. *)
Lemma pump_bytewise bs : ∀ w p r0 r p',
  can_activate w = true → rxq w = [] → bs ≠ [] →
  rx_loop p bs = Some (r, p', []) →
  pump (map (λ b, [b]) bs) r0 w p
  = Some (r, mkWorld true (serial_ok w) [] (trace w), p').
Proof using Type.
  induction bs as [|b bs IH]; intros w p r0 r p' Hact Hq Hne Hloop.
  { congruence. }
  cbn [map pump].
  rewrite GetPacket_active by (destruct w; assumption).
  unfold offer. cbn [rxq set_rxq serial_ok trace]. rewrite Hq, app_nil_l.
  destruct bs as [|b2 bs].
  - rewrite Hloop. reflexivity.
  - destruct (Z.eqb_spec b (-1)) as [->|Hb].
    { cbn in Hloop. congruence. }
    rewrite rx_loop_cons in Hloop |- * by assumption.
    destruct (rx_char p b) as [[p1|r1 p1]|]; [|congruence|congruence].
    cbn [rx_loop mbind option_bind].
    rewrite (IH (mkWorld true (serial_ok w) [] (trace w)) p1 0 r p');
      try reflexivity; try assumption; congruence.
Qed.

(** C6, as the code has it: the bytes of a frame, or any bytes, offered
    one per call to calls that never reset the packet, leave after the
    last call what one call offered all of them leaves (the answer, the
    packet, the port), whenever that one call reads them to the last,
    that is, does not answer before the last byte; there are as many
    calls as bytes.  The frame of a decodable payload, offered to a
    freshly reset packet, is such a case: both feeds end with the
    answer 1, the same packet, which starts with the payload, and the
    same port. *)
Theorem bytewise_feed_equivalent :
  (∀ w p bs r w' p',
     can_activate w = true → rxq w = [] → bs ≠ [] →
     XBee_GetPacket (offer bs w) p = Some (r, w', p') → rxq w' = [] →
     pump (map (λ b, [b]) bs) 0 w p = Some (r, w', p')
     ∧ length (map (λ b : Z, [b]) bs) = length bs)
  ∧ (∀ w p0 payload,
       can_activate w = true → rxq w = [] →
       decodable payload (capacity p0) = true →
       ∃ w' packet',
         XBee_GetPacket (offer (frame payload) w) (XBee_ResetPacket p0)
         = Some (1, w', packet')
         ∧ pump (map (λ b, [b]) (frame payload)) 0 w (XBee_ResetPacket p0)
           = Some (1, w', packet')
         ∧ length (map (λ b : Z, [b]) (frame payload))
           = length (frame payload)
         ∧ take (length payload) (bytes packet') = payload).
Proof using ok.
  split.
  - intros w p bs r w' p' Hact Hq Hne Hget Hall.
    split; [|apply length_map].
    rewrite GetPacket_active in Hget by (destruct w; assumption).
    unfold offer in Hget. cbn [rxq set_rxq serial_ok trace] in Hget.
    rewrite Hq, app_nil_l in Hget.
    destruct (rx_loop p bs) as [[[r1 p1] q1]|] eqn:Hloop; [|discriminate].
    cbn [mbind option_bind] in Hget. injection Hget as <- <- <-.
    cbn [rxq] in Hall. subst q1.
    apply pump_bytewise; assumption.
  - intros w p0 payload Hact Hq Hdec.
    rewrite <- reset_capacity in Hdec.
    pose proof (reset_clean p0) as Hclean.
    eexists _, _. split; [apply GetPacket_frame; auto|].
    split; [|split].
    + apply pump_bytewise; try assumption; [discriminate|].
      rewrite <- (app_nil_r (frame payload)). apply rx_frame; auto.
    + apply length_map.
    + cbn [bytes]. apply take_app_length.
Qed.

(** *** No overrun *)

Lemma reset_receiving p :
  XBEE_MAX_PACKET_SIZE <= capacity p → receiving (XBee_ResetPacket p).
Proof using ok.
  intros Hcap. destruct (header_bounds ok) as (_ & Hmax & _).
  unfold receiving, bounded. rewrite reset_capacity. cbn. lia.
Qed.

Lemma receiving_bounded p : receiving p → bounded p.
Proof using Type. intros [H _]. exact H. Qed.

Lemma rx_char_receiving p c :
  receiving p → ∃ f, rx_char p c = Some f ∧ stays_receiving f.
Proof using ok.
  intros Hrec. destruct (header_bounds ok) as (_ & Hmax & _).
  destruct (Z.eq_dec c XBEE_PACKET_STARTBYTE) as [->|Hc].
  { rewrite rx_char_startbyte. eexists. split; [reflexivity|].
    destruct Hrec as [(Hcap & Hd & Hi) Hst].
    destruct p as [bs cr d [] l i]; unfold stays_receiving, receiving, bounded,
      capacity in *; cbn in *; rewrite ?length_insert; lia. }
  destruct Hrec as [(Hcap & Hd & Hi) Hst].
  destruct p as [bs cr d st l i]. unfold capacity in Hcap. cbn in Hcap, Hd, Hi, Hst.
  destruct st.
  - rewrite rx_char_start by assumption. eexists. split; [reflexivity|].
    unfold stays_receiving, receiving, bounded, capacity. cbn. lia.
  - rewrite rx_char_length1 by assumption. eexists. split; [reflexivity|].
    unfold stays_receiving, receiving, bounded, capacity. cbn. lia.
  - rewrite rx_char_length2 by assumption. eexists. split; [reflexivity|].
    unfold stays_receiving, receiving, bounded, capacity. cbn.
    destruct (Z.gtb_spec (int32 (l + c)) XBEE_MAX_PACKET_SIZE); lia.
  - rewrite rx_char_payload by (assumption || lia).
    eexists. split; [reflexivity|].
    rewrite int32_id by lia.
    unfold stays_receiving, receiving, bounded, capacity.
    destruct (Z.geb_spec (i + 1) l); cbn; rewrite length_insert; lia.
  - rewrite rx_char_crc by assumption. eexists. split; [reflexivity|].
    destruct (uint8 (cr + c) =? 255);
      unfold stays_receiving, receiving, bounded, capacity; cbn;
      rewrite ?length_insert; lia.
Qed.

Lemma rx_loop_receiving q : ∀ p,
  receiving p →
  ∃ r p' q',
    rx_loop p q = Some (r, p', q')
    ∧ bounded p' ∧ (r = 0 ∨ r = 1) ∧ (r = 0 → receiving p').
Proof using ok.
  induction q as [|c q IH]; intros p Hrec.
  { exists 0, p, []. split; [reflexivity|].
    auto using receiving_bounded. }
  cbn [rx_loop]. destruct (c =? -1).
  { exists 0, p, q. split; [reflexivity|]. auto using receiving_bounded. }
  destruct (rx_char_receiving p c Hrec) as (f & -> & Hf).
  destruct f as [p1|r1 p1]; cbn in Hf.
  - apply IH. assumption.
  - exists r1, p1, q. split; [reflexivity|]. assumption.
Qed.

Lemma GetPacket_receiving w p :
  receiving p →
  ∃ r w' p',
    XBee_GetPacket w p = Some (r, w', p')
    ∧ bounded p' ∧ (r = 0 → receiving p').
Proof using ok.
  intros Hrec. destruct (header_bounds ok) as (_ & _ & Herr).
  destruct (can_activate w) eqn:Hact.
  - rewrite GetPacket_active by assumption.
    destruct (rx_loop_receiving (rxq w) p Hrec) as (r & p' & q' & -> & Hb & _ & Hr).
    eexists _, _, _. split; [reflexivity|]. auto.
  - unfold XBee_GetPacket. rewrite SetActive_off by assumption. cbn.
    apply Z.eqb_neq in Herr. rewrite Herr. cbn.
    eexists _, _, _. split; [reflexivity|]. auto using receiving_bounded.
Qed.

Lemma poll_receiving chunks : ∀ w p,
  receiving p →
  ∃ w' p', poll chunks w p = Some (w', p') ∧ receiving p'.
Proof using ok.
  induction chunks as [|chunk chunks IH]; intros w p Hrec.
  { exists w, p. split; [reflexivity|assumption]. }
  cbn [poll].
  destruct (GetPacket_receiving (offer chunk w) p Hrec)
    as (r & w' & p' & -> & Hb & Hr).
  cbn [mbind option_bind]. apply IH.
  destruct (Z.eqb_spec r 0) as [->|_]; cbn; [auto|].
  apply reset_receiving. apply Hb.
Qed.

(** C5: two length bytes (neither the start byte) whose big-endian value
    exceeds [XBEE_MAX_PACKET_SIZE] leave the packet in the payload state
    with exactly [XBEE_MAX_PACKET_SIZE] as its length; and over a packet
    with room for that many bytes, reset before the first call and after
    every call that answers with a packet, whatever the port receives and
    however it is cut into calls, no call writes outside the packet
    (every call returns) and the bytes taken in since the last reset,
    counted by [index] and by the write cursor, never exceed
    [XBEE_MAX_PACKET_SIZE]. *)
Theorem length_clamped_no_overrun :
  (∀ bs cr d l i hi lo q,
     plain hi = true → plain lo = true →
     hi * 256 + lo > XBEE_MAX_PACKET_SIZE →
     rx_loop (mkPacket bs cr d XBEE_PACKET_RX_LENGTH_1 l i) (hi :: lo :: q)
     = rx_loop (mkPacket bs cr d XBEE_PACKET_RX_PAYLOAD
                  XBEE_MAX_PACKET_SIZE i) q)
  ∧ (∀ p0 w chunks,
       XBEE_MAX_PACKET_SIZE <= capacity p0 →
       ∃ w' p',
         poll chunks w (XBee_ResetPacket p0) = Some (w', p')
         ∧ dataPtr p' = index p'
         ∧ 0 <= index p' <= XBEE_MAX_PACKET_SIZE
         ∧ capacity p' >= XBEE_MAX_PACKET_SIZE)
  ∧ (∀ p0 w,
       XBEE_MAX_PACKET_SIZE <= capacity p0 →
       ∃ r w' p',
         XBee_GetPacket w (XBee_ResetPacket p0) = Some (r, w', p')
         ∧ dataPtr p' = index p'
         ∧ 0 <= index p' <= XBEE_MAX_PACKET_SIZE).
Proof using ok.
  destruct (header_bounds ok) as (_ & Hmax & _).
  split; [|split].
  - intros bs cr d l i hi lo q Hhi Hlo Hbig.
    apply plain_spec in Hhi as [Hhi Hhi'], Hlo as [Hlo Hlo'].
    rewrite rx_loop_cons, rx_char_length1 by (assumption || lia).
    rewrite rx_loop_cons, rx_char_length2 by (assumption || lia).
    rewrite shiftl_8, (int32_id (hi * 256)), int32_id by lia.
    destruct (Z.gtb_spec (hi * 256 + lo) XBEE_MAX_PACKET_SIZE); [reflexivity|lia].
  - intros p0 w chunks Hcap.
    destruct (poll_receiving chunks w _ (reset_receiving p0 Hcap))
      as (w' & p' & Hpoll & (Hc & Hd & Hi) & _).
    exists w', p'. repeat split; try assumption; lia.
  - intros p0 w Hcap.
    destruct (GetPacket_receiving w _ (reset_receiving p0 Hcap))
      as (r & w' & p' & Hget & (Hc & Hd & Hi) & _).
    exists r, w', p'. repeat split; try assumption; lia.
Qed.

End Receiving.

(** ** The typed readers *)

Section Reading.
Context `{hdr : XBeeHeader}.

Lemma store_some a v m : a ≠ 0%N → store a v m = Some (<[a := v]> m).
Proof.
  intros Ha. unfold store. apply N.eqb_neq in Ha. rewrite Ha. reflexivity.
Qed.

Lemma load_some a m : a ≠ 0%N → load a m = Some (default 0 (m !! a)).
Proof.
  intros Ha. unfold load. apply N.eqb_neq in Ha. rewrite Ha. reflexivity.
Qed.

Lemma put_null v m : put 0 v m = m.
Proof. reflexivity. Qed.

Lemma put_ptr a v m : a ≠ 0%N → put a v m = <[a := v]> m.
Proof.
  intros Ha. unfold put. apply N.eqb_neq in Ha. rewrite Ha. reflexivity.
Qed.

Lemma if_ptr_store a v m : if_ptr a (store a v) m = Some (put a v m).
Proof.
  unfold if_ptr, put, store. destruct (a =? 0)%N; reflexivity.
Qed.

Lemma read_address16_spec xbp source a m :
  if_ptr a (read_address16 xbp source a) m
  = Some (put a (address16 xbp source) m).
Proof.
  unfold if_ptr, put. destruct (N.eqb_spec a 0) as [->|Ha]; [reflexivity|].
  cbn [negb]. unfold read_address16, address16.
  rewrite !store_some by assumption. cbn [mbind option_bind].
  rewrite load_some, lookup_insert_eq by assumption. cbn [default mbind option_bind].
  rewrite store_some by assumption. cbn [mbind option_bind].
  rewrite load_some, lookup_insert_eq by assumption. cbn [default mbind option_bind].
  rewrite store_some, !insert_insert_eq by assumption. reflexivity.
Qed.

Lemma read_address64_turn xbp source a m i :
  a ≠ 0%N →
  (v ← load a m;
   m ← store a (uint64 (Z.shiftl v (i * 8))) m;
   v ← load a m;
   store a (uint64 (v + byte_at xbp (source + i))) m)
  = Some (<[a := shift_add64 xbp source (default 0 (m !! a)) i]> m).
Proof.
  intros Ha. rewrite load_some by assumption. cbn [mbind option_bind].
  rewrite store_some by assumption. cbn [mbind option_bind].
  rewrite load_some, lookup_insert_eq by assumption. cbn [default mbind option_bind].
  rewrite store_some, insert_insert_eq by assumption. reflexivity.
Qed.

Lemma read_address64_spec xbp source a m :
  if_ptr a (read_address64 xbp source a) m
  = Some (put a (address64 xbp source (default 0 (m !! a))) m).
Proof.
  unfold if_ptr, put. destruct (N.eqb_spec a 0) as [->|Ha]; [reflexivity|].
  cbn [negb]. unfold read_address64, address64. cbn [for_loop foldl].
  do 8 (rewrite read_address64_turn by assumption; cbn [mbind option_bind];
        rewrite ?lookup_insert_eq, ?insert_insert_eq; cbn [default]).
  reflexivity.
Qed.

(** What each reader does, as one equation: the answer is whether the
    kind is the one the function tests, and the memory is written through
    the pointers that are not null, in the order of the source. *)
Lemma ReadRX16Packet_spec xbp a1 a2 a3 a4 a5 m :
  XBee_ReadRX16Packet xbp a1 a2 a3 a4 a5 m
  = if apiId xbp =? XBEE_RX16
    then Some (true,
               put a5 (uint8 (plength xbp - 5))
                 (put a4 rx16_data
                    (put a3 (byte_at xbp rx16_options)
                       (put a2 (byte_at xbp rx16_rssi)
                          (put a1 (address16 xbp rx16_source) m)))))
    else Some (false, m).
Proof.
  unfold XBee_ReadRX16Packet. destruct (apiId xbp =? XBEE_RX16); [|reflexivity].
  cbn [negb]. rewrite read_address16_spec. cbn [mbind option_bind].
  repeat (rewrite if_ptr_store; cbn [mbind option_bind]).
  reflexivity.
Qed.

Lemma ReadRX64Packet_spec xbp a1 a2 a3 a4 a5 m :
  XBee_ReadRX64Packet xbp a1 a2 a3 a4 a5 m
  = if apiId xbp =? XBEE_RX64
    then Some (true,
               put a5 (uint8 (plength xbp - 11))
                 (put a4 rx64_data
                    (put a3 (byte_at xbp rx64_options)
                       (put a2 (byte_at xbp rx64_rssi)
                          (put a1 (address64 xbp rx64_source
                                     (default 0 (m !! a1))) m)))))
    else Some (false, m).
Proof.
  unfold XBee_ReadRX64Packet. destruct (apiId xbp =? XBEE_RX64); [|reflexivity].
  cbn [negb]. rewrite read_address64_spec. cbn [mbind option_bind].
  repeat (rewrite if_ptr_store; cbn [mbind option_bind]).
  reflexivity.
Qed.

Lemma ReadAtResponsePacket_spec xbp frameID command status data m :
  XBee_ReadAtResponsePacket xbp frameID command status data m
  = if apiId xbp =? XBEE_ATCOMMANDRESPONSE
    then Some (true,
               put data atResponse_value
                 (put status (byte_at xbp atResponse_status)
                    (put frameID (byte_at xbp atResponse_frameID) m)))
    else Some (false, m).
Proof.
  unfold XBee_ReadAtResponsePacket.
  destruct (apiId xbp =? XBEE_ATCOMMANDRESPONSE); [|reflexivity].
  cbn [negb]. rewrite if_ptr_store. cbn -[if_ptr store put].
  repeat (rewrite if_ptr_store; cbn [mbind option_bind]).
  reflexivity.
Qed.

Lemma ReadTXStatusPacket_spec xbp frameID status m :
  XBee_ReadTXStatusPacket xbp frameID status m
  = if apiId xbp =? XBEE_TXSTATUS
    then Some (true,
               put status (byte_at xbp txStatus_status)
                 (put frameID (byte_at xbp txStatus_frameID) m))
    else Some (false, m).
Proof.
  unfold XBee_ReadTXStatusPacket.
  destruct (apiId xbp =? XBEE_TXSTATUS); [|reflexivity].
  cbn [negb]. repeat (rewrite if_ptr_store; cbn [mbind option_bind]).
  reflexivity.
Qed.

(** *** Input samples *)

Lemma if_ptr_null body (m : gmap N Z) : if_ptr 0 body m = Some m.
Proof. reflexivity. Qed.

Lemma for_loop_app {S : Type} (body : Z → S → option S) n1 : ∀ n2 i s,
  for_loop (n1 + n2) i body s
  = s' ← for_loop n1 i body s; for_loop n2 (i + Z.of_nat n1) body s'.
Proof.
  induction n1 as [|n1 IH]; intros n2 i s.
  - cbn. rewrite Z.add_0_r. reflexivity.
  - cbn [Nat.add for_loop]. destruct (body i s) as [s1|]; [|reflexivity].
    cbn [mbind option_bind]. rewrite IH. do 2 f_equal. lia.
Qed.

(** Every turn of the loop of [XBee_GetIOValues] succeeds and shifts the
    channel indicators by one bit. *)
Lemma io_turn_some packet inputs i s :
  inputs ≠ 0%N →
  ∃ s', io_turn packet inputs i s = Some s'
        ∧ channelIndicators s' = Z.shiftr (channelIndicators s) 1.
Proof.
  intros Hin. unfold io_turn.
  destruct (i <? 9), (negb (Z.land (channelIndicators s) 1 =? 0));
    try destruct (digitalins s =? 0);
    rewrite store_some by lia; cbn; eexists; split; reflexivity.
Qed.

Lemma io_loop_some packet inputs n : ∀ i s,
  inputs ≠ 0%N →
  ∃ s', for_loop n i (io_turn packet inputs) s = Some s'
        ∧ channelIndicators s' = Z.shiftr (channelIndicators s) (Z.of_nat n).
Proof.
  induction n as [|n IH]; intros i s Hin.
  - exists s. split; reflexivity.
  - cbn [for_loop].
    destruct (io_turn_some packet inputs i s Hin) as (s1 & -> & Hci).
    cbn [mbind option_bind].
    destruct (IH (i + 1) s1 Hin) as (s' & -> & Hci').
    exists s'. split; [reflexivity|].
    rewrite Hci', Hci, Z.shiftr_shiftr by lia. f_equal. lia.
Qed.

(** A turn for an analog channel that is not enabled. *)
Lemma io_turn_analog_off packet inputs i s :
  inputs ≠ 0%N → 9 <= i → channelIndicators s = 0 →
  io_turn packet inputs i s
  = Some (mkIO 0 (digitalins s) (io_p s)
            (<[(inputs + Z.to_N (i - 9))%N := 0]> (io_mem s))).
Proof.
  intros Hin Hi Hci. unfold io_turn. rewrite Hci.
  destruct (Z.ltb_spec i 9); [lia|].
  change (negb (Z.land 0 1 =? 0)) with false. cbn iota.
  rewrite store_some by lia. reflexivity.
Qed.

(** Past the ninth turn, with no channel left enabled, the turns store
    zeros from the second element of the caller's array on. *)
Lemma io_loop_tail packet inputs n : ∀ i s,
  inputs ≠ 0%N → 10 <= i →
  channelIndicators s = 0 → io_mem s !! inputs = Some 0 →
  ∃ s', for_loop n i (io_turn packet inputs) s = Some s'
        ∧ io_mem s' !! inputs = Some 0.
Proof.
  induction n as [|n IH]; intros i s Hin Hi Hci Hm.
  - exists s. split; [reflexivity|assumption].
  - cbn [for_loop]. rewrite io_turn_analog_off by (assumption || lia).
    cbn [mbind option_bind].
    apply IH; try assumption; try lia; cbn; [reflexivity|].
    rewrite lookup_insert_ne by lia. assumption.
Qed.

Lemma GetIOValues_some packet inputs m :
  inputs ≠ 0%N →
  ∃ m', XBee_GetIOValues packet inputs m
        = Some ((apiId packet =? XBEE_IO16) || (apiId packet =? XBEE_IO64), m')
        ∧ ((apiId packet =? XBEE_IO16) || (apiId packet =? XBEE_IO64) = false
           → m' = m).
Proof.
  intros Hin. unfold XBee_GetIOValues.
  destruct ((apiId packet =? XBEE_IO16) || (apiId packet =? XBEE_IO64)).
  - destruct (apiId packet =? XBEE_IO16).
    + edestruct (io_loop_some packet inputs) as (s' & -> & _); [assumption|].
      eexists. split; [reflexivity|discriminate].
    + edestruct (io_loop_some packet inputs) as (s' & -> & _); [assumption|].
      eexists. split; [reflexivity|discriminate].
  - exists m. split; reflexivity.
Qed.

Lemma read_samples_spec xbp samples m :
  ∃ m', read_samples xbp samples m
        = Some ((samples =? 0)%N
                || (apiId xbp =? XBEE_IO16) || (apiId xbp =? XBEE_IO64), m')
        ∧ ((apiId xbp =? XBEE_IO16) || (apiId xbp =? XBEE_IO64) = false
           → m' = m)
        ∧ (samples = 0%N → m' = m).
Proof.
  unfold read_samples. destruct (N.eqb_spec samples 0) as [->|Hs].
  - exists m. repeat split; reflexivity.
  - cbn [negb orb].
    destruct (GetIOValues_some xbp samples m Hs) as (m' & -> & Hm).
    cbn [mbind option_bind].
    exists m'. split; [|split; [assumption|congruence]].
    destruct ((apiId xbp =? XBEE_IO16) || (apiId xbp =? XBEE_IO64)); reflexivity.
Qed.

(** [XBee_ReadIO16Packet] answers true exactly on its kind and touches
    nothing otherwise. *)
Lemma ReadIO16Packet_spec xbp a1 a2 a3 samples m :
  ∃ m', XBee_ReadIO16Packet xbp a1 a2 a3 samples m
        = Some (apiId xbp =? XBEE_IO16, m')
        ∧ (apiId xbp ≠ XBEE_IO16 → m' = m).
Proof.
  unfold XBee_ReadIO16Packet. destruct (Z.eqb_spec (apiId xbp) XBEE_IO16) as [E|N].
  - cbn [negb]. rewrite read_address16_spec. cbn [mbind option_bind].
    repeat (rewrite if_ptr_store; cbn [mbind option_bind]).
    edestruct read_samples_spec as (m' & -> & _).
    apply Z.eqb_eq in E. rewrite E, orb_true_r. cbn.
    exists m'. split; [reflexivity|]. apply Z.eqb_eq in E. congruence.
  - exists m. split; reflexivity.
Qed.

End Reading.

Section ReadingKinds.
Context `{hdr : XBeeHeader}.
Hypothesis ok : header_ok = true.

(** C3: on a packet of the 64-bit I/O sample kind, [XBee_ReadIO64Packet]
    answers false without touching the memory: the kind it tests is
    [XBEE_RX64], which is another byte than [XBEE_IO64]. *)
Theorem ReadIO64Packet_rejects_IO64 xbp a1 a2 a3 samples m :
  apiId xbp = XBEE_IO64 →
  XBee_ReadIO64Packet xbp a1 a2 a3 samples m = Some (false, m).
Proof using ok.
  intros Hkind. header_facts ok.
  unfold XBee_ReadIO64Packet. rewrite Hkind.
  destruct (Z.eqb_spec XBEE_IO64 XBEE_RX64); [congruence|reflexivity].
Qed.

(** On a packet of the 64-bit receive kind, asked for samples,
    [XBee_ReadIO64Packet] answers false after it has written the address,
    the signal strength and the options. *)
Lemma ReadIO64Packet_RX64_writes_then_fails xbp a1 a2 a3 samples m :
  apiId xbp = XBEE_RX64 → samples ≠ 0%N →
  XBee_ReadIO64Packet xbp a1 a2 a3 samples m
  = Some (false,
          put a3 (byte_at xbp io64_options)
            (put a2 (byte_at xbp io64_rssi)
               (put a1 (address64 xbp io64_source (default 0 (m !! a1))) m))).
Proof using ok.
  intros Hkind Hs. header_facts ok.
  unfold XBee_ReadIO64Packet. rewrite Hkind, Z.eqb_refl. cbn [negb].
  rewrite read_address64_spec. cbn [mbind option_bind].
  repeat (rewrite if_ptr_store; cbn [mbind option_bind]).
  edestruct read_samples_spec as (m' & -> & Hm & _).
  rewrite Hkind in *.
  destruct (Z.eqb_spec XBEE_RX64 XBEE_IO16); [congruence|].
  destruct (Z.eqb_spec XBEE_RX64 XBEE_IO64); [congruence|].
  destruct (N.eqb_spec samples 0); [congruence|].
  cbn. rewrite Hm by reflexivity. reflexivity.
Qed.

(** The five other readers answer true exactly on the kind they decode,
    and a false answer leaves the memory as it was. *)
Lemma readers_match_their_kind xbp m :
  (∀ a1 a2 a3 a4 a5, ∃ m',
     XBee_ReadRX16Packet xbp a1 a2 a3 a4 a5 m = Some (apiId xbp =? XBEE_RX16, m')
     ∧ (apiId xbp ≠ XBEE_RX16 → m' = m))
  ∧ (∀ a1 a2 a3 a4 a5, ∃ m',
     XBee_ReadRX64Packet xbp a1 a2 a3 a4 a5 m = Some (apiId xbp =? XBEE_RX64, m')
     ∧ (apiId xbp ≠ XBEE_RX64 → m' = m))
  ∧ (∀ a1 a2 a3 a4, ∃ m',
     XBee_ReadIO16Packet xbp a1 a2 a3 a4 m = Some (apiId xbp =? XBEE_IO16, m')
     ∧ (apiId xbp ≠ XBEE_IO16 → m' = m))
  ∧ (∀ a1 a2 a3 a4, ∃ m',
     XBee_ReadAtResponsePacket xbp a1 a2 a3 a4 m
     = Some (apiId xbp =? XBEE_ATCOMMANDRESPONSE, m')
     ∧ (apiId xbp ≠ XBEE_ATCOMMANDRESPONSE → m' = m))
  ∧ (∀ a1 a2, ∃ m',
     XBee_ReadTXStatusPacket xbp a1 a2 m = Some (apiId xbp =? XBEE_TXSTATUS, m')
     ∧ (apiId xbp ≠ XBEE_TXSTATUS → m' = m)).
Proof using Type.
  repeat split; intros.
  - rewrite ReadRX16Packet_spec.
    destruct (Z.eqb_spec (apiId xbp) XBEE_RX16); eexists; split;
      try reflexivity; congruence.
  - rewrite ReadRX64Packet_spec.
    destruct (Z.eqb_spec (apiId xbp) XBEE_RX64); eexists; split;
      try reflexivity; congruence.
  - apply ReadIO16Packet_spec.
  - rewrite ReadAtResponsePacket_spec.
    destruct (Z.eqb_spec (apiId xbp) XBEE_ATCOMMANDRESPONSE); eexists; split;
      try reflexivity; congruence.
  - rewrite ReadTXStatusPacket_spec.
    destruct (Z.eqb_spec (apiId xbp) XBEE_TXSTATUS); eexists; split;
      try reflexivity; congruence.
Qed.

(** A turn for a digital channel, with what it computes named. *)
Lemma io_turn_digital packet inputs i ci dig p m en ci' dig' p' v :
  inputs ≠ 0%N → 0 <= i < 9 →
  negb (Z.land ci 1 =? 0) = en → Z.shiftr ci 1 = ci' →
  (if dig =? 0
   then Z.lor (Z.shiftl (byte_at packet p) 8) (byte_at packet (p + 1))
   else dig) = dig' →
  (if dig =? 0 then p + 2 else p) = p' →
  Z.land (Z.shiftr dig' i) 1 * 1023 = v →
  io_turn packet inputs i (mkIO ci dig p m)
  = Some (if en
          then mkIO ci' dig' p' (<[(inputs + Z.to_N i)%N := v]> m)
          else mkIO ci' dig p (<[(inputs + Z.to_N i)%N := 0]> m)).
Proof using Type.
  intros Hin Hi <- <- <- <- <-.
  unfold io_turn. cbn [channelIndicators digitalins io_p io_mem].
  destruct (Z.ltb_spec i 9); [|lia].
  destruct (negb (Z.land ci 1 =? 0)); [destruct (dig =? 0)|];
    rewrite store_some by lia; reflexivity.
Qed.

(** Were [XBEE_INPUTS] 9, the loop would stop after the digital pins and
    the same packet would read as 1023 for pins 0 and 2 and 0 for the
    seven others. *)
Lemma ReadIO16Packet_digital_pins_alone xbp samples m :
  XBEE_INPUTS = 9 →
  apiId xbp = XBEE_IO16 →
  byte_at xbp io16_channelIndicators = 0 →
  byte_at xbp (io16_channelIndicators + 1) = 5 →
  byte_at xbp io16_data = 0 → byte_at xbp (io16_data + 1) = 5 →
  samples ≠ 0%N →
  ∃ m', XBee_ReadIO16Packet xbp 0 0 0 samples m = Some (true, m')
        ∧ map (λ i, m' !! (samples + i)%N) [0; 1; 2; 3; 4; 5; 6; 7; 8]%N
          = [Some 1023; Some 0; Some 1023; Some 0; Some 0; Some 0;
             Some 0; Some 0; Some 0].
Proof using Type.
  intros Hn Hkind Hc0 Hc1 Hd0 Hd1 Hs.
  unfold XBee_ReadIO16Packet. rewrite Hkind, Z.eqb_refl. cbn [negb].
  repeat (rewrite if_ptr_null; cbn [mbind option_bind]).
  unfold read_samples. apply N.eqb_neq in Hs as Hs'. rewrite Hs'. cbn [negb].
  unfold XBee_GetIOValues. rewrite Hkind, Z.eqb_refl. cbn [orb].
  rewrite Hc0, Hc1, Hn.
  change (Z.to_nat 9) with 9%nat. change (Z.lor (Z.shiftl 0 8) 5) with 5.
  change io16_data with 8 in *. cbn [for_loop].
  do 9 (erewrite io_turn_digital;
        [ | assumption | lia
          | vm_compute; reflexivity | vm_compute; reflexivity
          | rewrite ?Hd0, ?Hd1; vm_compute; reflexivity
          | vm_compute; reflexivity | vm_compute; reflexivity ];
        cbn iota; cbn [mbind option_bind]).
  eexists. split; [reflexivity|].
  cbn [map io_mem].
  repeat match goal with
  | |- context [Z.to_N ?z] =>
      let v := eval vm_compute in (Z.to_N z) in change (Z.to_N z) with v
  end.
  repeat (apply (f_equal2 cons);
          [ repeat first [ rewrite lookup_insert_eq; reflexivity
                         | rewrite lookup_insert_ne by lia ] | ]).
  reflexivity.
Qed.

(** C7: on a 16-bit I/O sample packet whose channel indicators enable
    digital pins 0 and 2 only, both sampled high, [XBee_ReadIO16Packet]
    leaves 0 in the first element of the caller's array as soon as
    [XBEE_INPUTS] counts an analog channel (the turns for the analog
    channels store through [inputs[i-9]]): the 1023 of pin 0 is written
    over. *)
Theorem ReadIO16Packet_loses_digital_pin0 xbp samples m :
  10 <= XBEE_INPUTS →
  apiId xbp = XBEE_IO16 →
  byte_at xbp io16_channelIndicators = 0 →
  byte_at xbp (io16_channelIndicators + 1) = 5 →
  byte_at xbp io16_data = 0 → byte_at xbp (io16_data + 1) = 5 →
  samples ≠ 0%N →
  ∃ m', XBee_ReadIO16Packet xbp 0 0 0 samples m = Some (true, m')
        ∧ m' !! samples = Some 0.
Proof using Type.
  intros Hn Hkind Hc0 Hc1 _ _ Hs.
  unfold XBee_ReadIO16Packet. rewrite Hkind, Z.eqb_refl. cbn [negb].
  repeat (rewrite if_ptr_null; cbn [mbind option_bind]).
  unfold read_samples. apply N.eqb_neq in Hs as Hs'. rewrite Hs'. cbn [negb].
  unfold XBee_GetIOValues. rewrite Hkind, Z.eqb_refl. cbn [orb].
  rewrite Hc0, Hc1. cbn [Z.shiftl Z.lor].
  replace (Z.to_nat XBEE_INPUTS)
    with (9 + (1 + Z.to_nat (XBEE_INPUTS - 10)))%nat by lia.
  rewrite for_loop_app.
  edestruct (io_loop_some xbp samples 9) as (s9 & -> & Hci); [assumption|].
  cbn [mbind option_bind].
  assert (Hci0 : channelIndicators s9 = 0) by (rewrite Hci; reflexivity).
  cbn [for_loop Nat.add].
  rewrite io_turn_analog_off by (assumption || cbn; lia).
  cbn [mbind option_bind].
  change (Z.to_N (0 + Z.of_nat 9 - 9)) with 0%N. rewrite N.add_0_r.
  edestruct (io_loop_tail xbp samples (Z.to_nat (XBEE_INPUTS - 10)))
    as (s' & -> & Hm'); try assumption; try (cbn; lia).
  { cbn [io_mem]. apply lookup_insert_eq. }
  cbn. exists (io_mem s'). split; [reflexivity|assumption].
Qed.

End ReadingKinds.

(** ** Null output pointers *)

Section Outputs.
Context `{hdr : XBeeHeader}.

Lemma put_lookup_ne a a' v (m : gmap N Z) : a ≠ a' → put a' v m !! a = m !! a.
Proof.
  intros Hne. unfold put. destruct (a' =? 0)%N; [reflexivity|].
  apply lookup_insert_ne. congruence.
Qed.

Lemma put_lookup_eq a v (m : gmap N Z) : a ≠ 0%N → put a v m !! a = Some v.
Proof. intros Ha. rewrite put_ptr by assumption. apply lookup_insert_eq. Qed.

Lemma put_keep_ne k a a' v (m : gmap N Z) :
  a ≠ a' → a ≠ 0%N → put (keep k a') v m !! a = m !! a.
Proof. intros. destruct k; cbn [keep]; apply put_lookup_ne; congruence. Qed.

Lemma put_keep_eq k a v (m : gmap N Z) :
  a ≠ 0%N → put (keep k a) v m !! a = if k then Some v else m !! a.
Proof.
  intros. destruct k; cbn [keep]; [apply put_lookup_eq; assumption|].
  rewrite put_null. reflexivity.
Qed.

(** The addresses of a list without repetition, two by two. *)
Ltac apart :=
  repeat match goal with
  | H : NoDup (_ :: _) |- _ => apply NoDup_cons in H as [? H]
  | H : _ ∉ _ :: _ |- _ => apply not_elem_of_cons in H as [? H]
  end.

(** Lookups in a memory written through a chain of guarded stores. *)
Ltac lookups :=
  repeat first
    [ rewrite put_keep_eq by congruence
    | rewrite put_keep_ne by congruence
    | rewrite put_lookup_eq by congruence
    | rewrite put_lookup_ne by congruence ].

(** C9: on an AT command response, with a command pointer that is not
    null, [XBee_ReadAtResponsePacket] answers true and leaves the memory
    that the guarded stores through [frameID], [status] and [data] leave,
    which is also what the call with a null command pointer leaves; each
    of the three outputs holds its field of the packet, and every address
    that is none of the three, the command's bytes among them, holds what
    it held before. *)
Theorem ReadAtResponsePacket_discards_command xbp frameID command status data m :
  apiId xbp = XBEE_ATCOMMANDRESPONSE → command ≠ 0%N →
  ∃ m',
    XBee_ReadAtResponsePacket xbp frameID command status data m = Some (true, m')
    ∧ XBee_ReadAtResponsePacket xbp frameID 0 status data m = Some (true, m')
    ∧ m' = put data atResponse_value
             (put status (byte_at xbp atResponse_status)
                (put frameID (byte_at xbp atResponse_frameID) m))
    ∧ (∀ a, a ≠ frameID → a ≠ status → a ≠ data → m' !! a = m !! a)
    ∧ (data ≠ 0%N → m' !! data = Some atResponse_value)
    ∧ (status ≠ 0%N → status ≠ data →
       m' !! status = Some (byte_at xbp atResponse_status))
    ∧ (frameID ≠ 0%N → frameID ≠ status → frameID ≠ data →
       m' !! frameID = Some (byte_at xbp atResponse_frameID)).
Proof.
  intros Hkind Hcmd. eexists.
  rewrite !ReadAtResponsePacket_spec, Hkind, Z.eqb_refl.
  split; [reflexivity|]. split; [reflexivity|]. split; [reflexivity|].
  repeat split; intros; lookups; reflexivity.
Qed.

(** C10: for the readers of the 16- and 64-bit receive kinds, of the AT
    command response and of the transmit status, called with output
    pointers that are not null and point to different objects: the call
    that passes [NULL] for any of them returns, answers what the call
    with all of them answers, gives each output it is still passed the
    value the full call gives it, and leaves the others as they were. *)
Theorem null_outputs_are_skipped xbp m a1 a2 a3 a4 a5 k1 k2 k3 k4 k5 :
  NoDup [a1; a2; a3; a4; a5] → 0%N ∉ [a1; a2; a3; a4; a5] →
  (∃ r m_all m_sub,
     XBee_ReadRX16Packet xbp a1 a2 a3 a4 a5 m = Some (r, m_all)
     ∧ XBee_ReadRX16Packet xbp (keep k1 a1) (keep k2 a2) (keep k3 a3)
         (keep k4 a4) (keep k5 a5) m = Some (r, m_sub)
     ∧ agree [(k1, a1); (k2, a2); (k3, a3); (k4, a4); (k5, a5)] m m_all m_sub)
  ∧ (∃ r m_all m_sub,
     XBee_ReadRX64Packet xbp a1 a2 a3 a4 a5 m = Some (r, m_all)
     ∧ XBee_ReadRX64Packet xbp (keep k1 a1) (keep k2 a2) (keep k3 a3)
         (keep k4 a4) (keep k5 a5) m = Some (r, m_sub)
     ∧ agree [(k1, a1); (k2, a2); (k3, a3); (k4, a4); (k5, a5)] m m_all m_sub)
  ∧ (∃ r m_all m_sub,
     XBee_ReadAtResponsePacket xbp a1 a2 a3 a4 m = Some (r, m_all)
     ∧ XBee_ReadAtResponsePacket xbp (keep k1 a1) (keep k2 a2) (keep k3 a3)
         (keep k4 a4) m = Some (r, m_sub)
     ∧ agree [(k1, a1); (k3, a3); (k4, a4)] m m_all m_sub)
  ∧ (∃ r m_all m_sub,
     XBee_ReadTXStatusPacket xbp a1 a2 m = Some (r, m_all)
     ∧ XBee_ReadTXStatusPacket xbp (keep k1 a1) (keep k2 a2) m = Some (r, m_sub)
     ∧ agree [(k1, a1); (k2, a2)] m m_all m_sub).
Proof.
  intros Hsep Hnull. apart.
  repeat split.
  - rewrite !ReadRX16Packet_spec. destruct (apiId xbp =? XBEE_RX16).
    + eexists _, _, _. split; [reflexivity|]. split; [reflexivity|].
      unfold agree. repeat constructor; cbn [fst snd]; lookups;
        match goal with |- context [if ?k then _ else _] => destruct k end;
        reflexivity.
    + eexists _, _, _. split; [reflexivity|]. split; [reflexivity|].
      unfold agree. repeat constructor; cbn [fst snd];
        match goal with |- context [if ?k then _ else _] => destruct k end;
        reflexivity.
  - rewrite !ReadRX64Packet_spec. destruct (apiId xbp =? XBEE_RX64).
    + eexists _, _, _. split; [reflexivity|]. split; [reflexivity|].
      unfold agree. repeat constructor; cbn [fst snd]; lookups;
        match goal with |- context [if ?k then _ else _] => destruct k end;
        reflexivity.
    + eexists _, _, _. split; [reflexivity|]. split; [reflexivity|].
      unfold agree. repeat constructor; cbn [fst snd];
        match goal with |- context [if ?k then _ else _] => destruct k end;
        reflexivity.
  - rewrite !ReadAtResponsePacket_spec.
    destruct (apiId xbp =? XBEE_ATCOMMANDRESPONSE).
    + eexists _, _, _. split; [reflexivity|]. split; [reflexivity|].
      unfold agree. repeat constructor; cbn [fst snd]; lookups;
        match goal with |- context [if ?k then _ else _] => destruct k end;
        reflexivity.
    + eexists _, _, _. split; [reflexivity|]. split; [reflexivity|].
      unfold agree. repeat constructor; cbn [fst snd];
        match goal with |- context [if ?k then _ else _] => destruct k end;
        reflexivity.
  - rewrite !ReadTXStatusPacket_spec. destruct (apiId xbp =? XBEE_TXSTATUS).
    + eexists _, _, _. split; [reflexivity|]. split; [reflexivity|].
      unfold agree. repeat constructor; cbn [fst snd]; lookups;
        match goal with |- context [if ?k then _ else _] => destruct k end;
        reflexivity.
    + eexists _, _, _. split; [reflexivity|]. split; [reflexivity|].
      unfold agree. repeat constructor; cbn [fst snd];
        match goal with |- context [if ?k then _ else _] => destruct k end;
        reflexivity.
Qed.

End Outputs.

(** ** From the sender to the receiver *)

Section RoundTrip.
Context `{hdr : XBeeHeader}.
Hypothesis ok : header_ok = true.

Lemma wire_SetChars l : wire (map SetChar l) = map uint8 l.
Proof using Type.
  unfold wire. induction l as [|b l IH]; [reflexivity|].
  cbn [map concat wire_of app]. cbn [map] in IH. rewrite IH. reflexivity.
Qed.

Lemma wire_cons e es : wire (e :: es) = wire_of e ++ wire es.
Proof using Type. reflexivity. Qed.

Lemma wire_app es1 es2 : wire (es1 ++ es2) = wire es1 ++ wire es2.
Proof using Type. unfold wire. rewrite map_app, concat_app. reflexivity. Qed.

Lemma plain_bytes l :
  forallb plain l = true → Forall (λ b, 0 <= b < 256) l.
Proof using Type.
  induction l as [|b l IH]; cbn [forallb]; intros H; constructor.
  - apply andb_prop in H as [H _]. apply plain_spec in H. tauto.
  - apply IH. apply andb_prop in H. tauto.
Qed.

Lemma map_uint8_bytes l : Forall (λ b, 0 <= b < 256) l → map uint8 l = l.
Proof using Type.
  induction 1 as [|b l Hb _ IH]; [reflexivity|].
  cbn [map]. rewrite IH, uint8_id by assumption. reflexivity.
Qed.

(** The line carries the frame of the bytes that were sent. *)
Lemma wire_frame payload :
  decodable payload (Z.of_nat (length payload)) = true →
  wire (SetChar XBEE_PACKET_STARTBYTE
        :: SetChar (Z.land (Z.shiftr (Z.of_nat (length payload)) 8) 255)
        :: SetChar (Z.land (Z.of_nat (length payload)) 255)
        :: map SetChar payload ++ [SetChar (checksum payload)])
  = frame payload.
Proof using ok.
  intros Hdec. destruct (header_bounds ok) as (Hstart & _ & _).
  apply decodable_spec in Hdec as (Hhi & Hlo & Hpl & Hck & _ & _).
  apply plain_spec in Hhi as [Hhi _], Hlo as [Hlo _], Hck as [Hck _].
  rewrite !wire_cons, wire_app, wire_SetChars. cbn [wire_of wire map concat app].
  rewrite !uint8_id by assumption.
  rewrite map_uint8_bytes by (apply plain_bytes; assumption).
  reflexivity.
Qed.

Lemma decodable_room payload room room' :
  decodable payload room = true → Z.of_nat (length payload) <= room' →
  decodable payload room' = true.
Proof using Type.
  unfold decodable. intros H Hroom. bool_facts.
  match goal with H : forallb _ _ = true |- _ => rewrite H end.
  destruct (Z.leb_spec 1 (Z.of_nat (length payload))),
    (Z.leb_spec (Z.of_nat (length payload)) XBEE_MAX_PACKET_SIZE),
    (Z.leb_spec (Z.of_nat (length payload)) room'); try lia; reflexivity.
Qed.

(** The bytes of the received packet, below the payload length, are
    those of the packet that was sent. *)
Lemma byte_at_prefix rest cr d st l i (p0 : XBeePacket) n off :
  (n ≤ length (bytes p0))%nat → 0 <= off < Z.of_nat n →
  byte_at (mkPacket (take n (bytes p0) ++ rest) cr d st l i) off
  = byte_at p0 off.
Proof using Type.
  intros Hn Hoff. unfold byte_at. cbn [bytes].
  rewrite !nth_lookup, lookup_app_l, lookup_take_lt by (rewrite ?length_take; lia).
  reflexivity.
Qed.

Lemma byte_at_range (p0 : XBeePacket) n off :
  forallb plain (take n (bytes p0)) = true →
  (n ≤ length (bytes p0))%nat → 0 <= off < Z.of_nat n →
  0 <= byte_at p0 off < 256.
Proof using Type.
  intros Hpl Hn Hoff. apply plain_bytes in Hpl.
  unfold byte_at. rewrite nth_lookup.
  destruct (lookup_lt_is_Some_2 (take n (bytes p0)) (Z.to_nat off)) as [b Hb].
  { rewrite length_take. lia. }
  pose proof (Forall_lookup_1 _ _ _ _ Hpl Hb) as Hrange.
  rewrite lookup_take_lt in Hb by lia. rewrite Hb. exact Hrange.
Qed.

Lemma address16_bytes xbp source :
  0 <= byte_at xbp source < 256 → 0 <= byte_at xbp (source + 1) < 256 →
  address16 xbp source = byte_at xbp source * 256 + byte_at xbp (source + 1).
Proof using Type.
  intros H0 H1. unfold address16, uint16. change (2 ^ 16) with 65536.
  rewrite (Z.mod_small (byte_at xbp source)) by lia.
  rewrite shiftl_8, (Z.mod_small (_ * 256)) by lia.
  apply Z.mod_small. lia.
Qed.

(** The rows of the table for the kinds that have a reader. *)
Lemma spec_payload_length_read_kinds d :
  spec_payload_length XBEE_RX16 d = d + 5
  ∧ spec_payload_length XBEE_RX64 d = d + 11
  ∧ spec_payload_length XBEE_ATCOMMANDRESPONSE d = d + 5
  ∧ spec_payload_length XBEE_TXSTATUS d = 3.
Proof using ok.
  header_facts ok. unfold spec_payload_length. repeat split.
  - rewrite decide_False by (intros [?|?]; congruence).
    rewrite decide_True by auto. reflexivity.
  - rewrite decide_True by auto. reflexivity.
  - rewrite !decide_False by (intros [?|?]; congruence).
    rewrite decide_True by auto. reflexivity.
  - rewrite !decide_False by (intros [?|?]; congruence).
    rewrite decide_False by congruence.
    rewrite decide_False by (intros [?|?]; congruence).
    rewrite decide_True by auto. reflexivity.
Qed.

(** C1, as the code has it: a packet sent with [XBee_SendPacket], whose
    payload is not empty, is no longer than [XBEE_MAX_PACKET_SIZE] and
    puts no start byte on the line after the first byte of the frame, is
    taken whole by [XBee_GetPacket] over a freshly reset packet with room
    for it: the call answers 1, the length of the received packet is the
    payload length, and its bytes below that length (the kind, every
    field, every data byte) are those of the packet sent.  On it the
    reader of the kind gives back the fields: 16-bit address, signal
    strength, options, data pointer and data length for the 16-bit
    receive kind; the same without the address for the 64-bit receive
    kind; frame id, status and value pointer for the AT command response;
    frame id and status for the transmit status. *)
Theorem send_then_receive w0 w1 p0 q0 datalength :
  can_activate w0 = true → can_activate w1 = true → rxq w1 = [] →
  let size := spec_payload_length (apiId p0) datalength in
  let payload := take (Z.to_nat size) (bytes p0) in
  0 <= size <= capacity p0 →
  decodable payload (capacity q0) = true →
  ∃ ws evs wr q',
    XBee_SendPacket w0 p0 datalength
    = Some (CONTROLLER_OK, ws, set_crc (uint8 (sum_bytes payload)) p0)
    ∧ trace ws = trace w0 ++ evs
    ∧ XBee_GetPacket (offer (wire evs) w1) (XBee_ResetPacket q0)
      = Some (1, wr, q')
    ∧ plength q' = size
    ∧ (∀ off, 0 <= off < size → byte_at q' off = byte_at p0 off)
    ∧ (apiId p0 = XBEE_RX16 → 0 <= datalength < 256 →
       ∀ m a1 a2 a3 a4 a5,
         XBee_ReadRX16Packet q' a1 a2 a3 a4 a5 m
         = Some (true,
                 put a5 datalength
                   (put a4 rx16_data
                      (put a3 (byte_at p0 rx16_options)
                         (put a2 (byte_at p0 rx16_rssi)
                            (put a1 (byte_at p0 rx16_source * 256
                                     + byte_at p0 (rx16_source + 1)) m))))))
    ∧ (apiId p0 = XBEE_RX64 → 0 <= datalength < 256 →
       ∀ m a2 a3 a4 a5,
         XBee_ReadRX64Packet q' 0 a2 a3 a4 a5 m
         = Some (true,
                 put a5 datalength
                   (put a4 rx64_data
                      (put a3 (byte_at p0 rx64_options)
                         (put a2 (byte_at p0 rx64_rssi) m)))))
    ∧ (apiId p0 = XBEE_ATCOMMANDRESPONSE → 0 <= datalength →
       ∀ m a1 a2 a3 a4,
         XBee_ReadAtResponsePacket q' a1 a2 a3 a4 m
         = Some (true,
                 put a4 atResponse_value
                   (put a3 (byte_at p0 atResponse_status)
                      (put a1 (byte_at p0 atResponse_frameID) m))))
    ∧ (apiId p0 = XBEE_TXSTATUS →
       ∀ m a1 a2,
         XBee_ReadTXStatusPacket q' a1 a2 m
         = Some (true,
                 put a2 (byte_at p0 txStatus_status)
                   (put a1 (byte_at p0 txStatus_frameID) m))).
Proof using ok.
  intros Hact0 Hact1 Hq size payload Hsize Hdec.
  destruct (header_bounds ok) as (_ & Hmax & _).
  unfold capacity in Hsize.
  assert (Hlen : length payload = Z.to_nat size)
    by (unfold payload; rewrite length_take; lia).
  assert (Hn : size = Z.of_nat (length payload)) by lia.
  pose proof Hdec as Hspec.
  apply decodable_spec in Hspec as (_ & _ & Hplain & _ & Hbound & _).
  rewrite <- Hn in Hbound.
  assert (Hdec' : decodable payload (Z.of_nat (length payload)) = true)
    by (eapply decodable_room; [eassumption|lia]).
  assert (Hdecq : decodable payload (capacity (XBee_ResetPacket q0)) = true)
    by (rewrite reset_capacity; assumption).
  eexists _, _, _, _.
  split.
  { apply (SendPacket_spec ok); [assumption| |]; fold size;
      unfold capacity; lia. }
  split; [reflexivity|].
  fold size. fold payload. rewrite Hn, (wire_frame payload Hdec').
  split.
  { apply (GetPacket_frame ok); auto using reset_clean. }
  rewrite <- Hn.
  set (q' := mkPacket _ 255 size XBEE_PACKET_RX_START size size).
  assert (Hbytes : ∀ off, 0 <= off < size → byte_at q' off = byte_at p0 off).
  { intros off Hoff. unfold q', payload. apply byte_at_prefix; lia. }
  assert (Hrange : ∀ off, 0 <= off < size → 0 <= byte_at p0 off < 256).
  { intros off Hoff. apply (byte_at_range p0 (Z.to_nat size)); try lia.
    exact Hplain. }
  assert (Hplen : plength q' = size) by reflexivity.
  clearbody q'.
  destruct (spec_payload_length_read_kinds datalength) as (L16 & L64 & LAT & LTX).
  split; [assumption|]. split; [assumption|].
  assert (Hkind : apiId q' = apiId p0) by (apply Hbytes; lia).
  unfold rx16_options, rx16_rssi, rx16_source, rx64_options, rx64_rssi,
    atResponse_status, atResponse_frameID, txStatus_status, txStatus_frameID.
  repeat split.
  - intros K Hd m a1 a2 a3 a4 a5.
    assert (Hs : size = datalength + 5) by (unfold size; rewrite K; exact L16).
    rewrite ReadRX16Packet_spec, Hkind, K, Z.eqb_refl, Hplen, Hs.
    unfold rx16_options, rx16_rssi, rx16_source.
    rewrite address16_bytes by (rewrite !Hbytes by lia; apply Hrange; lia).
    rewrite !Hbytes by lia.
    replace (datalength + 5 - 5) with datalength by lia.
    rewrite uint8_id by lia. reflexivity.
  - intros K Hd m a2 a3 a4 a5.
    assert (Hs : size = datalength + 11) by (unfold size; rewrite K; exact L64).
    rewrite ReadRX64Packet_spec, Hkind, K, Z.eqb_refl, Hplen, Hs.
    unfold rx64_options, rx64_rssi. rewrite put_null.
    rewrite !Hbytes by lia.
    replace (datalength + 11 - 11) with datalength by lia.
    rewrite uint8_id by lia. reflexivity.
  - intros K Hd m a1 a2 a3 a4.
    assert (Hs : size = datalength + 5) by (unfold size; rewrite K; exact LAT).
    rewrite ReadAtResponsePacket_spec, Hkind, K, Z.eqb_refl.
    unfold atResponse_status, atResponse_frameID.
    rewrite !Hbytes by lia. reflexivity.
  - intros K m a1 a2.
    assert (Hs : size = 3) by (unfold size; rewrite K; exact LTX).
    rewrite ReadTXStatusPacket_spec, Hkind, K, Z.eqb_refl.
    unfold txStatus_status, txStatus_frameID.
    rewrite !Hbytes by lia. reflexivity.
Qed.

End RoundTrip.

(** ** The theorems at work on the header of the modules *)

Example tx64_destination_bytes :
  (r ← @XBee_CreateTX64Packet xbee_h (blank_packet 111) 1
         0x0102030405060708 0 [65] 1;
   Some (take 12 (bytes r.2), plength r.2))
  = Some ([0x00; 1; 0; 7; 6; 5; 4; 3; 2; 1; 0; 65], 6).
Proof. vm_compute. reflexivity. Qed.

Example at_command_IR_round_trip :
  (p ← @XBee_CreateATCommandPacket xbee_h (blank_packet 111) 0 [73; 82] [0x64] 1;
   s ← @XBee_SendPacket xbee_h idle_world p 1;
   r ← @XBee_GetPacket xbee_h (offer (wire (trace s.1.2)) idle_world)
         (XBee_ResetPacket (blank_packet 111));
   Some (wire (trace s.1.2), r.1.1, take 5 (bytes r.2)))
  = Some ([0x7E; 0; 5; 0x08; 0; 73; 82; 0x64; 0xF8], 1, [0x08; 0; 73; 82; 0x64]).
Proof. vm_compute. reflexivity. Qed.

Example rx64_address_is_not_the_source :
  (r ← @XBee_ReadRX64Packet xbee_h rx64_A 10 0 0 0 0 ∅; Some (r.1, r.2 !! 10%N))
  = Some (true, Some 0x0700000000000008).
Proof. vm_compute. reflexivity. Qed.

Example io16_pins_0_2_reads_all_zero :
  (r ← @XBee_ReadIO16Packet xbee_h io16_pins_0_2 0 0 0 100 ∅;
   Some (r.1, map (λ i, r.2 !! (100 + i)%N) [0; 1; 2; 3; 4; 5; 6; 7; 8]%N))
  = Some (true, [Some 0; Some 0; Some 0; Some 0; Some 0; Some 0;
                 Some 0; Some 0; Some 0]).
Proof. vm_compute. reflexivity. Qed.

(** C1 fails as stated: the 16-bit receive packet whose data byte is 0x7E
    is sent as 7E 00 06 81 12 34 28 00 7E 92, and the receiver, fed these
    bytes over a freshly reset packet, answers 0: the data byte restarts
    the frame, and the call ends waiting for a second length byte. *)
Lemma round_trip_fails_on_start_byte_in_data :
  (s ← @XBee_SendPacket xbee_h idle_world rx16_tilde 1;
   r ← @XBee_GetPacket xbee_h (offer (wire (trace s.1.2)) idle_world)
         (XBee_ResetPacket (blank_packet 111));
   Some (wire (trace s.1.2), r.1.1, rxState r.2))
  = Some ([0x7E; 0; 6; 0x81; 0x12; 0x34; 40; 0; 0x7E; 0x92],
          0, XBEE_PACKET_RX_LENGTH_2).
Proof. vm_compute. reflexivity. Qed.

(** C6 fails as stated: the 16-bit receive packet whose data is
    7E 00 01 41 BE 42 is sent as the frame
    7E 00 0B 81 12 34 28 00 7E 00 01 41 BE 42 50, whose checksum is right.
    Offered whole to one call over a freshly reset packet, the call
    answers 1 at the byte BE, with the frame that starts inside the data,
    and leaves 42 50 unread; offered one byte per call, the thirteenth
    call answers 1 and the last call, over the byte 50, answers 0. *)
Lemma bytewise_feed_differs_on_frame_in_data :
  (s ← @XBee_SendPacket xbee_h idle_world rx16_frame_in_data 6;
   one ← @XBee_GetPacket xbee_h (offer (wire (trace s.1.2)) idle_world)
           (XBee_ResetPacket (blank_packet 111));
   each ← @pump xbee_h (map (λ b, [b]) (wire (trace s.1.2))) 0 idle_world
            (XBee_ResetPacket (blank_packet 111));
   Some (wire (trace s.1.2),
         (one.1.1, rxq one.1.2), (each.1.1, rxq each.1.2)))
  = Some ([0x7E; 0; 0x0B; 0x81; 0x12; 0x34; 40; 0; 0x7E; 0; 1; 0x41; 0xBE;
           0x42; 0x50],
          (1, [0x42; 0x50]), (0, [])).
Proof. vm_compute. reflexivity. Qed.

Lemma send_then_receive_witness :
  let size := @spec_payload_length xbee_h (apiId rx16_ABC) 3 in
  let payload := take (Z.to_nat size) (bytes rx16_ABC) in
  ∃ ws evs wr q',
    @XBee_SendPacket xbee_h idle_world rx16_ABC 3
    = Some (0, ws, set_crc (uint8 (sum_bytes payload)) rx16_ABC)
    ∧ trace ws = trace idle_world ++ evs
    ∧ @XBee_GetPacket xbee_h (offer (wire evs) idle_world)
        (XBee_ResetPacket (blank_packet 111))
      = Some (1, wr, q')
    ∧ plength q' = size
    ∧ (∀ off, 0 <= off < size → byte_at q' off = byte_at rx16_ABC off)
    ∧ (apiId rx16_ABC = 0x81 → 0 <= 3 < 256 →
       ∀ m a1 a2 a3 a4 a5,
         @XBee_ReadRX16Packet xbee_h q' a1 a2 a3 a4 a5 m
         = Some (true,
                 put a5 3
                   (put a4 rx16_data
                      (put a3 (byte_at rx16_ABC rx16_options)
                         (put a2 (byte_at rx16_ABC rx16_rssi)
                            (put a1 (byte_at rx16_ABC rx16_source * 256
                                     + byte_at rx16_ABC (rx16_source + 1))
                               m))))))
    ∧ (apiId rx16_ABC = 0x80 → 0 <= 3 < 256 →
       ∀ m a2 a3 a4 a5,
         @XBee_ReadRX64Packet xbee_h q' 0 a2 a3 a4 a5 m
         = Some (true,
                 put a5 3
                   (put a4 rx64_data
                      (put a3 (byte_at rx16_ABC rx64_options)
                         (put a2 (byte_at rx16_ABC rx64_rssi) m)))))
    ∧ (apiId rx16_ABC = 0x88 → 0 <= 3 →
       ∀ m a1 a2 a3 a4,
         @XBee_ReadAtResponsePacket xbee_h q' a1 a2 a3 a4 m
         = Some (true,
                 put a4 atResponse_value
                   (put a3 (byte_at rx16_ABC atResponse_status)
                      (put a1 (byte_at rx16_ABC atResponse_frameID) m))))
    ∧ (apiId rx16_ABC = 0x89 →
       ∀ m a1 a2,
         @XBee_ReadTXStatusPacket xbee_h q' a1 a2 m
         = Some (true,
                 put a2 (byte_at rx16_ABC txStatus_status)
                   (put a1 (byte_at rx16_ABC txStatus_frameID) m))).
Proof.
  apply (@send_then_receive xbee_h eq_refl idle_world idle_world rx16_ABC
           (blank_packet 111) 3); try reflexivity.
  vm_compute. split; discriminate.
Defined.

Lemma ReadIO64Packet_rejects_IO64_witness :
  @XBee_ReadIO64Packet xbee_h io64_pins_0_2 10 11 12 100 ∅ = Some (false, ∅).
Proof.
  apply (@ReadIO64Packet_rejects_IO64 xbee_h eq_refl). reflexivity.
Defined.

Lemma framing_corruption_recovered_witness :
  (∃ packet',
     @rx_loop xbee_h at_checksum [0x00] = Some (0, packet', [])
     ∧ rxState packet' = XBEE_PACKET_RX_START
     ∧ clean packet' ∧ plength packet' = 0
     ∧ capacity packet' = capacity at_checksum)
  ∧ ∃ w' packet',
      @XBee_GetPacket xbee_h
        (offer (@frame xbee_h [0x81; 0x12; 0x34; 40; 0; 65]) idle_world)
        mid_payload
      = Some (1, w', packet')
      ∧ take 6 (bytes packet') = [0x81; 0x12; 0x34; 40; 0; 65]
      ∧ plength packet' = 6.
Proof.
  destruct (@framing_corruption_recovered xbee_h eq_refl) as (Hsum & _ & Hframe).
  split.
  - apply Hsum; [reflexivity|reflexivity|discriminate|discriminate].
  - apply (Hframe idle_world mid_payload [0x81; 0x12; 0x34; 40; 0; 65]);
      try reflexivity.
    left. discriminate.
Defined.

Lemma length_clamped_no_overrun_witness :
  @rx_loop xbee_h
    (mkPacket (replicate 111 0) 0 0 XBEE_PACKET_RX_LENGTH_1 0 0) [0x01; 0x00]
  = @rx_loop xbee_h
      (mkPacket (replicate 111 0) 0 0 XBEE_PACKET_RX_PAYLOAD 100 0) []
  ∧ ∃ w' p',
      @poll xbee_h [[0x7E; 0xFF]; 0xFF :: replicate 300 0x41] idle_world
        (XBee_ResetPacket (blank_packet 111))
      = Some (w', p')
      ∧ dataPtr p' = index p'
      ∧ 0 <= index p' <= 100
      ∧ capacity p' >= 100.
Proof.
  destruct (@length_clamped_no_overrun xbee_h eq_refl) as (Hclamp & Hpoll & _).
  split.
  - apply Hclamp; [reflexivity|reflexivity|]. vm_compute. reflexivity.
  - apply Hpoll. vm_compute. discriminate.
Defined.

Lemma bytewise_feed_equivalent_witness :
  (@pump xbee_h (map (λ b, [b]) [0x7E; 0; 6; 0x81]) 0 idle_world
     (blank_packet 8)
   = Some (0, idle_world,
           mkPacket [0x81; 0; 0; 0; 0; 0; 0; 0] 0x81 1
             XBEE_PACKET_RX_PAYLOAD 6 1)
   ∧ length (map (λ b : Z, [b]) [0x7E; 0; 6; 0x81])
     = length [0x7E; 0; 6; 0x81])
  ∧ ∃ w' packet',
      @XBee_GetPacket xbee_h
        (offer (@frame xbee_h [0x81; 0x12; 0x34; 40; 0; 65]) idle_world)
        (XBee_ResetPacket (blank_packet 111))
      = Some (1, w', packet')
      ∧ @pump xbee_h
          (map (λ b, [b]) (@frame xbee_h [0x81; 0x12; 0x34; 40; 0; 65]))
          0 idle_world (XBee_ResetPacket (blank_packet 111))
        = Some (1, w', packet')
      ∧ length (map (λ b : Z, [b])
                  (@frame xbee_h [0x81; 0x12; 0x34; 40; 0; 65]))
        = length (@frame xbee_h [0x81; 0x12; 0x34; 40; 0; 65])
      ∧ take 6 (bytes packet') = [0x81; 0x12; 0x34; 40; 0; 65].
Proof.
  destruct (@bytewise_feed_equivalent xbee_h eq_refl) as (Hany & Hframe).
  split.
  - apply Hany; first [reflexivity | discriminate].
  - apply (Hframe idle_world (blank_packet 111)
             [0x81; 0x12; 0x34; 40; 0; 65]); reflexivity.
Defined.

Lemma ReadIO16Packet_loses_digital_pin0_witness :
  ∃ m', @XBee_ReadIO16Packet xbee_h io16_pins_0_2 0 0 0 100 ∅ = Some (true, m')
        ∧ m' !! 100%N = Some 0.
Proof.
  apply (@ReadIO16Packet_loses_digital_pin0 xbee_h io16_pins_0_2 100 ∅);
    try reflexivity; [vm_compute; discriminate | discriminate].
Defined.

Lemma ReadAtResponsePacket_discards_command_witness :
  ∃ m',
    @XBee_ReadAtResponsePacket xbee_h at_response_IR 10 20 30 40 {[20%N := 88]}
    = Some (true, m')
    ∧ @XBee_ReadAtResponsePacket xbee_h at_response_IR 10 0 30 40 {[20%N := 88]}
      = Some (true, m')
    ∧ m' = put 40 atResponse_value
             (put 30 (byte_at at_response_IR atResponse_status)
                (put 10 (byte_at at_response_IR atResponse_frameID)
                   {[20%N := 88]}))
    ∧ (∀ a, a ≠ 10%N → a ≠ 30%N → a ≠ 40%N →
       m' !! a = ({[20%N := 88]} : gmap N Z) !! a)
    ∧ (40%N ≠ 0%N → m' !! 40%N = Some atResponse_value)
    ∧ (30%N ≠ 0%N → 30%N ≠ 40%N →
       m' !! 30%N = Some (byte_at at_response_IR atResponse_status))
    ∧ (10%N ≠ 0%N → 10%N ≠ 30%N → 10%N ≠ 40%N →
       m' !! 10%N = Some (byte_at at_response_IR atResponse_frameID)).
Proof.
  apply (@ReadAtResponsePacket_discards_command xbee_h at_response_IR
           10 20 30 40 {[20%N := 88]}); [reflexivity|discriminate].
Defined.

Lemma null_outputs_are_skipped_witness :
  (∃ r m_all m_sub,
     @XBee_ReadRX16Packet xbee_h rx16_ABC 10 20 30 40 50 ∅ = Some (r, m_all)
     ∧ @XBee_ReadRX16Packet xbee_h rx16_ABC (keep true 10) (keep false 20)
         (keep true 30) (keep false 40) (keep true 50) ∅ = Some (r, m_sub)
     ∧ agree [(true, 10%N); (false, 20%N); (true, 30%N); (false, 40%N);
              (true, 50%N)] ∅ m_all m_sub)
  ∧ (∃ r m_all m_sub,
     @XBee_ReadRX64Packet xbee_h rx16_ABC 10 20 30 40 50 ∅ = Some (r, m_all)
     ∧ @XBee_ReadRX64Packet xbee_h rx16_ABC (keep true 10) (keep false 20)
         (keep true 30) (keep false 40) (keep true 50) ∅ = Some (r, m_sub)
     ∧ agree [(true, 10%N); (false, 20%N); (true, 30%N); (false, 40%N);
              (true, 50%N)] ∅ m_all m_sub)
  ∧ (∃ r m_all m_sub,
     @XBee_ReadAtResponsePacket xbee_h rx16_ABC 10 20 30 40 ∅ = Some (r, m_all)
     ∧ @XBee_ReadAtResponsePacket xbee_h rx16_ABC (keep true 10) (keep false 20)
         (keep true 30) (keep false 40) ∅ = Some (r, m_sub)
     ∧ agree [(true, 10%N); (true, 30%N); (false, 40%N)] ∅ m_all m_sub)
  ∧ (∃ r m_all m_sub,
     @XBee_ReadTXStatusPacket xbee_h rx16_ABC 10 20 ∅ = Some (r, m_all)
     ∧ @XBee_ReadTXStatusPacket xbee_h rx16_ABC (keep true 10) (keep false 20) ∅
       = Some (r, m_sub)
     ∧ agree [(true, 10%N); (false, 20%N)] ∅ m_all m_sub).
Proof.
  apply (@null_outputs_are_skipped xbee_h rx16_ABC ∅ 10 20 30 40 50
           true false true false true).
  - refine (@bool_decide_unpack (NoDup _) _ _). vm_compute. exact I.
  - refine (@bool_decide_unpack (_ ∉ _) _ _). vm_compute. exact I.
Defined.

(** * More of xbee.c *)

(** ** What a send puts on the line *)

Section Emitting.
Context `{hdr : XBeeHeader}.
Hypothesis ok : header_ok = true.

Lemma checksum_range payload : 0 <= checksum payload < 256.
Proof using Type.
  unfold checksum. pose proof (uint8_range (sum_bytes payload)). lia.
Qed.

Lemma checksum_closes payload :
  uint8 (sum_bytes payload + checksum payload) = 255.
Proof using Type.
  unfold checksum, uint8. change (2 ^ 8) with 256.
  pose proof (Z.div_mod (sum_bytes payload) 256).
  replace (sum_bytes payload + (255 - sum_bytes payload mod 256))
    with (255 + sum_bytes payload / 256 * 256) by lia.
  rewrite Z.mod_add by lia. reflexivity.
Qed.

(** The line carries the frame of any bytes, start bytes among them. *)
Lemma wire_frame_bytes payload :
  Forall (λ b, 0 <= b < 256) payload →
  Z.of_nat (length payload) < 65536 →
  wire (SetChar XBEE_PACKET_STARTBYTE
        :: SetChar (Z.land (Z.shiftr (Z.of_nat (length payload)) 8) 255)
        :: SetChar (Z.land (Z.of_nat (length payload)) 255)
        :: map SetChar payload ++ [SetChar (checksum payload)])
  = frame payload.
Proof using ok.
  intros Hbytes Hlen. destruct (header_bounds ok) as (Hstart & _ & _).
  rewrite !wire_cons, wire_app, wire_SetChars. cbn [wire_of wire map concat app].
  rewrite (uint8_id XBEE_PACKET_STARTBYTE) by assumption.
  rewrite (uint8_id (checksum payload)) by apply checksum_range.
  rewrite !land_255.
  rewrite !uint8_id by (apply Z.mod_pos_bound; lia).
  rewrite map_uint8_bytes by assumption.
  unfold frame, frame_tail. rewrite !land_255. reflexivity.
Qed.

(** [XBee_SendPacket], whatever the bytes of the packet are: with the
    subsystem up and [size] bytes to send that lie inside the packet, it
    puts on the line exactly the frame of these bytes (start byte, size
    on two bytes, the bytes, the checksum that brings their sum to 0xFF),
    answers [CONTROLLER_OK], and changes neither a byte of the packet nor
    what the port has received. *)
Theorem SendPacket_emits_frame w packet datalength :
  can_activate w = true →
  let size := spec_payload_length (apiId packet) datalength in
  let payload := take (Z.to_nat size) (bytes packet) in
  0 <= size <= capacity packet → size < 65536 →
  Forall (λ b, 0 <= b < 256) payload →
  ∃ w' packet' evs,
    XBee_SendPacket w packet datalength = Some (CONTROLLER_OK, w', packet')
    ∧ trace w' = trace w ++ evs
    ∧ wire evs = frame payload
    ∧ Z.of_nat (length (wire evs)) = size + 4
    ∧ uint8 (sum_bytes payload + checksum payload) = 255
    ∧ bytes packet' = bytes packet
    ∧ rxq w' = rxq w.
Proof using ok.
  intros Hact size payload Hsize Hfit Hbytes.
  unfold capacity in Hsize.
  assert (Hlen : Z.of_nat (length payload) = size)
    by (unfold payload; rewrite length_take; lia).
  eexists _, _, _.
  split; [apply (SendPacket_spec ok); [assumption| |]; fold size;
          unfold capacity; lia|].
  split; [reflexivity|].
  fold size. fold payload. rewrite <- Hlen.
  rewrite wire_frame_bytes by (assumption || lia).
  repeat split.
  - unfold frame, frame_tail. cbn [length]. rewrite length_app. cbn [length]. lia.
  - apply checksum_closes.
Qed.

End Emitting.

Lemma SendPacket_emits_frame_witness :
  let size := @spec_payload_length xbee_h (apiId rx16_tilde) 1 in
  let payload := take (Z.to_nat size) (bytes rx16_tilde) in
  ∃ w' packet' evs,
    @XBee_SendPacket xbee_h idle_world rx16_tilde 1 = Some (0, w', packet')
    ∧ trace w' = trace idle_world ++ evs
    ∧ wire evs = @frame xbee_h payload
    ∧ Z.of_nat (length (wire evs)) = size + 4
    ∧ uint8 (sum_bytes payload + checksum payload) = 255
    ∧ bytes packet' = bytes rx16_tilde
    ∧ rxq w' = rxq idle_world.
Proof.
  apply (@SendPacket_emits_frame xbee_h eq_refl idle_world rx16_tilde 1);
    try reflexivity.
  - vm_compute. split; discriminate.
  - vm_compute. repeat constructor; discriminate.
Defined.

(** ** Building a packet and sending it *)

Lemma blit_app l1 : ∀ l2 off bs,
  blit off (l1 ++ l2) bs = blit (off + length l1) l2 (blit off l1 bs).
Proof.
  induction l1 as [|b l1 IH]; intros l2 off bs; cbn [app blit length].
  - rewrite Nat.add_0_r. reflexivity.
  - rewrite IH. f_equal. lia.
Qed.

Lemma map_uint8_range l : Forall (λ b, 0 <= b < 256) (map uint8 l).
Proof.
  induction l as [|b l IH]; constructor; [apply uint8_range|assumption].
Qed.

Section Building.
Context `{hdr : XBeeHeader}.
Hypothesis ok : header_ok = true.

Lemma poke_some off v p :
  0 <= off < capacity p →
  poke off v p = Some (set_bytes (blit (Z.to_nat off) [uint8 v] (bytes p)) p).
Proof using Type.
  intros Hoff. unfold poke.
  destruct (Z.leb_spec 0 off); [|lia].
  destruct (Z.ltb_spec off (capacity p)); [|lia]. reflexivity.
Qed.

Lemma copy_in_spec n : ∀ off src xbp,
  0 <= off → off + Z.of_nat n <= capacity xbp → (n ≤ length src)%nat →
  copy_in n off src xbp
  = Some (set_bytes (blit (Z.to_nat off) (map uint8 (take n src)) (bytes xbp))
            xbp).
Proof using Type.
  induction n as [|n IH]; intros off src xbp Hoff Hroom Hsrc.
  - destruct xbp; reflexivity.
  - destruct src as [|b src]; cbn [length] in Hsrc; [lia|].
    cbn [copy_in]. rewrite poke_some by lia. cbn [mbind option_bind].
    rewrite IH; unfold capacity in *; cbn [bytes set_bytes];
      rewrite ?blit_length; try lia.
    cbn [take map blit]. do 3 f_equal. lia.
Qed.

(** The facts of [header_ok] about the two kinds that are built. *)
Lemma header_built_kinds d :
  (0 <= XBEE_ATCOMMAND < 256 ∧ spec_payload_length XBEE_ATCOMMAND d = d + 4)
  ∧ (0 <= XBEE_TX16 < 256 ∧ spec_payload_length XBEE_TX16 d = d + 5).
Proof using ok.
  header_facts ok. unfold spec_payload_length. repeat split; try assumption.
  - rewrite !decide_False by (intros [?|?]; congruence).
    rewrite decide_False by congruence.
    rewrite decide_True by auto. reflexivity.
  - rewrite decide_False by (intros [?|?]; congruence).
    rewrite decide_True by auto. reflexivity.
Qed.

Lemma CreateATCommandPacket_spec xbp frameID cmd params datalength :
  let n := Z.to_nat (uint8 datalength) in
  4 + Z.of_nat n <= capacity xbp →
  (2 ≤ length cmd)%nat → (n ≤ length params)%nat →
  XBee_CreateATCommandPacket xbp frameID cmd params datalength
  = Some (set_bytes
            (at_command_bytes frameID cmd params n
             ++ drop (4 + n) (bytes xbp)) xbp).
Proof using ok.
  intros n Hroom Hcmd Hpar.
  destruct (header_built_kinds 0) as ((Hk & _) & _).
  unfold XBee_CreateATCommandPacket, atCommand_frameID, atCommand_command,
    atCommand_parameters.
  rewrite poke_some by lia. cbn [mbind option_bind].
  rewrite poke_some by (unfold capacity in *; cbn [bytes set_bytes];
                        rewrite ?blit_length; lia).
  cbn [mbind option_bind].
  rewrite copy_in_spec by (unfold capacity in *; cbn [bytes set_bytes];
                           rewrite ?blit_length; lia).
  cbn [mbind option_bind].
  rewrite copy_in_spec by (unfold capacity in *; cbn [bytes set_bytes];
                           rewrite ?blit_length; lia).
  fold n. rewrite (uint8_id XBEE_ATCOMMAND) by assumption.
  change (Z.to_nat 0) with 0%nat. change (Z.to_nat 1) with 1%nat.
  change (Z.to_nat 2) with 2%nat. change (Z.to_nat 4) with 4%nat.
  assert (Hlen2 : length (map uint8 (take 2 cmd)) = 2%nat)
    by (rewrite length_map, length_take; lia).
  assert (Hlenn : length (map uint8 (take n params)) = n)
    by (rewrite length_map, length_take; lia).
  assert (Hlen : length (at_command_bytes frameID cmd params n) = (4 + n)%nat).
  { unfold at_command_bytes. rewrite !length_app, Hlen2, Hlenn. reflexivity. }
  unfold capacity in Hroom. destruct xbp as [bs c d r l i].
  cbn [set_bytes bytes crc dataPtr rxState plength index] in *.
  do 2 f_equal. rewrite <- Hlen, <- blit_0 by lia.
  unfold at_command_bytes.
  rewrite (blit_app [XBEE_ATCOMMAND; uint8 frameID]).
  rewrite (blit_app (map uint8 (take 2 cmd))). rewrite Hlen2.
  reflexivity.
Qed.

(** Sending a packet that starts with [payload], when the length that
    [XBee_SendPacket] works out is the length of [payload]. *)
Lemma send_built w packet datalength payload rest :
  can_activate w = true →
  bytes packet = payload ++ rest →
  spec_payload_length (apiId packet) datalength = Z.of_nat (length payload) →
  Z.of_nat (length payload) < 65536 →
  Forall (λ b, 0 <= b < 256) payload →
  ∃ r evs,
    XBee_SendPacket w packet datalength = Some r
    ∧ r.1.1 = CONTROLLER_OK
    ∧ trace r.1.2 = trace w ++ evs
    ∧ wire evs = frame payload.
Proof using ok.
  intros Hact Hbytes Hsize Hfit Hrange.
  eexists _, _. split.
  { apply (SendPacket_spec ok); rewrite ?Hsize; try assumption.
    unfold capacity. rewrite Hbytes, length_app. lia. }
  cbn [fst snd trace]. split; [reflexivity|]. split; [reflexivity|].
  rewrite Hsize, Hbytes, Nat2Z.id, take_app_length.
  apply (wire_frame_bytes ok); assumption.
Qed.

Lemma at_command_bytes_length frameID cmd params n :
  (2 ≤ length cmd)%nat → (n ≤ length params)%nat →
  length (at_command_bytes frameID cmd params n) = (4 + n)%nat.
Proof using Type.
  intros Hcmd Hpar. unfold at_command_bytes.
  rewrite !length_app, !length_map, !length_take. cbn [length]. lia.
Qed.

Lemma at_command_bytes_range frameID cmd params n :
  Forall (λ b, 0 <= b < 256) (at_command_bytes frameID cmd params n).
Proof using ok.
  destruct (header_built_kinds 0) as ((Hk & _) & _).
  unfold at_command_bytes. repeat apply Forall_app_2;
    try apply map_uint8_range.
  repeat constructor; try lia; apply uint8_range.
Qed.

(** An AT command built by [XBee_CreateATCommandPacket] in a packet that
    holds anything, then sent with the same data length (at most 255):
    the line carries the frame of kind, frame id, the two command
    characters and the parameters, and nothing of what the packet held
    before. *)
Theorem at_command_built_and_sent w xbp frameID cmd params datalength :
  can_activate w = true →
  0 <= datalength < 256 →
  4 + datalength <= capacity xbp →
  (2 ≤ length cmd)%nat → (Z.to_nat datalength ≤ length params)%nat →
  ∃ xbp' r evs,
    XBee_CreateATCommandPacket xbp frameID cmd params datalength = Some xbp'
    ∧ XBee_SendPacket w xbp' datalength = Some r
    ∧ r.1.1 = CONTROLLER_OK
    ∧ trace r.1.2 = trace w ++ evs
    ∧ wire evs
      = frame (at_command_bytes frameID cmd params (Z.to_nat datalength)).
Proof using ok.
  intros Hact Hd Hroom Hcmd Hpar.
  destruct (header_built_kinds datalength) as ((_ & Hsize) & _).
  pose proof (CreateATCommandPacket_spec xbp frameID cmd params datalength)
    as Hbuild.
  cbv zeta in Hbuild. rewrite (uint8_id datalength) in Hbuild by lia.
  rewrite Hbuild by (assumption || lia). clear Hbuild.
  pose proof (at_command_bytes_length frameID cmd params _ Hcmd Hpar) as Hlen.
  set (payload := at_command_bytes frameID cmd params (Z.to_nat datalength))
    in *.
  set (rest := drop (4 + Z.to_nat datalength) (bytes xbp)).
  destruct (send_built w (set_bytes (payload ++ rest) xbp) datalength
              payload rest Hact eq_refl) as (r & evs & Hsend).
  - change (apiId _) with XBEE_ATCOMMAND. rewrite Hsize, Hlen. lia.
  - rewrite Hlen. lia.
  - apply at_command_bytes_range.
  - exists (set_bytes (payload ++ rest) xbp), r, evs.
    split; [reflexivity|exact Hsend].
Qed.

(** What a configuration helper does, from the command and the parameters
    it passes. *)
Lemma helper_sends w xbp cmd params datalength :
  can_activate w = true →
  0 <= datalength < 256 →
  4 + datalength <= capacity xbp →
  (2 ≤ length cmd)%nat → (Z.to_nat datalength ≤ length params)%nat →
  ∃ w' evs,
    (xbp ← XBee_CreateATCommandPacket xbp 0 cmd params datalength;
     r ← XBee_SendPacket w xbp datalength;
     Some r.1.2) = Some w'
    ∧ trace w' = trace w ++ evs
    ∧ wire evs = frame (at_command_bytes 0 cmd params (Z.to_nat datalength)).
Proof using ok.
  intros Hact Hd Hroom Hcmd Hpar.
  destruct (header_built_kinds datalength) as ((_ & Hsize) & _).
  pose proof (CreateATCommandPacket_spec xbp 0 cmd params datalength)
    as Hbuild.
  cbv zeta in Hbuild. rewrite (uint8_id datalength) in Hbuild by lia.
  rewrite Hbuild by (assumption || lia). clear Hbuild.
  cbn [mbind option_bind].
  pose proof (at_command_bytes_length 0 cmd params _ Hcmd Hpar) as Hlen.
  set (payload := at_command_bytes 0 cmd params (Z.to_nat datalength)) in *.
  set (rest := drop (4 + Z.to_nat datalength) (bytes xbp)).
  destruct (send_built w (set_bytes (payload ++ rest) xbp) datalength
              payload rest Hact eq_refl)
    as (r & evs & -> & _ & Htrace & Hwire).
  - change (apiId _) with XBEE_ATCOMMAND. rewrite Hsize, Hlen. lia.
  - rewrite Hlen. lia.
  - apply at_command_bytes_range.
  - exists r.1.2, evs. split; [reflexivity|].
    split; [exact Htrace|exact Hwire].
Qed.

Lemma byte_of_byte z : uint8 (uint8 z) = uint8 z.
Proof using Type. apply uint8_id, uint8_range. Qed.

Lemma high_byte z : uint8 (Z.land (Z.shiftr (uint16 z) 8) 255) = uint16 z / 256.
Proof using Type.
  rewrite land_255, shiftr_8. unfold uint8, uint16.
  change (2 ^ 8) with 256. change (2 ^ 16) with 65536.
  rewrite Z.mod_mod by lia. apply Z.mod_small.
  Z.div_mod_to_equations. lia.
Qed.

Lemma low_byte z : uint8 (Z.land z 255) = z mod 256.
Proof using Type.
  rewrite land_255. unfold uint8. change (2 ^ 8) with 256.
  apply Z.mod_mod. lia.
Qed.

(** [XBeeConfig_SetPanID] sends the command ID with the PAN id as two
    bytes, high byte first, whatever its local packet held. *)
Theorem SetPanID_frame w xbp id :
  can_activate w = true → 6 <= capacity xbp →
  ∃ w' evs,
    XBeeConfig_SetPanID w xbp id = Some w'
    ∧ trace w' = trace w ++ evs
    ∧ wire evs
      = frame [XBEE_ATCOMMAND; 0; 73; 68; uint16 id / 256; uint16 id mod 256].
Proof using ok.
  intros Hact Hroom. unfold XBeeConfig_SetPanID. cbv zeta.
  destruct (helper_sends w xbp (literal "ID")
              [uint8 (Z.land (Z.shiftr (uint16 id) 8) 255);
               uint8 (Z.land (uint16 id) 255)] 2)
    as (w' & evs & -> & Htrace & Hwire);
    [assumption|lia|lia|cbn; lia|cbn; lia|].
  exists w', evs. split; [reflexivity|]. split; [assumption|].
  rewrite Hwire. unfold at_command_bytes.
  change (Z.to_nat 2) with 2%nat. cbn [take map app literal].
  rewrite !byte_of_byte, high_byte, low_byte. reflexivity.
Qed.

(** [XBeeConfig_SetSampleRate] sends the command IR with the rate as two
    bytes, high byte first, whatever its local packet held. *)
Theorem SetSampleRate_frame w xbp rate :
  can_activate w = true → 6 <= capacity xbp →
  ∃ w' evs,
    XBeeConfig_SetSampleRate w xbp rate = Some w'
    ∧ trace w' = trace w ++ evs
    ∧ wire evs
      = frame [XBEE_ATCOMMAND; 0; 73; 82;
               uint16 rate / 256; uint16 rate mod 256].
Proof using ok.
  intros Hact Hroom. unfold XBeeConfig_SetSampleRate. cbv zeta.
  destruct (helper_sends w xbp (literal "IR")
              [uint8 (Z.land (Z.shiftr (uint16 rate) 8) 255);
               uint8 (Z.land (uint16 rate) 255)] 2)
    as (w' & evs & -> & Htrace & Hwire);
    [assumption|lia|lia|cbn; lia|cbn; lia|].
  exists w', evs. split; [reflexivity|]. split; [assumption|].
  rewrite Hwire. unfold at_command_bytes.
  change (Z.to_nat 2) with 2%nat. cbn [take map app literal].
  rewrite !byte_of_byte, high_byte, low_byte. reflexivity.
Qed.

(** [XBeeConfig_SetChannel] sends the command CH with the channel as its
    one parameter byte. *)
Theorem SetChannel_frame w xbp channel :
  can_activate w = true → 5 <= capacity xbp →
  ∃ w' evs,
    XBeeConfig_SetChannel w xbp channel = Some w'
    ∧ trace w' = trace w ++ evs
    ∧ wire evs = frame [XBEE_ATCOMMAND; 0; 67; 72; uint8 channel].
Proof using ok.
  intros Hact Hroom. unfold XBeeConfig_SetChannel. cbv zeta.
  destruct (helper_sends w xbp (literal "CH") [uint8 channel] 1)
    as (w' & evs & -> & Htrace & Hwire);
    [assumption|lia|lia|cbn; lia|cbn; lia|].
  exists w', evs. split; [reflexivity|]. split; [assumption|].
  rewrite Hwire. unfold at_command_bytes.
  change (Z.to_nat 1) with 1%nat. cbn [take map app literal].
  rewrite !byte_of_byte. reflexivity.
Qed.

(** [XBeeConfig_WriteStateToMemory] sends the command WR with no
    parameter; the [NULL] it passes for the parameters is never read. *)
Theorem WriteStateToMemory_frame w xbp :
  can_activate w = true → 4 <= capacity xbp →
  ∃ w' evs,
    XBeeConfig_WriteStateToMemory w xbp = Some w'
    ∧ trace w' = trace w ++ evs
    ∧ wire evs = frame [XBEE_ATCOMMAND; 0; 87; 82].
Proof using ok.
  intros Hact Hroom. unfold XBeeConfig_WriteStateToMemory.
  destruct (helper_sends w xbp (literal "WR") [] 0)
    as (w' & evs & -> & Htrace & Hwire);
    [assumption|lia|lia|cbn; lia|cbn; lia|].
  exists w', evs. split; [reflexivity|]. split; [assumption|].
  rewrite Hwire. reflexivity.
Qed.

(** [XBeeConfig_SetAddress] sends the command IR, the one that
    [XBeeConfig_SetSampleRate] sends, with the four bytes of the address,
    low byte first: the wide masks of the two middle bytes are cut to a
    byte by the store. *)
Theorem SetAddress_frame w xbp address :
  can_activate w = true → 8 <= capacity xbp →
  ∃ w' evs,
    XBeeConfig_SetAddress w xbp address = Some w'
    ∧ trace w' = trace w ++ evs
    ∧ wire evs
      = frame [XBEE_ATCOMMAND; 0; 73; 82;
               address mod 256; (address / 2 ^ 8) mod 256;
               (address / 2 ^ 16) mod 256; (address / 2 ^ 24) mod 256].
Proof using ok.
  intros Hact Hroom. unfold XBeeConfig_SetAddress. cbv zeta.
  match goal with
  | |- context [XBee_CreateATCommandPacket _ _ _ ?ps 4] =>
      destruct (helper_sends w xbp (literal "IR") ps 4)
        as (w' & evs & -> & Htrace & Hwire);
        [assumption|lia|lia|cbn; lia|cbn; lia|]
  end.
  exists w', evs. split; [reflexivity|]. split; [assumption|].
  rewrite Hwire. unfold at_command_bytes.
  change (Z.to_nat 4) with 4%nat. cbn [take map app literal].
  rewrite !byte_of_byte, !low_byte.
  change 16777215 with (Z.ones 24). change 65535 with (Z.ones 16).
  rewrite !Z.land_ones, !Z.shiftr_div_pow2 by lia.
  unfold uint8.
  rewrite !Z.mod_mod_divide
    by first [exists (2 ^ 16); reflexivity | exists (2 ^ 8); reflexivity].
  reflexivity.
Qed.

Lemma CreateTX16Packet_spec xbp frameID destination options data datalength :
  let n := Z.to_nat (uint8 datalength) in
  5 + Z.of_nat n <= capacity xbp → (n ≤ length data)%nat →
  XBee_CreateTX16Packet xbp frameID destination options data datalength
  = Some (true,
          set_bytes
            (tx16_bytes frameID destination options data n
             ++ drop (5 + n) (bytes xbp))
            (set_plength (uint8 datalength + 5) xbp)).
Proof using ok.
  intros n Hroom Hdata.
  destruct (header_built_kinds 0) as (_ & Hk & _).
  unfold XBee_CreateTX16Packet, tx16_frameID, tx16_destination, tx16_options,
    tx16_data.
  do 5 (rewrite poke_some by (unfold capacity in *; cbn [bytes set_bytes];
                              rewrite ?blit_length; lia);
        cbn [mbind option_bind]).
  rewrite copy_in_spec by (unfold capacity in *;
                           cbn [bytes set_bytes set_plength];
                           rewrite ?blit_length; lia).
  fold n. rewrite (uint8_id XBEE_TX16) by assumption.
  change (Z.to_nat 0) with 0%nat. change (Z.to_nat 1) with 1%nat.
  change (Z.to_nat 2) with 2%nat. change (Z.to_nat (2 + 1)) with 3%nat.
  change (Z.to_nat 4) with 4%nat. change (Z.to_nat 5) with 5%nat.
  assert (Hlenn : length (map uint8 (take n data)) = n)
    by (rewrite length_map, length_take; lia).
  assert (Hlen : length (tx16_bytes frameID destination options data n)
                 = (5 + n)%nat).
  { unfold tx16_bytes. rewrite length_app, Hlenn. reflexivity. }
  unfold capacity in Hroom. destruct xbp as [bs c d r l i].
  cbn [mbind option_bind set_bytes set_plength bytes crc dataPtr rxState
       plength index] in *.
  do 3 f_equal. rewrite <- Hlen, <- blit_0 by lia.
  unfold tx16_bytes. rewrite blit_app. reflexivity.
Qed.

(** A transmit request built by [XBee_CreateTX16Packet] in a packet that
    holds anything, then sent with the same data length (at most 255): the
    builder reports success and records the length [datalength + 5], and
    the line carries the frame of kind, frame id, destination high byte
    then low byte, options and the data. *)
Theorem tx16_built_and_sent w xbp frameID destination options data datalength :
  can_activate w = true →
  0 <= datalength < 256 →
  5 + datalength <= capacity xbp →
  (Z.to_nat datalength ≤ length data)%nat →
  ∃ xbp' r evs,
    XBee_CreateTX16Packet xbp frameID destination options data datalength
    = Some (true, xbp')
    ∧ plength xbp' = datalength + 5
    ∧ XBee_SendPacket w xbp' datalength = Some r
    ∧ r.1.1 = CONTROLLER_OK
    ∧ trace r.1.2 = trace w ++ evs
    ∧ wire evs
      = frame (tx16_bytes frameID destination options data
                 (Z.to_nat datalength)).
Proof using ok.
  intros Hact Hd Hroom Hdata.
  destruct (header_built_kinds datalength) as (_ & Hk & Hsize).
  pose proof (CreateTX16Packet_spec xbp frameID destination options data
                datalength) as Hbuild.
  cbv zeta in Hbuild. rewrite (uint8_id datalength) in Hbuild by lia.
  rewrite Hbuild by (assumption || lia). clear Hbuild.
  set (payload := tx16_bytes frameID destination options data
                    (Z.to_nat datalength)).
  assert (Hlen : length payload = (5 + Z.to_nat datalength)%nat).
  { unfold payload, tx16_bytes.
    rewrite !length_app, !length_map, !length_take. cbn [length]. lia. }
  set (rest := drop (5 + Z.to_nat datalength) (bytes xbp)).
  set (xbp' := set_bytes (payload ++ rest)
                 (set_plength (datalength + 5) xbp)).
  destruct (send_built w xbp' datalength payload rest Hact eq_refl)
    as (r & evs & Hsend).
  - change (apiId xbp') with XBEE_TX16. rewrite Hsize, Hlen. lia.
  - rewrite Hlen. lia.
  - unfold payload, tx16_bytes. apply Forall_app_2; [|apply map_uint8_range].
    repeat constructor; try lia; apply uint8_range.
  - exists xbp', r, evs. split; [reflexivity|].
    split; [destruct xbp; reflexivity|exact Hsend].
Qed.

End Building.

Lemma at_command_built_and_sent_witness :
  ∃ xbp' r evs,
    @XBee_CreateATCommandPacket xbee_h (blank_packet 100) 1 [73; 82; 0] [0; 100] 2
    = Some xbp'
    ∧ @XBee_SendPacket xbee_h idle_world xbp' 2 = Some r
    ∧ r.1.1 = 0
    ∧ trace r.1.2 = trace idle_world ++ evs
    ∧ wire evs = @frame xbee_h (@at_command_bytes xbee_h 1 [73; 82; 0] [0; 100] 2).
Proof.
  apply (@at_command_built_and_sent xbee_h eq_refl idle_world
           (blank_packet 100) 1 [73; 82; 0] [0; 100] 2);
    first [reflexivity | vm_compute; lia | vm_compute; intuition congruence].
Defined.

Lemma tx16_built_and_sent_witness :
  ∃ xbp' r evs,
    @XBee_CreateTX16Packet xbee_h (blank_packet 100) 1 0x1234 0 [65; 66; 67] 3
    = Some (true, xbp')
    ∧ plength xbp' = 3 + 5
    ∧ @XBee_SendPacket xbee_h idle_world xbp' 3 = Some r
    ∧ r.1.1 = 0
    ∧ trace r.1.2 = trace idle_world ++ evs
    ∧ wire evs
      = @frame xbee_h (@tx16_bytes xbee_h 1 0x1234 0 [65; 66; 67] 3).
Proof.
  apply (@tx16_built_and_sent xbee_h eq_refl idle_world (blank_packet 100)
           1 0x1234 0 [65; 66; 67] 3);
    first [reflexivity | vm_compute; lia | vm_compute; intuition congruence].
Defined.

Lemma SetPanID_frame_witness :
  ∃ w' evs,
    @XBeeConfig_SetPanID xbee_h idle_world (blank_packet 100) 0x1234 = Some w'
    ∧ trace w' = trace idle_world ++ evs
    ∧ wire evs
      = @frame xbee_h [0x08; 0; 73; 68; uint16 0x1234 / 256;
                       uint16 0x1234 mod 256].
Proof.
  apply (@SetPanID_frame xbee_h eq_refl idle_world (blank_packet 100) 0x1234);
    first [reflexivity | vm_compute; lia | vm_compute; intuition congruence].
Defined.

Lemma SetSampleRate_frame_witness :
  ∃ w' evs,
    @XBeeConfig_SetSampleRate xbee_h idle_world (blank_packet 100) 100
    = Some w'
    ∧ trace w' = trace idle_world ++ evs
    ∧ wire evs
      = @frame xbee_h [0x08; 0; 73; 82; uint16 100 / 256; uint16 100 mod 256].
Proof.
  apply (@SetSampleRate_frame xbee_h eq_refl idle_world (blank_packet 100) 100);
    first [reflexivity | vm_compute; lia | vm_compute; intuition congruence].
Defined.

Lemma SetChannel_frame_witness :
  ∃ w' evs,
    @XBeeConfig_SetChannel xbee_h idle_world (blank_packet 100) 0x0D = Some w'
    ∧ trace w' = trace idle_world ++ evs
    ∧ wire evs = @frame xbee_h [0x08; 0; 67; 72; uint8 0x0D].
Proof.
  apply (@SetChannel_frame xbee_h eq_refl idle_world (blank_packet 100) 0x0D);
    first [reflexivity | vm_compute; lia | vm_compute; intuition congruence].
Defined.

Lemma WriteStateToMemory_frame_witness :
  ∃ w' evs,
    @XBeeConfig_WriteStateToMemory xbee_h idle_world (blank_packet 100) = Some w'
    ∧ trace w' = trace idle_world ++ evs
    ∧ wire evs = @frame xbee_h [0x08; 0; 87; 82].
Proof.
  apply (@WriteStateToMemory_frame xbee_h eq_refl idle_world (blank_packet 100));
    first [reflexivity | vm_compute; lia | vm_compute; intuition congruence].
Defined.

Lemma SetAddress_frame_witness :
  ∃ w' evs,
    @XBeeConfig_SetAddress xbee_h idle_world (blank_packet 100) 0x01020304
    = Some w'
    ∧ trace w' = trace idle_world ++ evs
    ∧ wire evs
      = @frame xbee_h [0x08; 0; 73; 82;
                       0x01020304 mod 256; (0x01020304 / 2 ^ 8) mod 256;
                       (0x01020304 / 2 ^ 16) mod 256;
                       (0x01020304 / 2 ^ 24) mod 256].
Proof.
  apply (@SetAddress_frame xbee_h eq_refl idle_world (blank_packet 100)
           0x01020304);
    first [reflexivity | vm_compute; lia | vm_compute; intuition congruence].
Defined.

(** ** More of the receiver *)

Lemma sum_bytes_insert l : ∀ k b b',
  l !! k = Some b → sum_bytes (<[k := b']> l) = sum_bytes l - b + b'.
Proof.
  induction l as [|x l IH]; intros [|k] b b' Hk; try discriminate.
  - injection Hk as ->.
    change (b' + sum_bytes l = b + sum_bytes l - b + b'). lia.
  - change (x + sum_bytes (<[k := b']> l) = x + sum_bytes l - b + b').
    rewrite (IH k b b' Hk). lia.
Qed.

Lemma forallb_insert {A} (f : A → bool) l : ∀ k x,
  forallb f l = true → f x = true → forallb f (<[k := x]> l) = true.
Proof.
  induction l as [|y l IH]; intros [|k] x Hl Hx; cbn in Hl |- *;
    try assumption; apply andb_prop in Hl as [Hy Hl].
  - rewrite Hx. assumption.
  - rewrite Hy. apply IH; assumption.
Qed.

Lemma forallb_lookup {A} (f : A → bool) l : ∀ k x,
  forallb f l = true → l !! k = Some x → f x = true.
Proof.
  induction l as [|y l IH]; intros [|k] x Hl Hk; cbn in Hl, Hk;
    try discriminate; apply andb_prop in Hl as [Hy Hl].
  - congruence.
  - apply (IH k); assumption.
Qed.

Section Rejecting.
Context `{hdr : XBeeHeader}.
Hypothesis ok : header_ok = true.

(** A payload the receiver takes in whole, whatever byte closes it: the
    two length bytes and the payload hold no start byte, and the payload
    is not empty and fits. *)
Lemma rx_frame_body bs l0 payload q :
  let n := Z.of_nat (length payload) in
  plain (Z.land (Z.shiftr n 8) 255) = true → plain (Z.land n 255) = true →
  forallb plain payload = true →
  1 <= n <= XBEE_MAX_PACKET_SIZE → n <= Z.of_nat (length bs) →
  rx_loop (mkPacket bs 0 0 XBEE_PACKET_RX_LENGTH_1 l0 0)
    (Z.land (Z.shiftr n 8) 255 :: Z.land n 255 :: payload ++ q)
  = rx_loop (mkPacket (blit 0 payload bs) (uint8 (sum_bytes payload)) n
               XBEE_PACKET_RX_CRC n n) q.
Proof using ok.
  intros n Hhi Hlo Hpl Hn Hroom.
  destruct (header_bounds ok) as (Hstart & Hmax & _).
  apply plain_spec in Hhi as [Hhi Hhi'], Hlo as [Hlo Hlo'].
  assert (Hdiv : 0 <= n / 256 < 256)
    by (split; [apply Z.div_pos | apply Z.div_lt_upper_bound]; lia).
  set (hi := Z.land (Z.shiftr n 8) 255) in *.
  set (lo := Z.land n 255) in *.
  assert (Hsum : hi * 256 + lo = n).
  { unfold hi, lo. rewrite !land_255, shiftr_8.
    rewrite (Z.mod_small (n / 256)) by lia.
    pose proof (Z.div_mod n 256). lia. }
  rewrite rx_loop_cons, rx_char_length1 by (assumption || lia).
  rewrite rx_loop_cons, rx_char_length2 by (assumption || lia).
  rewrite shiftl_8. rewrite (int32_id (hi * 256)) by lia.
  rewrite int32_id by lia. rewrite Hsum.
  destruct (Z.gtb_spec n XBEE_MAX_PACKET_SIZE) as [?|_]; [lia|].
  rewrite (rx_payload payload bs 0 0 n 0); try assumption; try lia.
  2:{ intros ->. cbn in n. lia. }
  rewrite !Z.add_0_l. reflexivity.
Qed.

(** The start byte over a packet that is clean or in the middle of a
    frame: the first length byte is next, over a packet with nothing
    taken in. *)
Lemma rx_start p q :
  rxState p ≠ XBEE_PACKET_RX_START ∨ clean p →
  ∃ bs' l0,
    rx_loop p (XBEE_PACKET_STARTBYTE :: q)
    = rx_loop (mkPacket bs' 0 0 XBEE_PACKET_RX_LENGTH_1 l0 0) q
    ∧ length bs' = length (bytes p).
Proof using ok.
  intros Hstate. destruct (header_bounds ok) as (Hstart & _ & _).
  rewrite rx_loop_cons, rx_char_startbyte by lia.
  destruct p as [bs c d st l i]. unfold clean in Hstate.
  cbn [rxState crc dataPtr index bytes] in *.
  destruct st; cbn [RxState_eqb];
    [ destruct Hstate as [?|(-> & -> & ->)]; [congruence|];
      exists bs, l; split; reflexivity
    | exists (<[0%nat := 0]> bs), 0; split;
      [reflexivity | apply length_insert] .. ].
Qed.

(** What the checksum state does with the byte that closes the frame. *)
Lemma rx_close bs cr d l i c :
  plain c = true →
  rx_loop (mkPacket bs cr d XBEE_PACKET_RX_CRC l i) [c]
  = Some (if uint8 (cr + c) =? 255
          then (1, mkPacket bs 255 d XBEE_PACKET_RX_START l i, [])
          else (0, mkPacket (<[0%nat := 0]> bs) 0 0 XBEE_PACKET_RX_START 0 0,
                [])).
Proof using Type.
  intros Hc. apply plain_spec in Hc as [Hc Hc'].
  rewrite rx_loop_cons, rx_char_crc by (assumption || lia).
  destruct (Z.eqb_spec (uint8 (cr + c)) 255) as [->|_]; reflexivity.
Qed.

(** A frame whose closing byte is any byte but the start byte: the call
    reads all of it, and answers 1 exactly when payload and closing byte
    sum to 0xFF modulo 256; on the answer 1 the packet starts with the
    payload and records its length, on the answer 0 it is reset. *)
Theorem frame_accepted_iff_sum_closes w p payload c :
  can_activate w = true → rxq w = [] →
  rxState p ≠ XBEE_PACKET_RX_START ∨ clean p →
  let n := Z.of_nat (length payload) in
  plain (Z.land (Z.shiftr n 8) 255) = true → plain (Z.land n 255) = true →
  forallb plain payload = true → plain c = true →
  1 <= n <= XBEE_MAX_PACKET_SIZE → n <= capacity p →
  ∃ r w' p',
    XBee_GetPacket
      (offer (XBEE_PACKET_STARTBYTE :: Z.land (Z.shiftr n 8) 255
              :: Z.land n 255 :: payload ++ [c]) w) p
    = Some (r, w', p')
    ∧ rxq w' = [] ∧ trace w' = trace w
    ∧ rxState p' = XBEE_PACKET_RX_START
    ∧ (uint8 (sum_bytes payload + c) = 255 →
       r = 1 ∧ take (length payload) (bytes p') = payload ∧ plength p' = n)
    ∧ (uint8 (sum_bytes payload + c) ≠ 255 → r = 0 ∧ clean p').
Proof using ok.
  intros Hact Hq Hstate n Hhi Hlo Hpl Hc Hn Hroom.
  rewrite GetPacket_active by (destruct w; assumption).
  unfold offer. cbn [rxq set_rxq serial_ok trace]. rewrite Hq, app_nil_l.
  destruct (rx_start p (Z.land (Z.shiftr n 8) 255 :: Z.land n 255
                        :: payload ++ [c]) Hstate)
    as (bs' & l0 & -> & Hlen).
  unfold capacity in Hroom. subst n.
  rewrite rx_frame_body by (assumption || lia).
  rewrite rx_close by assumption. rewrite uint8_add_l.
  destruct (Z.eqb_spec (uint8 (sum_bytes payload + c)) 255) as [Hsum|Hsum];
    cbn [mbind option_bind]; eexists _, _, _; (split; [reflexivity|]);
    cbn [rxq trace rxState bytes plength]; repeat split;
    try congruence.
  rewrite blit_0 by lia. apply take_app_length.
Qed.

(** One payload byte of a frame replaced by another byte (not the start
    byte) on the way: the call reads the whole frame, answers 0 and
    leaves the packet reset. *)
Theorem damaged_payload_byte_rejected w p payload k b b' :
  can_activate w = true → rxq w = [] →
  rxState p ≠ XBEE_PACKET_RX_START ∨ clean p →
  decodable payload (capacity p) = true →
  payload !! k = Some b → plain b' = true → b' ≠ b →
  let n := Z.of_nat (length payload) in
  ∃ w' p',
    XBee_GetPacket
      (offer (XBEE_PACKET_STARTBYTE :: Z.land (Z.shiftr n 8) 255
              :: Z.land n 255 :: <[k := b']> payload ++ [checksum payload]) w)
      p
    = Some (0, w', p')
    ∧ rxq w' = [] ∧ clean p' ∧ rxState p' = XBEE_PACKET_RX_START
    ∧ capacity p' = capacity p.
Proof using ok.
  intros Hact Hq Hstate Hdec Hk Hb' Hne n.
  apply decodable_spec in Hdec as (Hhi & Hlo & Hpl & Hck & Hn & Hroom).
  fold n in Hhi, Hlo, Hn, Hroom.
  set (payload' := <[k := b']> payload).
  assert (Hlen : length payload' = length payload) by apply length_insert.
  assert (Hpl' : forallb plain payload' = true)
    by (apply forallb_insert; assumption).
  assert (Hb : plain b = true) by (apply (forallb_lookup _ _ _ _ Hpl Hk)).
  rewrite GetPacket_active by (destruct w; assumption).
  unfold offer. cbn [rxq set_rxq serial_ok trace]. rewrite Hq, app_nil_l.
  destruct (rx_start p (Z.land (Z.shiftr n 8) 255 :: Z.land n 255
                        :: payload' ++ [checksum payload]) Hstate)
    as (bs' & l0 & -> & Hbs).
  unfold capacity in *. subst n. rewrite <- Hlen.
  rewrite rx_frame_body by (rewrite ?Hlen; assumption || lia).
  rewrite rx_close by assumption. rewrite uint8_add_l.
  subst payload'. rewrite (sum_bytes_insert _ _ _ _ Hk).
  apply plain_spec in Hb as [Hb _], Hb' as [Hb' _].
  destruct (Z.eqb_spec
              (uint8 (sum_bytes payload - b + b' + checksum payload)) 255)
    as [Hsum|_].
  { exfalso. unfold checksum, uint8 in Hsum. change (2 ^ 8) with 256 in Hsum.
    revert Hsum. generalize (sum_bytes payload). intros s Hsum.
    Z.div_mod_to_equations. lia. }
  cbn [mbind option_bind]. eexists _, _. split; [reflexivity|].
  unfold clean. cbn [rxq crc dataPtr index rxState bytes].
  rewrite length_insert, blit_length. repeat split; lia.
Qed.

End Rejecting.

Section Edges.
Context `{hdr : XBeeHeader}.
Hypothesis ok : header_ok = true.

(** A frame that declares the length 0: the payload state still takes one
    byte, stores it as the kind, and the byte after it closes the frame. *)
Theorem zero_length_frame_takes_one_byte w p b c :
  can_activate w = true → rxq w = [] →
  rxState p ≠ XBEE_PACKET_RX_START ∨ clean p →
  1 <= capacity p →
  plain 0 = true → plain b = true → plain c = true →
  ∃ r w' p',
    XBee_GetPacket (offer [XBEE_PACKET_STARTBYTE; 0; 0; b; c] w) p
    = Some (r, w', p')
    ∧ rxq w' = []
    ∧ (uint8 (b + c) = 255 →
       r = 1 ∧ plength p' = 0 ∧ index p' = 1 ∧ apiId p' = b)
    ∧ (uint8 (b + c) ≠ 255 → r = 0 ∧ clean p').
Proof using ok.
  intros Hact Hq Hstate Hroom H0 Hb Hc.
  destruct (header_bounds ok) as (_ & Hmax & _).
  rewrite GetPacket_active by (destruct w; assumption).
  unfold offer. cbn [rxq set_rxq serial_ok trace]. rewrite Hq, app_nil_l.
  destruct (rx_start ok p [0; 0; b; c] Hstate) as (bs' & l0 & -> & Hlen).
  unfold capacity in Hroom. rewrite <- Hlen in Hroom.
  apply plain_spec in H0 as [_ H0], Hb as [Hb Hb'].
  rewrite rx_loop_cons, rx_char_length1 by (assumption || lia).
  rewrite rx_loop_cons, rx_char_length2 by (assumption || lia).
  change (int32 (Z.shiftl 0 8)) with 0. change (int32 (0 + 0)) with 0.
  destruct (Z.gtb_spec 0 XBEE_MAX_PACKET_SIZE) as [?|_]; [lia|].
  rewrite rx_loop_cons, rx_char_payload by (assumption || lia).
  change (int32 (0 + 1)) with 1. change (1 >=? 0) with true. cbn iota.
  rewrite rx_close by assumption. rewrite uint8_add_l, Z.add_0_l.
  rewrite (uint8_id b) by assumption.
  destruct (Z.eqb_spec (uint8 (b + c)) 255) as [Hsum|Hsum];
    cbn [mbind option_bind]; eexists _, _, _; (split; [reflexivity|]);
    cbn [rxq plength index]; repeat split; try congruence.
  unfold apiId, byte_at. cbn [bytes]. change (Z.to_nat 0) with 0%nat.
  destruct bs' as [|x bs']; [cbn in Hroom; lia|reflexivity].
Qed.

(** What one character can do to the packet: its room stays, and an
    answer comes only from the checksum state, 1 over a sum of 0xFF, 0
    over a reset packet. *)
Lemma rx_char_shape p c f :
  rx_char p c = Some f →
  match f with
  | Next p' => capacity p' = capacity p
  | Return r p' =>
      capacity p' = capacity p ∧ rxState p' = XBEE_PACKET_RX_START
      ∧ (r = 1 ∧ crc p' = 255 ∨ r = 0 ∧ clean p')
  end.
Proof using Type.
  destruct (Z.eq_dec c XBEE_PACKET_STARTBYTE) as [->|Hc].
  { rewrite rx_char_startbyte. intros [= <-].
    destruct (RxState_eqb (rxState p) XBEE_PACKET_RX_START);
      [reflexivity|apply reset_capacity]. }
  destruct p as [bs cr d st l i]. destruct st.
  - rewrite rx_char_start by assumption. intros [= <-]. reflexivity.
  - rewrite rx_char_length1 by assumption. intros [= <-]. reflexivity.
  - rewrite rx_char_length2 by assumption. intros [= <-]. reflexivity.
  - destruct (decide (0 <= d < Z.of_nat (length bs))) as [Hd|Hd].
    + rewrite rx_char_payload by assumption. intros [= <-].
      unfold capacity. cbn [bytes]. rewrite length_insert. reflexivity.
    + unfold rx_char. rewrite rx_char_no_reset by assumption.
      cbn [rxState]. unfold poke, capacity. cbn [bytes dataPtr].
      destruct (Z.leb_spec 0 d), (Z.ltb_spec d (Z.of_nat (length bs)));
        try discriminate. lia.
  - rewrite rx_char_crc by assumption. intros [= <-].
    destruct (Z.eqb_spec (uint8 (cr + c)) 255) as [E|_].
    + repeat split. left. auto.
    + unfold capacity, clean. cbn. rewrite length_insert.
      repeat split. right. auto.
Qed.

Lemma rx_loop_shape q : ∀ p r p' q',
  rx_loop p q = Some (r, p', q') →
  capacity p' = capacity p ∧ (∃ used, q = used ++ q')
  ∧ (r = 0
     ∨ r = 1 ∧ crc p' = 255 ∧ rxState p' = XBEE_PACKET_RX_START).
Proof using Type.
  induction q as [|c q IH]; intros p r p' q' Hloop.
  { injection Hloop as <- <- <-. repeat split; [exists []|]; auto. }
  cbn [rx_loop] in Hloop. destruct (c =? -1).
  { injection Hloop as <- <- <-. repeat split; [exists [c]|]; auto. }
  destruct (rx_char p c) as [f|] eqn:Hf; [|discriminate].
  apply rx_char_shape in Hf. destruct f as [p1|r1 p1].
  - apply IH in Hloop as (Hcap & (used & ->) & Hr).
    split; [congruence|]. split; [exists (c :: used); reflexivity|assumption].
  - injection Hloop as <- <- <-. destruct Hf as (Hcap & Hst & Hr).
    split; [assumption|]. split; [exists [c]; reflexivity|].
    destruct Hr as [[-> Hcrc]|[-> _]]; auto.
Qed.

(** Whatever the port holds and whatever state the packet is in, a call
    of [XBee_GetPacket] that returns has sent nothing, has taken
    characters from the front of the receive queue only, has kept the
    packet's room, and has answered the error code over an untouched
    packet, or 0, or 1 over a packet whose checksum is 0xFF and which
    waits for a start byte. *)
Theorem GetPacket_only_reads w p r w' p' :
  XBee_GetPacket w p = Some (r, w', p') →
  trace w' = trace w ∧ serial_ok w' = serial_ok w
  ∧ (∃ used, rxq w = used ++ rxq w')
  ∧ capacity p' = capacity p
  ∧ (r = CONTROLLER_ERROR_SUBSYSTEM_INACTIVE ∧ w' = w ∧ p' = p
     ∨ r = 0
     ∨ r = 1 ∧ crc p' = 255 ∧ rxState p' = XBEE_PACKET_RX_START).
Proof using ok.
  destruct (header_bounds ok) as (_ & _ & Herr).
  destruct (can_activate w) eqn:Hact.
  - rewrite GetPacket_active by assumption.
    destruct (rx_loop p (rxq w)) as [[[r1 p1] q1]|] eqn:Hloop; [|discriminate].
    cbn [mbind option_bind]. intros [= <- <- <-].
    apply rx_loop_shape in Hloop as (Hcap & Hused & Hr).
    cbn [trace serial_ok rxq]. repeat split; try assumption. auto.
  - unfold XBee_GetPacket. rewrite SetActive_off by assumption.
    cbn [mbind option_bind]. apply Z.eqb_neq in Herr. rewrite Herr.
    cbn [negb]. intros [= <- <- <-].
    repeat split; [exists []; reflexivity|auto].
Qed.

End Edges.

Lemma frame_accepted_iff_sum_closes_witness :
  ∃ r w' p',
    @XBee_GetPacket xbee_h
      (offer (0x7E :: Z.land (Z.shiftr (Z.of_nat (length [0x81; 0x12])) 8) 255
              :: Z.land (Z.of_nat (length [0x81; 0x12])) 255
              :: [0x81; 0x12] ++ [0x6C]) idle_world) (blank_packet 100)
    = Some (r, w', p')
    ∧ rxq w' = [] ∧ trace w' = trace idle_world
    ∧ rxState p' = XBEE_PACKET_RX_START
    ∧ (uint8 (sum_bytes [0x81; 0x12] + 0x6C) = 255 →
       r = 1 ∧ take (length [0x81; 0x12]) (bytes p') = [0x81; 0x12]
       ∧ plength p' = Z.of_nat (length [0x81; 0x12]))
    ∧ (uint8 (sum_bytes [0x81; 0x12] + 0x6C) ≠ 255 → r = 0 ∧ clean p').
Proof.
  apply (@frame_accepted_iff_sum_closes xbee_h eq_refl idle_world
           (blank_packet 100) [0x81; 0x12] 0x6C);
    first [ reflexivity | right; repeat split | vm_compute; intuition congruence ].
Defined.

Lemma damaged_payload_byte_rejected_witness :
  ∃ w' p',
    @XBee_GetPacket xbee_h
      (offer (0x7E :: Z.land (Z.shiftr (Z.of_nat (length [0x81; 0x12])) 8) 255
              :: Z.land (Z.of_nat (length [0x81; 0x12])) 255
              :: <[1%nat := 0x13]> [0x81; 0x12]
                 ++ [@checksum [0x81; 0x12]]) idle_world) (blank_packet 100)
    = Some (0, w', p')
    ∧ rxq w' = [] ∧ clean p' ∧ rxState p' = XBEE_PACKET_RX_START
    ∧ capacity p' = capacity (blank_packet 100).
Proof.
  apply (@damaged_payload_byte_rejected xbee_h eq_refl idle_world
           (blank_packet 100) [0x81; 0x12] 1%nat 0x12 0x13);
    first [ reflexivity | right; repeat split | vm_compute; intuition congruence ].
Defined.

Lemma zero_length_frame_takes_one_byte_witness :
  ∃ r w' p',
    @XBee_GetPacket xbee_h (offer [0x7E; 0; 0; 0x41; 0xBE] idle_world)
      (blank_packet 100)
    = Some (r, w', p')
    ∧ rxq w' = []
    ∧ (uint8 (0x41 + 0xBE) = 255 →
       r = 1 ∧ plength p' = 0 ∧ index p' = 1 ∧ apiId p' = 0x41)
    ∧ (uint8 (0x41 + 0xBE) ≠ 255 → r = 0 ∧ clean p').
Proof.
  apply (@zero_length_frame_takes_one_byte xbee_h eq_refl idle_world
           (blank_packet 100) 0x41 0xBE);
    first [ reflexivity | right; repeat split | vm_compute; intuition congruence ].
Defined.

Lemma GetPacket_only_reads_witness :
  let w := offer [0x7E; 0; 1; 0x41; 0xBE; 0x7E] idle_world in
  let w' := mkWorld true true [0x7E] [] in
  let p' := mkPacket [0x41; 0; 0; 0] 255 1 XBEE_PACKET_RX_START 1 1 in
  trace w' = trace w ∧ serial_ok w' = serial_ok w
  ∧ (∃ used, rxq w = used ++ rxq w')
  ∧ capacity p' = capacity (blank_packet 4)
  ∧ (1 = -1 ∧ w' = w ∧ p' = blank_packet 4
     ∨ 1 = 0
     ∨ 1 = 1 ∧ crc p' = 255 ∧ rxState p' = XBEE_PACKET_RX_START).
Proof.
  apply (@GetPacket_only_reads xbee_h eq_refl
           (offer [0x7E; 0; 1; 0x41; 0xBE; 0x7E] idle_world) (blank_packet 4)
           1 (mkWorld true true [0x7E] [])
           (mkPacket [0x41; 0; 0; 0] 255 1 XBEE_PACKET_RX_START 1 1)).
  vm_compute. reflexivity.
Defined.

Lemma inactive_subsystem_does_nothing_witness :
  let w := mkWorld false false [0x7E; 0; 1] [] in
  @XBee_GetPacket xbee_h w (blank_packet 4) = Some (-1, w, blank_packet 4)
  ∧ @XBee_SendPacket xbee_h w (blank_packet 4) 0 = Some (-1, w, blank_packet 4)
  ∧ @XBeeConfig_SetPacketApiMode xbee_h w = Some w.
Proof.
  apply (@inactive_subsystem_does_nothing xbee_h eq_refl
           (mkWorld false false [0x7E; 0; 1] []) (blank_packet 4) 0).
  reflexivity.
Defined.

(** ** More of the readers and builders *)

Lemma for_loop_ext {S : Type} (body body' : Z → S → option S) n : ∀ i s,
  (∀ k s, i <= k → body k s = body' k s) →
  for_loop n i body s = for_loop n i body' s.
Proof.
  induction n as [|n IH]; intros i s Hext; [reflexivity|].
  cbn [for_loop]. rewrite Hext by lia.
  destruct (body' i s) as [s1|]; [|reflexivity].
  cbn [mbind option_bind]. apply IH. intros k s2 Hk. apply Hext. lia.
Qed.

Lemma shiftl_56_low X : uint64 (Z.shiftl X 56) = X mod 256 * 2 ^ 56.
Proof.
  rewrite Z.shiftl_mul_pow2 by lia. unfold uint64.
  change (2 ^ 64) with (2 ^ 8 * 2 ^ 56).
  rewrite Z.mul_mod_distr_r by lia. reflexivity.
Qed.

Lemma shift_48_add_low v b :
  0 <= b < 256 → uint64 (uint64 (Z.shiftl v 48) + b) mod 256 = b.
Proof.
  intros Hb. rewrite Z.shiftl_mul_pow2 by lia. unfold uint64.
  rewrite Z.mod_mod_divide by (exists (2 ^ 56); reflexivity).
  rewrite Z.add_mod by lia.
  rewrite Z.mod_mod_divide by (exists (2 ^ 56); reflexivity).
  change (2 ^ 48) with (2 ^ 40 * 256). rewrite Z.mul_assoc, Z.mod_mul by lia.
  rewrite Z.add_0_l, Z.mod_mod by lia. apply Z.mod_small. assumption.
Qed.

Section MoreReading.
Context `{hdr : XBeeHeader}.

(** What the loop of [read_address64] leaves: the last byte but one of
    the address in the top byte, the last byte in the bottom byte. *)
Lemma address64_last_two xbp source v0 :
  0 <= byte_at xbp (source + 6) < 256 →
  0 <= byte_at xbp (source + 7) < 256 →
  address64 xbp source v0
  = byte_at xbp (source + 6) * 2 ^ 56 + byte_at xbp (source + 7).
Proof.
  intros H6 H7. unfold address64. cbn [foldl].
  generalize (shift_add64 xbp source
                (shift_add64 xbp source
                   (shift_add64 xbp source
                      (shift_add64 xbp source
                         (shift_add64 xbp source
                            (shift_add64 xbp source v0 0) 1) 2) 3) 4) 5).
  intros v. unfold shift_add64.
  change (7 * 8) with 56. change (6 * 8) with 48.
  rewrite shiftl_56_low, shift_48_add_low by assumption.
  unfold uint64. apply Z.mod_small. lia.
Qed.

(** On a 64-bit receive packet, the address [XBee_ReadRX64Packet] gives
    its caller is the seventh byte of the source address times 2^56 plus
    the eighth: the six first bytes of the address and what the caller's
    variable held are lost. *)
Theorem ReadRX64Packet_address_is_last_two_bytes
    xbp srcAddress a2 a3 a4 a5 m :
  apiId xbp = XBEE_RX64 →
  srcAddress ≠ 0%N → srcAddress ∉ [a2; a3; a4; a5] →
  0 <= byte_at xbp (rx64_source + 6) < 256 →
  0 <= byte_at xbp (rx64_source + 7) < 256 →
  ∃ m',
    XBee_ReadRX64Packet xbp srcAddress a2 a3 a4 a5 m = Some (true, m')
    ∧ m' !! srcAddress
      = Some (byte_at xbp (rx64_source + 6) * 2 ^ 56
              + byte_at xbp (rx64_source + 7)).
Proof.
  intros Hkind Ha Hsep H6 H7.
  repeat (apply not_elem_of_cons in Hsep as [? Hsep]).
  rewrite ReadRX64Packet_spec, Hkind, Z.eqb_refl.
  eexists. split; [reflexivity|].
  rewrite !put_lookup_ne by assumption.
  rewrite put_lookup_eq by assumption.
  rewrite address64_last_two by assumption. reflexivity.
Qed.

(** A turn of the loop of [XBee_GetIOValues] stores through one element
    of the caller's array and through nothing else. *)
Lemma io_turn_frame packet inputs i s s' :
  inputs ≠ 0%N →
  io_turn packet inputs i s = Some s' →
  (∀ a, a ≠ (inputs + Z.to_N (io_slot i))%N →
        io_mem s' !! a = io_mem s !! a)
  ∧ is_Some (io_mem s' !! (inputs + Z.to_N (io_slot i))%N).
Proof.
  intros Hin. unfold io_turn, io_slot.
  destruct (i <? 9), (negb (Z.land (channelIndicators s) 1 =? 0));
    try destruct (digitalins s =? 0);
    rewrite store_some by lia; cbn [mbind option_bind]; intros [= <-];
    cbn [io_mem]; (split; [intros a Ha; apply lookup_insert_ne; congruence|]);
    rewrite lookup_insert_eq; eexists; reflexivity.
Qed.

Lemma io_turn_keeps packet inputs i s s' a :
  inputs ≠ 0%N →
  io_turn packet inputs i s = Some s' →
  is_Some (io_mem s !! a) → is_Some (io_mem s' !! a).
Proof.
  intros Hin Hturn Ha.
  destruct (io_turn_frame _ _ _ _ _ Hin Hturn) as [Hframe Hsome].
  destruct (decide (a = (inputs + Z.to_N (io_slot i))%N)) as [->|Hne];
    [assumption|]. rewrite Hframe by assumption. assumption.
Qed.

Lemma io_loop_frame packet inputs n : ∀ i s s',
  inputs ≠ 0%N →
  for_loop n i (io_turn packet inputs) s = Some s' →
  (∀ a, (∀ k, i <= k < i + Z.of_nat n →
              a ≠ (inputs + Z.to_N (io_slot k))%N) →
        io_mem s' !! a = io_mem s !! a)
  ∧ (∀ a, is_Some (io_mem s !! a) → is_Some (io_mem s' !! a))
  ∧ (∀ k, i <= k < i + Z.of_nat n →
          is_Some (io_mem s' !! (inputs + Z.to_N (io_slot k))%N)).
Proof.
  induction n as [|n IH]; intros i s s' Hin Hloop.
  { injection Hloop as <-. split; [reflexivity|]. split; [auto|].
    intros k Hk. lia. }
  cbn [for_loop] in Hloop.
  destruct (io_turn packet inputs i s) as [s1|] eqn:Hturn; [|discriminate].
  cbn [mbind option_bind] in Hloop.
  destruct (io_turn_frame _ _ _ _ _ Hin Hturn) as [Hframe1 Hsome1].
  destruct (IH _ _ _ Hin Hloop) as (Hframe & Hkeep & Hsome).
  split; [|split].
  - intros a Ha. rewrite Hframe by (intros k Hk; apply Ha; lia).
    apply Hframe1, Ha. lia.
  - intros a Ha. apply Hkeep. eapply io_turn_keeps; eassumption.
  - intros k Hk. destruct (Z.eq_dec k i) as [->|Hne].
    + apply Hkeep. assumption.
    + apply Hsome. lia.
Qed.

(** [XBee_GetIOValues] returns for any packet; with [XBEE_INPUTS] between
    9 and 18 it stores through the nine first elements of the caller's
    array and nowhere else, and on an I/O sample packet it gives every
    one of the nine a value. *)
Theorem GetIOValues_writes_nine_elements packet inputs m :
  inputs ≠ 0%N → 9 <= XBEE_INPUTS <= 18 →
  ∃ m',
    XBee_GetIOValues packet inputs m
    = Some ((apiId packet =? XBEE_IO16) || (apiId packet =? XBEE_IO64), m')
    ∧ (∀ a, (a < inputs ∨ inputs + 9 <= a)%N → m' !! a = m !! a)
    ∧ ((apiId packet =? XBEE_IO16) || (apiId packet =? XBEE_IO64) = true →
       ∀ j, (j < 9)%N → is_Some (m' !! (inputs + j)%N)).
Proof.
  intros Hin Hn. unfold XBee_GetIOValues.
  destruct ((apiId packet =? XBEE_IO16) || (apiId packet =? XBEE_IO64)).
  2:{ exists m. split; [reflexivity|]. split; [reflexivity|discriminate]. }
  destruct (if apiId packet =? XBEE_IO16 then _ else _) as [p ci].
  destruct (io_loop_some packet inputs (Z.to_nat XBEE_INPUTS) 0
              (mkIO ci 0 p m) Hin) as (s' & Hloop & _).
  rewrite Hloop. cbn [mbind option_bind].
  destruct (io_loop_frame _ _ _ _ _ _ Hin Hloop) as (Hframe & _ & Hsome).
  exists (io_mem s'). split; [reflexivity|]. split.
  - intros a Ha. rewrite Hframe; [reflexivity|].
    intros k Hk. unfold io_slot. destruct (Z.ltb_spec k 9); lia.
  - intros _ j Hj.
    replace j with (Z.to_N (io_slot (Z.of_N j)))
      by (unfold io_slot; destruct (Z.ltb_spec (Z.of_N j) 9); lia).
    apply Hsome. lia.
Qed.

End MoreReading.

Section MoreKinds.
Context `{hdr : XBeeHeader}.
Hypothesis ok : header_ok = true.

(** [XBee_ReadIO64Packet] answers true exactly on a 64-bit receive packet
    asked for no samples; whatever it answers, it has stored through its
    three first pointers at most: the caller's samples are never
    written. *)
Theorem ReadIO64Packet_never_gives_samples xbp a1 a2 a3 samples m :
  ∃ m',
    XBee_ReadIO64Packet xbp a1 a2 a3 samples m
    = Some ((apiId xbp =? XBEE_RX64) && (samples =? 0)%N, m')
    ∧ (∀ a, a ≠ a1 → a ≠ a2 → a ≠ a3 → m' !! a = m !! a).
Proof using ok.
  destruct (Z.eqb_spec (apiId xbp) XBEE_RX64) as [E|E].
  - destruct (N.eqb_spec samples 0) as [->|Hs].
    + unfold XBee_ReadIO64Packet. rewrite E, Z.eqb_refl. cbn [negb].
      rewrite read_address64_spec. cbn [mbind option_bind].
      repeat (rewrite if_ptr_store; cbn [mbind option_bind]).
      eexists. split; [reflexivity|].
      intros a H1 H2 H3. rewrite !put_lookup_ne by assumption. reflexivity.
    + rewrite (ReadIO64Packet_RX64_writes_then_fails ok) by assumption.
      eexists. split; [reflexivity|].
      intros a H1 H2 H3. rewrite !put_lookup_ne by assumption. reflexivity.
  - unfold XBee_ReadIO64Packet. apply Z.eqb_neq in E. rewrite E.
    exists m. split; reflexivity.
Qed.

End MoreKinds.

Section MoreSamples.
Context `{hdr : XBeeHeader}.

(** The turns for the analog channels, with none enabled: zeros, from
    the element [i - 9] of the caller's array on. *)
Lemma io_loop_zeros packet inputs n : ∀ i s,
  inputs ≠ 0%N → 9 <= i → channelIndicators s = 0 →
  ∃ s', for_loop n i (io_turn packet inputs) s = Some s'
        ∧ (∀ a, io_mem s !! a = Some 0 → io_mem s' !! a = Some 0)
        ∧ (∀ j, i - 9 <= j < i - 9 + Z.of_nat n →
                io_mem s' !! (inputs + Z.to_N j)%N = Some 0).
Proof.
  induction n as [|n IH]; intros i s Hin Hi Hci.
  { exists s. split; [reflexivity|]. split; [auto|]. intros j Hj. lia. }
  cbn [for_loop]. rewrite io_turn_analog_off by assumption.
  cbn [mbind option_bind].
  edestruct (IH (i + 1)) as (s' & -> & Hkeep & Hzero);
    [exact Hin|lia|reflexivity|].
  cbn [io_mem] in Hkeep. exists s'. split; [reflexivity|]. split.
  - intros a Ha. apply Hkeep.
    destruct (decide (a = (inputs + Z.to_N (i - 9))%N)) as [->|Hne].
    + apply lookup_insert_eq.
    + rewrite lookup_insert_ne by congruence. assumption.
  - intros j Hj. destruct (Z.eq_dec j (i - 9)) as [->|Hne].
    + apply Hkeep, lookup_insert_eq.
    + apply Hzero. lia.
Qed.

(** On a 16-bit I/O sample packet whose channel indicators enable no
    analog channel, [XBee_ReadIO16Packet] leaves 0 in every element of
    the caller's array below [XBEE_INPUTS - 9], whatever the digital
    pins read: the turns for the analog channels store their zeros
    through [inputs[i-9]]. *)
Theorem digital_samples_overwritten_by_analog_turns
    xbp a1 a2 a3 samples m :
  apiId xbp = XBEE_IO16 → samples ≠ 0%N → 9 <= XBEE_INPUTS →
  Z.shiftr (Z.lor (Z.shiftl (byte_at xbp io16_channelIndicators) 8)
                  (byte_at xbp (io16_channelIndicators + 1))) 9 = 0 →
  ∃ m',
    XBee_ReadIO16Packet xbp a1 a2 a3 samples m = Some (true, m')
    ∧ ∀ j, 0 <= j < XBEE_INPUTS - 9 →
           m' !! (samples + Z.to_N j)%N = Some 0.
Proof.
  intros Hkind Hs Hn Hci.
  unfold XBee_ReadIO16Packet. rewrite Hkind, Z.eqb_refl. cbn [negb].
  rewrite read_address16_spec. cbn [mbind option_bind].
  repeat (rewrite if_ptr_store; cbn [mbind option_bind]).
  set (m1 := put a3 _ _).
  unfold read_samples. apply N.eqb_neq in Hs as Hs'. rewrite Hs'. cbn [negb].
  unfold XBee_GetIOValues. rewrite Hkind, Z.eqb_refl. cbn [orb].
  replace (Z.to_nat XBEE_INPUTS)
    with (9 + Z.to_nat (XBEE_INPUTS - 9))%nat by lia.
  rewrite for_loop_app.
  edestruct (io_loop_some xbp samples 9) as (s9 & -> & Hci9); [assumption|].
  cbn [mbind option_bind]. cbn [channelIndicators] in Hci9.
  change (Z.of_nat 9) with 9 in *. rewrite Hci in Hci9.
  edestruct (io_loop_zeros xbp samples (Z.to_nat (XBEE_INPUTS - 9)) (0 + 9))
    as (s' & -> & _ & Hzero); [exact Hs|lia|exact Hci9|].
  cbn [mbind option_bind negb]. exists (io_mem s'). split; [reflexivity|].
  intros j Hj. apply Hzero. lia.
Qed.

(** The low byte of the destination never reaches the packet that
    [XBee_CreateTX64Packet] builds: the mask of the first address byte is
    [0xFF * 0].  Two destinations that differ in their low byte only
    build the same packet. *)
Theorem CreateTX64Packet_drops_low_byte
    xbp frameID d d' options data datalength :
  Z.shiftr (uint64 d) 8 = Z.shiftr (uint64 d') 8 →
  XBee_CreateTX64Packet xbp frameID d options data datalength
  = XBee_CreateTX64Packet xbp frameID d' options data datalength.
Proof.
  intros Hhigh. unfold XBee_CreateTX64Packet.
  destruct (poke 0 XBEE_TX64 xbp) as [x1|]; [|reflexivity].
  cbn [mbind option_bind].
  destruct (poke tx64_frameID frameID x1) as [x2|]; [|reflexivity].
  cbn [mbind option_bind].
  rewrite (for_loop_ext
             (λ i xbp, poke (tx64_destination + i)
                         (Z.land (Z.shiftr (uint64 d) (8 * i)) (255 * i)) xbp)
             (λ i xbp, poke (tx64_destination + i)
                         (Z.land (Z.shiftr (uint64 d') (8 * i)) (255 * i)) xbp));
    [reflexivity|].
  intros k s Hk. f_equal.
  destruct (Z.eq_dec k 0) as [->|Hne].
  - rewrite !Z.land_0_r. reflexivity.
  - replace (8 * k) with (8 + 8 * (k - 1)) by lia.
    rewrite <- !Z.shiftr_shiftr by lia. rewrite Hhigh. reflexivity.
Qed.

End MoreSamples.

Lemma ReadRX64Packet_address_is_last_two_bytes_witness :
  ∃ m',
    @XBee_ReadRX64Packet xbee_h rx64_A 10 11 12 13 14 ∅ = Some (true, m')
    ∧ m' !! 10%N
      = Some (byte_at rx64_A (rx64_source + 6) * 2 ^ 56
              + byte_at rx64_A (rx64_source + 7)).
Proof.
  apply (@ReadRX64Packet_address_is_last_two_bytes xbee_h rx64_A
           10 11 12 13 14 ∅);
    first [ reflexivity | discriminate
          | refine (@bool_decide_unpack (_ ∉ _) _ _); vm_compute; exact I
          | vm_compute; intuition congruence ].
Defined.

Lemma GetIOValues_writes_nine_elements_witness :
  ∃ m',
    @XBee_GetIOValues xbee_h io16_pins_0_2 100 ∅
    = Some ((apiId io16_pins_0_2 =? 0x83) || (apiId io16_pins_0_2 =? 0x82), m')
    ∧ (∀ a, (a < 100 ∨ 100 + 9 <= a)%N → m' !! a = (∅ : gmap N Z) !! a)
    ∧ ((apiId io16_pins_0_2 =? 0x83) || (apiId io16_pins_0_2 =? 0x82) = true →
       ∀ j, (j < 9)%N → is_Some (m' !! (100 + j)%N)).
Proof.
  apply (@GetIOValues_writes_nine_elements xbee_h io16_pins_0_2 100 ∅);
    first [ discriminate | vm_compute; intuition congruence ].
Defined.

Lemma ReadIO64Packet_never_gives_samples_witness :
  ∃ m',
    @XBee_ReadIO64Packet xbee_h io64_pins_0_2 10 11 12 100 ∅
    = Some ((apiId io64_pins_0_2 =? 0x80) && (100 =? 0)%N, m')
    ∧ (∀ a, a ≠ 10%N → a ≠ 11%N → a ≠ 12%N → m' !! a = (∅ : gmap N Z) !! a).
Proof.
  apply (@ReadIO64Packet_never_gives_samples xbee_h eq_refl io64_pins_0_2
           10 11 12 100 ∅).
Defined.

Lemma digital_samples_overwritten_by_analog_turns_witness :
  ∃ m',
    @XBee_ReadIO16Packet xbee_h io16_pins_0_2 10 11 12 100 ∅ = Some (true, m')
    ∧ ∀ j, 0 <= j < 15 - 9 → m' !! (100 + Z.to_N j)%N = Some 0.
Proof.
  apply (@digital_samples_overwritten_by_analog_turns xbee_h io16_pins_0_2
           10 11 12 100 ∅);
    first [ reflexivity | discriminate | vm_compute; intuition congruence ].
Defined.

Lemma CreateTX64Packet_drops_low_byte_witness :
  @XBee_CreateTX64Packet xbee_h (blank_packet 100) 1 0x1122334455667788 0
    [65] 1
  = @XBee_CreateTX64Packet xbee_h (blank_packet 100) 1 0x11223344556677FF 0
      [65] 1.
Proof.
  apply (@CreateTX64Packet_drops_low_byte xbee_h (blank_packet 100) 1
           0x1122334455667788 0x11223344556677FF 0 [65] 1).
  reflexivity.
Defined.

(** ** A transmit request to a 64 bit address *)

Lemma blit_then off0 l l2 off bs :
  off = (off0 + length l)%nat →
  blit off l2 (blit off0 l bs) = blit off0 (l ++ l2) bs.
Proof. intros ->. symmetry. apply blit_app. Qed.

Section BuildingTX64.
Context `{hdr : XBeeHeader}.
Hypothesis ok : header_ok = true.

Lemma header_tx64 d :
  0 <= XBEE_TX64 < 256 ∧ spec_payload_length XBEE_TX64 d = d + 11.
Proof using ok.
  header_facts ok. unfold spec_payload_length. repeat split; try assumption.
  rewrite decide_True by auto. reflexivity.
Qed.

Lemma CreateTX64Packet_spec xbp frameID destination options data datalength :
  let n := Z.to_nat (uint8 datalength) in
  11 + Z.of_nat n <= capacity xbp → (n ≤ length data)%nat →
  XBee_CreateTX64Packet xbp frameID destination options data datalength
  = Some (true,
          set_bytes
            (tx64_bytes frameID destination options data n
             ++ drop (11 + n) (bytes xbp))
            (set_plength (uint8 datalength + 5) xbp)).
Proof using ok.
  intros n Hroom Hdata.
  destruct (header_tx64 0) as (Hk & _).
  unfold XBee_CreateTX64Packet, tx64_frameID, tx64_destination, tx64_options,
    tx64_data.
  cbn [for_loop].
  do 11 (rewrite poke_some by (unfold capacity in *; cbn [bytes set_bytes];
                               rewrite ?blit_length; lia);
         cbn [mbind option_bind]).
  rewrite copy_in_spec by (unfold capacity in *;
                           cbn [bytes set_bytes set_plength];
                           rewrite ?blit_length; lia).
  fold n. rewrite (uint8_id XBEE_TX64) by assumption.
  assert (Hlen : length (tx64_bytes frameID destination options data n)
                 = (11 + n)%nat).
  { unfold tx64_bytes. rewrite !length_app, !length_map, length_take.
    cbn [length]. lia. }
  unfold capacity in Hroom. destruct xbp as [bs c d r l i].
  cbn [mbind option_bind set_bytes set_plength bytes crc dataPtr rxState
       plength index] in *.
  do 3 f_equal. rewrite <- Hlen, <- blit_0 by lia.
  unfold tx64_bytes.
  repeat (rewrite blit_then by reflexivity). reflexivity.
Qed.

(** A transmit request built by [XBee_CreateTX64Packet] and sent with the
    same data length: the builder reports success and records the length
    [datalength + 5], while the frame on the line carries the
    [datalength + 11] bytes of kind, frame id, eight destination bytes,
    options and data; the first destination byte on the line is 0. *)
Theorem tx64_built_and_sent w xbp frameID destination options data datalength :
  can_activate w = true →
  0 <= datalength < 256 →
  11 + datalength <= capacity xbp →
  (Z.to_nat datalength ≤ length data)%nat →
  let payload :=
    tx64_bytes frameID destination options data (Z.to_nat datalength) in
  ∃ xbp' r evs,
    XBee_CreateTX64Packet xbp frameID destination options data datalength
    = Some (true, xbp')
    ∧ plength xbp' = datalength + 5
    ∧ XBee_SendPacket w xbp' datalength = Some r
    ∧ r.1.1 = CONTROLLER_OK
    ∧ trace r.1.2 = trace w ++ evs
    ∧ wire evs = frame payload
    ∧ Z.of_nat (length payload) = datalength + 11
    ∧ payload !! 2%nat = Some 0.
Proof using ok.
  intros Hact Hd Hroom Hdata payload.
  destruct (header_tx64 datalength) as (Hk & Hsize).
  pose proof (CreateTX64Packet_spec xbp frameID destination options data
                datalength) as Hbuild.
  cbv zeta in Hbuild. rewrite (uint8_id datalength) in Hbuild by lia.
  rewrite Hbuild by (assumption || lia). clear Hbuild. fold payload.
  assert (Hlen : length payload = (11 + Z.to_nat datalength)%nat).
  { unfold payload, tx64_bytes.
    rewrite !length_app, !length_map, !length_take. cbn [length]. lia. }
  set (rest := drop (11 + Z.to_nat datalength) (bytes xbp)).
  set (xbp' := set_bytes (payload ++ rest)
                 (set_plength (datalength + 5) xbp)).
  destruct (send_built ok w xbp' datalength payload rest Hact eq_refl)
    as (r & evs & Hsend & Hok & Htrace & Hwire).
  - change (apiId xbp') with XBEE_TX64. rewrite Hsize, Hlen. lia.
  - rewrite Hlen. lia.
  - unfold payload, tx64_bytes.
    repeat apply Forall_app_2; try apply map_uint8_range.
    + repeat constructor; try lia; apply uint8_range.
    + repeat constructor; apply uint8_range.
    + repeat constructor; apply uint8_range.
  - exists xbp', r, evs. split; [reflexivity|].
    split; [destruct xbp; reflexivity|].
    repeat (split; [assumption|]). split; [lia|].
    unfold payload, tx64_bytes. cbn [app map lookup list_lookup].
    rewrite Z.land_0_r. reflexivity.
Qed.

End BuildingTX64.

Lemma tx64_built_and_sent_witness :
  ∃ xbp' r evs,
    @XBee_CreateTX64Packet xbee_h (blank_packet 100) 1 0x1122334455667788 0
      [65; 66] 2
    = Some (true, xbp')
    ∧ plength xbp' = 2 + 5
    ∧ @XBee_SendPacket xbee_h idle_world xbp' 2 = Some r
    ∧ r.1.1 = 0
    ∧ trace r.1.2 = trace idle_world ++ evs
    ∧ wire evs
      = @frame xbee_h (@tx64_bytes xbee_h 1 0x1122334455667788 0 [65; 66]
                         (Z.to_nat 2))
    ∧ Z.of_nat (length (@tx64_bytes xbee_h 1 0x1122334455667788 0 [65; 66]
                          (Z.to_nat 2))) = 2 + 11
    ∧ @tx64_bytes xbee_h 1 0x1122334455667788 0 [65; 66] (Z.to_nat 2)
      !! 2%nat = Some 0.
Proof.
  apply (@tx64_built_and_sent xbee_h eq_refl idle_world (blank_packet 100)
           1 0x1122334455667788 0 [65; 66] 2);
    first [reflexivity | vm_compute; lia | vm_compute; intuition congruence].
Defined.

(** ** Frames in a row, with and without the reset between them *)

Section Queue.
Context `{hdr : XBeeHeader}.
Hypothesis ok : header_ok = true.

(** Two frames that wait in the port: the first call answers with the
    first and leaves the second unread; after the reset, the next call
    answers with the second and the port is empty. *)
Theorem queued_frames_one_per_call w p0 payload1 payload2 :
  can_activate w = true → rxq w = [] →
  decodable payload1 (capacity p0) = true →
  decodable payload2 (capacity p0) = true →
  ∃ w1 p1 w2 p2,
    XBee_GetPacket (offer (frame payload1 ++ frame payload2) w)
      (XBee_ResetPacket p0)
    = Some (1, w1, p1)
    ∧ take (length payload1) (bytes p1) = payload1
    ∧ rxq w1 = frame payload2
    ∧ XBee_GetPacket w1 (XBee_ResetPacket p1) = Some (1, w2, p2)
    ∧ take (length payload2) (bytes p2) = payload2
    ∧ rxq w2 = [].
Proof using ok.
  intros Hact Hq Hdec1 Hdec2.
  pose proof (decodable_spec _ _ Hdec1) as (_ & _ & _ & _ & Hn1 & Hroom1).
  assert (Hfirst :
    XBee_GetPacket (offer (frame payload1 ++ frame payload2) w)
      (XBee_ResetPacket p0)
    = Some (1, mkWorld true (serial_ok w) (frame payload2) (trace w),
            mkPacket (payload1 ++ drop (length payload1)
                                    (bytes (XBee_ResetPacket p0)))
              255 (Z.of_nat (length payload1)) XBEE_PACKET_RX_START
              (Z.of_nat (length payload1)) (Z.of_nat (length payload1)))).
  { rewrite GetPacket_active by (destruct w; assumption).
    unfold offer. cbn [rxq set_rxq serial_ok trace]. rewrite Hq, app_nil_l.
    rewrite (rx_frame ok) by
      (rewrite ?reset_capacity; auto using reset_clean).
    reflexivity. }
  rewrite Hfirst.
  set (p1 := mkPacket _ 255 _ _ _ _).
  assert (Hcap : capacity p1 = capacity p0).
  { unfold p1, capacity in *. cbn [bytes XBee_ResetPacket set_apiId set_bytes
      set_crc set_dataPtr set_rxState set_plength set_index].
    rewrite length_app, length_drop, length_insert. lia. }
  assert (Hsecond :
    XBee_GetPacket (mkWorld true (serial_ok w) (frame payload2) (trace w))
      (XBee_ResetPacket p1)
    = Some (1, mkWorld true (serial_ok w) [] (trace w),
            mkPacket (payload2 ++ drop (length payload2)
                                    (bytes (XBee_ResetPacket p1)))
              255 (Z.of_nat (length payload2)) XBEE_PACKET_RX_START
              (Z.of_nat (length payload2)) (Z.of_nat (length payload2)))).
  { rewrite GetPacket_active by reflexivity.
    cbn [rxq serial_ok trace].
    rewrite <- (app_nil_r (frame payload2)).
    rewrite (rx_frame ok) by
      (rewrite ?reset_capacity, ?Hcap; auto using reset_clean).
    reflexivity. }
  eexists _, _, _, _. split; [reflexivity|].
  split; [apply take_app_length|]. split; [reflexivity|].
  split; [exact Hsecond|]. split; [apply take_app_length|reflexivity].
Qed.

(** [XBee_GetPacket] never resets a packet that waits for a start byte:
    over a packet left as a call that answered 1 leaves it (or any packet
    in that state whose cursor is inside it), the first payload byte of
    the next frame is stored where the cursor was and added to the old
    checksum, and the byte count goes on from the old one. *)
Theorem unreset_packet_goes_on_from_its_cursor w p hi lo b :
  can_activate w = true → rxq w = [] →
  rxState p = XBEE_PACKET_RX_START →
  0 <= dataPtr p < capacity p → 0 <= index p < 2 ^ 31 - 1 →
  plain hi = true → plain lo = true → plain b = true →
  ∃ w' p',
    XBee_GetPacket (offer [XBEE_PACKET_STARTBYTE; hi; lo; b] w) p
    = Some (0, w', p')
    ∧ bytes p' = <[Z.to_nat (dataPtr p) := b]> (bytes p)
    ∧ dataPtr p' = dataPtr p + 1
    ∧ index p' = index p + 1
    ∧ crc p' = uint8 (crc p + b).
Proof using ok.
  intros Hact Hq Hst Hd Hi Hhi Hlo Hb.
  destruct (header_bounds ok) as (Hstart & _ & _).
  apply plain_spec in Hhi as [Hhi Hhi'], Hlo as [Hlo Hlo'], Hb as [Hb Hb'].
  rewrite GetPacket_active by (destruct w; assumption).
  unfold offer. cbn [rxq set_rxq serial_ok trace]. rewrite Hq, app_nil_l.
  destruct p as [bs cr d st l i]. unfold capacity in Hd.
  cbn [rxState dataPtr index bytes crc] in *. subst st.
  rewrite rx_loop_cons, rx_char_startbyte by lia.
  cbn [rxState RxState_eqb set_rxState bytes crc dataPtr plength index].
  rewrite rx_loop_cons, rx_char_length1 by (assumption || lia).
  rewrite rx_loop_cons, rx_char_length2 by (assumption || lia).
  rewrite rx_loop_cons, rx_char_payload by (assumption || lia).
  rewrite (int32_id (i + 1)) by lia. rewrite (uint8_id b) by assumption.
  cbn [rx_loop mbind option_bind].
  eexists _, _. split; [reflexivity|]. repeat split.
Qed.

End Queue.

Lemma queued_frames_one_per_call_witness :
  ∃ w1 p1 w2 p2,
    @XBee_GetPacket xbee_h
      (offer (@frame xbee_h [0x81; 0x12] ++ @frame xbee_h [0x89; 1; 0])
         idle_world)
      (XBee_ResetPacket (blank_packet 100))
    = Some (1, w1, p1)
    ∧ take (length [0x81; 0x12]) (bytes p1) = [0x81; 0x12]
    ∧ rxq w1 = @frame xbee_h [0x89; 1; 0]
    ∧ @XBee_GetPacket xbee_h w1 (XBee_ResetPacket p1) = Some (1, w2, p2)
    ∧ take (length [0x89; 1; 0]) (bytes p2) = [0x89; 1; 0]
    ∧ rxq w2 = [].
Proof.
  apply (@queued_frames_one_per_call xbee_h eq_refl idle_world
           (blank_packet 100) [0x81; 0x12] [0x89; 1; 0]);
    reflexivity.
Defined.

Lemma unreset_packet_goes_on_from_its_cursor_witness :
  let p := mkPacket [0x81; 0x12; 0; 0] 255 2 XBEE_PACKET_RX_START 2 2 in
  ∃ w' p',
    @XBee_GetPacket xbee_h (offer [0x7E; 0; 3; 0x89] idle_world) p
    = Some (0, w', p')
    ∧ bytes p' = <[Z.to_nat (dataPtr p) := 0x89]> (bytes p)
    ∧ dataPtr p' = dataPtr p + 1
    ∧ index p' = index p + 1
    ∧ crc p' = uint8 (crc p + 0x89).
Proof.
  apply (@unreset_packet_goes_on_from_its_cursor xbee_h eq_refl idle_world
           (mkPacket [0x81; 0x12; 0; 0] 255 2 XBEE_PACKET_RX_START 2 2)
           0 3 0x89);
    first [reflexivity | vm_compute; intuition congruence].
Defined.

(** ** The task *)

Section Task.
Context `{hdr : XBeeHeader}.
Hypothesis ok : header_ok = true.

Lemma SetPacketApiMode_some w : ∃ w', XBeeConfig_SetPacketApiMode w = Some w'.
Proof using Type.
  unfold XBeeConfig_SetPacketApiMode, XBee_SetActive. cbn [Z.eqb negb].
  destruct (xbee w), (serial_ok w); cbn [negb mbind option_bind];
    destruct (negb (CONTROLLER_OK =? _)); eexists; reflexivity.
Qed.

Lemma GetPacket_keeps_trace w p r w' p' :
  XBee_GetPacket w p = Some (r, w', p') → trace w' = trace w.
Proof using Type.
  unfold XBee_GetPacket, XBee_SetActive. cbn [Z.eqb negb].
  destruct (xbee w), (serial_ok w); cbn [negb mbind option_bind];
    destruct (negb (CONTROLLER_OK =? _));
    try (intros [= <- <- <-]; reflexivity);
    destruct (rx_loop p _) as [[[r1 p1] q1]|]; cbn [mbind option_bind];
    try discriminate; intros [= <- <- <-]; reflexivity.
Qed.

(** The samples that the task asks for stay in its array of nine. *)
Lemma ReadIO16Packet_samples_confined xbp in_ m :
  in_ ≠ 0%N → 9 <= XBEE_INPUTS <= 18 →
  ∃ b m',
    XBee_ReadIO16Packet xbp 0 0 0 in_ m = Some (b, m')
    ∧ ∀ a, (a < in_ ∨ in_ + 9 <= a)%N → m' !! a = m !! a.
Proof using Type.
  intros Hin Hn. unfold XBee_ReadIO16Packet.
  destruct (apiId xbp =? XBEE_IO16) eqn:Hkind; cbn [negb].
  2:{ exists false, m. split; reflexivity. }
  repeat (rewrite if_ptr_null; cbn [mbind option_bind]).
  unfold read_samples. apply N.eqb_neq in Hin as Hin'. rewrite Hin'.
  cbn [negb]. unfold XBee_GetIOValues. rewrite Hkind. cbn [orb].
  edestruct (io_loop_some xbp in_ (Z.to_nat XBEE_INPUTS) 0)
    as (s' & Hloop & _); [exact Hin|].
  rewrite Hloop. cbn [mbind option_bind negb].
  destruct (io_loop_frame _ _ _ _ _ _ Hin Hloop) as (Hframe & _ & _).
  exists true, (io_mem s'). split; [reflexivity|].
  intros a Ha. rewrite Hframe; [reflexivity|].
  intros k Hk. unfold io_slot. destruct (Z.ltb_spec k 9); lia.
Qed.

Lemma XBeeTask_turn_safe in_ w p m :
  in_ ≠ 0%N → 9 <= XBEE_INPUTS <= 18 → receiving p →
  ∃ w' p' m',
    XBeeTask_turn in_ w p m = Some (w', p', m')
    ∧ receiving p'
    ∧ (∀ a, (a < in_ ∨ in_ + 9 <= a)%N → m' !! a = m !! a)
    ∧ trace w' = trace w ++ [Slept 5].
Proof using ok.
  intros Hin Hn Hrec. unfold XBeeTask_turn.
  destruct (GetPacket_receiving ok w p Hrec) as (r & w1 & p1 & Hget & Hb & Hr).
  rewrite Hget. cbn [mbind option_bind].
  apply GetPacket_keeps_trace in Hget as Htrace.
  destruct (Z.eqb_spec r 0) as [->|_]; cbn [negb mbind option_bind].
  - eexists _, _, _. split; [reflexivity|].
    cbn [trace emit]. rewrite Htrace. auto.
  - destruct (ReadIO16Packet_samples_confined p1 in_ m Hin Hn)
      as (b & m' & -> & Hframe).
    cbn [mbind option_bind]. eexists _, _, _. split; [reflexivity|].
    cbn [trace emit]. rewrite Htrace.
    split; [apply (reset_receiving ok), Hb|]. auto.
Qed.

Lemma XBeeTask_turns_safe in_ chunks : ∀ w p m,
  in_ ≠ 0%N → 9 <= XBEE_INPUTS <= 18 → receiving p →
  ∃ w' p' m',
    XBeeTask_turns in_ chunks w p m = Some (w', p', m')
    ∧ receiving p'
    ∧ (∀ a, (a < in_ ∨ in_ + 9 <= a)%N → m' !! a = m !! a)
    ∧ trace w' = trace w ++ replicate (length chunks) (Slept 5).
Proof using ok.
  induction chunks as [|chunk chunks IH]; intros w p m Hin Hn Hrec.
  { exists w, p, m. split; [reflexivity|]. split; [assumption|].
    split; [reflexivity|]. cbn. rewrite app_nil_r. reflexivity. }
  cbn [XBeeTask_turns].
  destruct (XBeeTask_turn_safe in_ (offer chunk w) p m Hin Hn Hrec)
    as (w1 & p1 & m1 & -> & Hrec1 & Hframe1 & Htrace1).
  cbn [mbind option_bind].
  destruct (IH w1 p1 m1 Hin Hn Hrec1) as (w' & p' & m' & -> & Hrec' & Hframe & Htrace).
  exists w', p', m'. split; [reflexivity|]. split; [assumption|]. split.
  - intros a Ha. rewrite Hframe, Hframe1 by assumption. reflexivity.
  - rewrite Htrace, Htrace1. cbn [length replicate trace offer set_rxq].
    rewrite <- app_assoc. reflexivity.
Qed.

(** [XBeeTask], for as many turns of its loop as one likes and whatever
    the port receives between them: with a packet that has room for the
    largest payload and [XBEE_INPUTS] between 9 and 18, every turn
    returns, the write cursor of the packet never leaves it, nothing is
    stored outside the nine elements of the array [in], and after entering
    packet mode the task does nothing to the line but sleep 5 ms a
    turn. *)
Theorem XBeeTask_stays_in_bounds in_ chunks w myPacket m :
  in_ ≠ 0%N → 9 <= XBEE_INPUTS <= 18 →
  XBEE_MAX_PACKET_SIZE <= capacity myPacket →
  ∃ w1 w' p' m',
    XBeeTask_enter w myPacket = Some (w1, XBee_ResetPacket myPacket)
    ∧ XBeeTask_turns in_ chunks w1 (XBee_ResetPacket myPacket) m
      = Some (w', p', m')
    ∧ dataPtr p' = index p'
    ∧ 0 <= index p' <= XBEE_MAX_PACKET_SIZE
    ∧ XBEE_MAX_PACKET_SIZE <= capacity p'
    ∧ (∀ a, (a < in_ ∨ in_ + 9 <= a)%N → m' !! a = m !! a)
    ∧ trace w' = trace w1 ++ replicate (length chunks) (Slept 5).
Proof using ok.
  intros Hin Hn Hcap. unfold XBeeTask_enter.
  destruct (SetPacketApiMode_some w) as (w1 & ->). cbn [mbind option_bind].
  destruct (XBeeTask_turns_safe in_ chunks w1 (XBee_ResetPacket myPacket) m
              Hin Hn (reset_receiving ok _ Hcap))
    as (w' & p' & m' & Hturns & ((Hc & Hd & Hi) & _) & Hframe & Htrace).
  exists w1, w', p', m'. repeat split; try assumption; lia.
Qed.

End Task.

Lemma XBeeTask_stays_in_bounds_witness :
  ∃ w1 w' p' m',
    @XBeeTask_enter xbee_h idle_world (blank_packet 100)
    = Some (w1, XBee_ResetPacket (blank_packet 100))
    ∧ @XBeeTask_turns xbee_h 100
        [[0x7E; 0; 10; 0x83; 0x12]; [0x34; 40; 0; 1; 0; 5; 0; 5; 0x03]; []]
        w1 (XBee_ResetPacket (blank_packet 100)) ∅
      = Some (w', p', m')
    ∧ dataPtr p' = index p'
    ∧ 0 <= index p' <= 100
    ∧ 100 <= capacity p'
    ∧ (∀ a, (a < 100 ∨ 100 + 9 <= a)%N → m' !! a = (∅ : gmap N Z) !! a)
    ∧ trace w' = trace w1 ++ replicate 3 (Slept 5).
Proof.
  apply (@XBeeTask_stays_in_bounds xbee_h eq_refl 100
           [[0x7E; 0; 10; 0x83; 0x12]; [0x34; 40; 0; 1; 0; 5; 0; 5; 0x03]; []]
           idle_world (blank_packet 100) ∅);
    first [discriminate | vm_compute; intuition congruence].
Defined.
